(** * 13F quarter-over-quarter diff engine and thesis-signal detector

    A shallow embedding of [thirteen_f/analysis/diff.py] and
    [thirteen_f/analysis/signals.py], and the properties of the two
    functions [compute_quarter_diff] and [detect_signals] (with its
    companion [detect_starter_to_scale]); with them the keyword
    clustering of [thirteen_f/analysis/clustering.py], which the
    detector calls, and the position label of
    [thirteen_f/reports/fund_report.py].

    Conventions of the embedding.
    - Python [int] is [Z] (unbounded on both sides).
    - Python [float] values only arise here as quotients of two integers
      and as sums, products and differences of such quotients.  They are
      modelled by the exact rational ([Q]) they approximate; rounding and
      the overflow of a quotient beyond the float range are not modelled,
      except in the module [Binary64], which takes the concentration sums
      on binary64 floats.
      Float literals of the source (0.0005, 0.05, ...) are the rationals
      they denote.
    - [x / y] on integers raises [ZeroDivisionError] when [y = 0]; code
      that may raise lives in the [result] monad below.
    - A [dict] is an association list in insertion order, which is the
      order CPython iterates it in.
    - [str | None], [int | None], [float | None] are [option]s.
    - A [str] is a [string]; [str.upper] is modelled on ASCII
      characters only. *)

From Stdlib Require Import ZArith QArith Qabs List String Ascii Bool Lia Lqa.
From Stdlib Require Floats Uint63.
From Stdlib Require Import Permutation Sorted.
Import ListNotations.

Open Scope string_scope.
Open Scope list_scope.
Open Scope Z_scope.

(** ** Python primitives *)

Module Py.

(** Exceptions that the modelled code could raise. *)
Inductive exn : Type :=
| ZeroDivisionError
| AttributeError.

Inductive result (A : Type) : Type :=
| Ok (a : A)
| Raise (e : exn).
Arguments Ok {A} a.
Arguments Raise {A} e.

Definition bind {A B : Type} (m : result A) (k : A -> result B) : result B :=
  match m with
  | Ok a => k a
  | Raise e => Raise e
  end.

Fixpoint mapM {A B : Type} (f : A -> result B) (l : list A) : result (list B) :=
  match l with
  | [] => Ok []
  | x :: l' =>
      bind (f x) (fun y => bind (mapM f l') (fun ys => Ok (y :: ys)))
  end.

(** [a / b] on two integers (true division). *)
Definition truediv (a b : Z) : result Q :=
  if b =? 0 then Raise ZeroDivisionError
  else Ok (inject_Z a / inject_Z b)%Q.

(** Truthiness of an [int | None] and of an [int]. *)
Definition truthy_opt (o : option Z) : bool :=
  match o with
  | Some v => negb (v =? 0)
  | None => false
  end.

Definition truthy (v : Z) : bool := negb (v =? 0).

(** [o or 0] on an [int | None]. *)
Definition or0 (o : option Z) : Z :=
  match o with
  | Some v => v
  | None => 0
  end.

(** [o or 0] on a [float | None]. *)
Definition or0Q (o : option Q) : Q :=
  match o with
  | Some q => q
  | None => 0%Q
  end.

(** [s or d] on a [str | None]: the empty string is falsy. *)
Definition str_or (o : option string) (d : string) : string :=
  match o with
  | Some s => if String.eqb s "" then d else s
  | None => d
  end.

(** [sum(l)] starts from 0 and adds from the left. *)
Definition sumZ (l : list Z) : Z := fold_left Z.add l 0.
Definition sumQ (l : list Q) : Q := fold_left Qplus l 0%Q.

Definition Qltb (x y : Q) : bool := negb (Qle_bool y x).

(** [l[:n]]. *)
Definition take {A : Type} (n : nat) (l : list A) : list A := firstn n l.

(** [l[-n:]] for [n >= 0]: the last [n] elements, all of [l] when
    [n] exceeds its length, and all of [l] when [n = 0] (as [-0 = 0]). *)
Definition last_n {A : Type} (n : nat) (l : list A) : list A :=
  match n with
  | O => l
  | _ => skipn (List.length l - n) l
  end.

(** [sorted(l, key=...)] is a stable sort.  [before y x] says that [y]
    must come strictly before [x]; an element is inserted in front of
    the first element that need not precede it, so elements that
    compare equal keep their order in [l].  With [reverse=True] Python
    keeps that stability too, which is what [before := key y > key x]
    gives. *)
Fixpoint insert_by {A : Type} (before : A -> A -> bool) (x : A) (l : list A)
  : list A :=
  match l with
  | [] => [x]
  | y :: l' => if before y x then y :: insert_by before x l' else x :: y :: l'
  end.

Definition sorted_by {A : Type} (before : A -> A -> bool) (l : list A)
  : list A :=
  fold_right (insert_by before) [] l.

(** ** Insertion-ordered dictionaries *)

Section Dict.
Context {V : Type}.

Definition dict : Type := list (string * V).

Fixpoint get (k : string) (d : dict) : option V :=
  match d with
  | [] => None
  | (k', v) :: d' => if String.eqb k k' then Some v else get k d'
  end.

(** [d[k] = v]: an existing key keeps its position. *)
Fixpoint set (k : string) (v : V) (d : dict) : dict :=
  match d with
  | [] => [(k, v)]
  | (k', v') :: d' =>
      if String.eqb k k' then (k', v) :: d' else (k', v') :: set k v d'
  end.

Definition keys (d : dict) : list string := map fst d.

Definition mem (k : string) (d : dict) : bool :=
  match get k d with
  | Some _ => true
  | None => false
  end.
End Dict.
Arguments dict V : clear implicits.

Definition str_mem (k : string) (l : list string) : bool :=
  existsb (String.eqb k) l.

(** [set(a) | set(b)] enumerated: the keys of [a], then those of [b]
    not in [a].  CPython enumerates a set of strings in an order that
    depends on the hashes; what is proved about the enumeration below
    only uses which keys it holds, each once. *)
Definition union_keys (a b : list string) : list string :=
  a ++ filter (fun k => negb (str_mem k a)) b.

End Py.

Notation "x <- m ;; k" := (Py.bind m (fun x => k))
  (at level 61, m at next level, right associativity).

(** ** Records of [storage/models.py] and [config.py] *)

(** A field of [HoldingRecord] that shares its name with a field of
    [PositionDiff] carries the prefix [h_] here ([h_cusip] is
    [HoldingRecord.cusip]); [fund_id_of] is [FilingRecord.fund_id]. *)

Record HoldingRecord : Type := {
  h_id : option Z;
  filing_id : Z;
  h_issuer_name : string;
  h_title_of_class : string;
  h_cusip : string;
  figi : option string;
  value_thousands : Z;
  value_usd : Z;
  shares_or_principal : Z;
  shares_type : string;
  h_put_call : option string;
  investment_discretion : string;
  voting_sole : Z;
  voting_shared : Z;
  voting_none : Z
}.

Record FilingRecord : Type := {
  id : option Z;
  fund_id_of : Z;
  accession_number : string;
  form_type : string;
  filing_date : string;
  period_of_report : string;
  is_amendment : bool;
  total_value_usd : Z;
  position_count : Z
}.

(** The part of [Database] the diff engine reads: the filings of a fund
    (most recent period first) and the holdings of a filing, as
    [get_filings_for_fund] and [get_holdings_for_filing] return them. *)
Record Database : Type := {
  get_filings_for_fund : Z -> list FilingRecord;
  get_holdings_for_filing : option Z -> list HoldingRecord
}.

(** The thresholds of [Config] that the diff engine reads. *)
Record Config : Type := {
  starter_weight_min : Q;
  starter_weight_max : Q;
  starter_value_threshold : Z
}.

(** ** [analysis/diff.py] *)

Inductive ChangeType : Type := NEW | EXIT | INCREASE | DECREASE | UNCHANGED.

Definition change_type_eqb (a b : ChangeType) : bool :=
  match a, b with
  | NEW, NEW | EXIT, EXIT | INCREASE, INCREASE
  | DECREASE, DECREASE | UNCHANGED, UNCHANGED => true
  | _, _ => false
  end.

Record PositionDiff : Type := {
  cusip : string;
  issuer_name : string;
  title_of_class : string;
  prev_value_usd : option Z;
  now_value_usd : option Z;
  delta_value_usd : Z;
  prev_shares : option Z;
  now_shares : option Z;
  delta_shares : Z;
  prev_weight : option Q;
  now_weight : option Q;
  growth_rate : option Q;
  portfolio_impact : option Q;
  change_type : ChangeType;
  is_starter : bool;
  put_call : option string
}.

Record QuarterDiff : Type := {
  fund_id : Z;
  fund_name : string;
  period_from : string;
  period_to : string;
  total_portfolio_prev : Z;
  total_portfolio_now : Z;
  new_positions : list PositionDiff;
  sold_out : list PositionDiff;
  increased : list PositionDiff;
  decreased : list PositionDiff;
  unchanged : list PositionDiff;
  top_adds_by_value : list PositionDiff;
  top_cuts_by_value : list PositionDiff;
  top_adds_by_growth_rate : list PositionDiff;
  top_cuts_by_growth_rate : list PositionDiff;
  top_adds_by_portfolio_impact : list PositionDiff;
  top_cuts_by_portfolio_impact : list PositionDiff;
  new_starters : list PositionDiff;
  increased_starters : list PositionDiff;
  concentration_top5 : Q;
  concentration_top10 : Q;
  herfindahl_index : Q;
  position_count_prev : Z;
  position_count_now : Z;
  gross_adds_value : Z;
  gross_cuts_value : Z
}.

Definition _holding_key (h : HoldingRecord) : string :=
  let put_call := Py.str_or (h_put_call h) "NONE" in
  (h_cusip h ++ "|" ++ h_title_of_class h ++ "|" ++ put_call)%string.

Definition _is_starter (weight : option Q) (value : option Z) (config : Config)
  : bool :=
  if match value with
     | Some v => v <? starter_value_threshold config
     | None => false
     end
  then true
  else
    match weight with
    | Some w =>
        if Qle_bool (starter_weight_min config) w
           && Qle_bool w (starter_weight_max config)
        then true else false
    | None => false
    end.

(** [{_holding_key(h): h for h in holdings}] *)
Definition by_key (holdings : list HoldingRecord) : Py.dict HoldingRecord :=
  fold_left (fun d h => Py.set (_holding_key h) h d) holdings [].

(** The classification chain of the loop body. *)
Definition classify (h_prev h_now : option HoldingRecord) (delta_value : Z)
  : ChangeType :=
  match h_prev, h_now with
  | None, Some _ => NEW
  | Some _, None => EXIT
  | _, _ =>
      if delta_value >? 0 then INCREASE
      else if delta_value <? 0 then DECREASE
      else UNCHANGED
  end.

(** One iteration of [for key in all_keys], up to [diffs.append(diff)]. *)
Definition position_diff
    (prev_by_key now_by_key : Py.dict HoldingRecord)
    (total_prev total_now : Z) (config : Config) (key : string)
  : Py.result PositionDiff :=
  let h_prev := Py.get key prev_by_key in
  let h_now := Py.get key now_by_key in
  let prev_value := option_map value_usd h_prev in
  let now_value := option_map value_usd h_now in
  let prev_shares := option_map shares_or_principal h_prev in
  let now_shares := option_map shares_or_principal h_now in
  let delta_value := Py.or0 now_value - Py.or0 prev_value in
  let delta_shares := Py.or0 now_shares - Py.or0 prev_shares in
  prev_weight <-
    (match prev_value with
     | Some v =>
         if Py.truthy v && Py.truthy total_prev
         then (w <- Py.truediv v total_prev ;; Py.Ok (Some w))
         else Py.Ok None
     | None => Py.Ok None
     end) ;;
  now_weight <-
    (match now_value with
     | Some v =>
         if Py.truthy v && Py.truthy total_now
         then (w <- Py.truediv v total_now ;; Py.Ok (Some w))
         else Py.Ok None
     | None => Py.Ok None
     end) ;;
  growth_rate <-
    (match prev_value, now_value with
     | Some pv, Some nv =>
         if Py.truthy pv && (pv >? 0)
         then (g <- Py.truediv (nv - pv) pv ;; Py.Ok (Some g))
         else Py.Ok None
     | _, _ => Py.Ok None
     end) ;;
  portfolio_impact <-
    (if total_prev >? 0
     then (i <- Py.truediv delta_value total_prev ;; Py.Ok (Some i))
     else Py.Ok None) ;;
  let change_type := classify h_prev h_now delta_value in
  let is_starter := _is_starter now_weight now_value config in
  match (match h_now with Some h => Some h | None => h_prev end) with
  | None => Py.Raise Py.AttributeError
  | Some ref =>
      Py.Ok {|
        cusip := h_cusip ref;
        issuer_name := h_issuer_name ref;
        title_of_class := h_title_of_class ref;
        prev_value_usd := prev_value;
        now_value_usd := now_value;
        delta_value_usd := delta_value;
        prev_shares := prev_shares;
        now_shares := now_shares;
        delta_shares := delta_shares;
        prev_weight := prev_weight;
        now_weight := now_weight;
        growth_rate := growth_rate;
        portfolio_impact := portfolio_impact;
        change_type := change_type;
        is_starter := is_starter;
        put_call := h_put_call ref
      |}
  end.

Definition is_some {A : Type} (o : option A) : bool :=
  match o with Some _ => true | None => false end.

Definition has_type (t : ChangeType) (d : PositionDiff) : bool :=
  change_type_eqb (change_type d) t.

(** [x is not None and x >= c] on a [float | None]. *)
Definition opt_geQ (o : option Q) (c : Q) : bool :=
  match o with
  | Some q => Qle_bool c q
  | None => false
  end.

Definition compute_quarter_diff
    (db : Database) (fund_id : Z) (fund_name : string)
    (filing_prev filing_now : FilingRecord) (config : Config)
  : Py.result QuarterDiff :=
  let holdings_prev := get_holdings_for_filing db (id filing_prev) in
  let holdings_now := get_holdings_for_filing db (id filing_now) in
  let total_prev := Py.sumZ (map value_usd holdings_prev) in
  let total_now := Py.sumZ (map value_usd holdings_now) in
  let prev_by_key := by_key holdings_prev in
  let now_by_key := by_key holdings_now in
  let all_keys := Py.union_keys (Py.keys prev_by_key) (Py.keys now_by_key) in
  diffs <-
    Py.mapM (position_diff prev_by_key now_by_key total_prev total_now config)
            all_keys ;;
  let new_positions := filter (has_type NEW) diffs in
  let sold_out := filter (has_type EXIT) diffs in
  let increased := filter (has_type INCREASE) diffs in
  let decreased := filter (has_type DECREASE) diffs in
  let unchanged := filter (has_type UNCHANGED) diffs in
  let adds := filter (fun d => delta_value_usd d >? 0) diffs in
  let cuts := filter (fun d => delta_value_usd d <? 0) diffs in
  let top_adds_by_value :=
    Py.take 10
      (Py.sorted_by (fun y x => delta_value_usd y >? delta_value_usd x) adds) in
  let top_cuts_by_value :=
    Py.take 10
      (Py.sorted_by (fun y x => delta_value_usd y <? delta_value_usd x) cuts) in
  let adds_with_growth :=
    filter (fun d => is_some (growth_rate d) && negb (has_type NEW d)) adds in
  let cuts_with_growth := filter (fun d => is_some (growth_rate d)) cuts in
  let top_adds_by_growth_rate :=
    Py.take 10
      (Py.sorted_by
         (fun y x => Py.Qltb (Py.or0Q (growth_rate x)) (Py.or0Q (growth_rate y)))
         adds_with_growth) in
  let top_cuts_by_growth_rate :=
    Py.take 10
      (Py.sorted_by
         (fun y x => Py.Qltb (Py.or0Q (growth_rate y)) (Py.or0Q (growth_rate x)))
         cuts_with_growth) in
  let adds_with_impact := filter (fun d => is_some (portfolio_impact d)) adds in
  let cuts_with_impact := filter (fun d => is_some (portfolio_impact d)) cuts in
  let top_adds_by_portfolio_impact :=
    Py.take 10
      (Py.sorted_by
         (fun y x =>
            Py.Qltb (Py.or0Q (portfolio_impact x)) (Py.or0Q (portfolio_impact y)))
         adds_with_impact) in
  let top_cuts_by_portfolio_impact :=
    Py.take 10
      (Py.sorted_by
         (fun y x =>
            Py.Qltb (Py.or0Q (portfolio_impact y)) (Py.or0Q (portfolio_impact x)))
         cuts_with_impact) in
  let new_starters := filter is_starter new_positions in
  let increased_starters :=
    filter
      (fun d =>
         is_starter d
         && (opt_geQ (growth_rate d) 1 || opt_geQ (portfolio_impact d) (5 # 10000)))
      increased in
  weights <-
    Py.mapM (fun h => Py.truediv (value_usd h) total_now)
            (filter (fun _ => total_now >? 0) holdings_now) ;;
  let weights_now := Py.sorted_by (fun y x => Py.Qltb x y) weights in
  let concentration_top5 :=
    if (5 <=? List.length weights_now)%nat
    then Py.sumQ (Py.take 5 weights_now) else Py.sumQ weights_now in
  let concentration_top10 :=
    if (10 <=? List.length weights_now)%nat
    then Py.sumQ (Py.take 10 weights_now) else Py.sumQ weights_now in
  let herfindahl :=
    match weights_now with
    | [] => 0%Q
    | _ => Py.sumQ (map (fun w => (w * w)%Q) weights_now)
    end in
  let gross_adds := Py.sumZ (map delta_value_usd adds) in
  let gross_cuts := Py.sumZ (map (fun d => Z.abs (delta_value_usd d)) cuts) in
  Py.Ok {|
    fund_id := fund_id;
    fund_name := fund_name;
    period_from := period_of_report filing_prev;
    period_to := period_of_report filing_now;
    total_portfolio_prev := total_prev;
    total_portfolio_now := total_now;
    new_positions := new_positions;
    sold_out := sold_out;
    increased := increased;
    decreased := decreased;
    unchanged := unchanged;
    top_adds_by_value := top_adds_by_value;
    top_cuts_by_value := top_cuts_by_value;
    top_adds_by_growth_rate := top_adds_by_growth_rate;
    top_cuts_by_growth_rate := top_cuts_by_growth_rate;
    top_adds_by_portfolio_impact := top_adds_by_portfolio_impact;
    top_cuts_by_portfolio_impact := top_cuts_by_portfolio_impact;
    new_starters := new_starters;
    increased_starters := increased_starters;
    concentration_top5 := concentration_top5;
    concentration_top10 := concentration_top10;
    herfindahl_index := herfindahl;
    position_count_prev := Z.of_nat (List.length holdings_prev);
    position_count_now := Z.of_nat (List.length holdings_now);
    gross_adds_value := gross_adds;
    gross_cuts_value := gross_cuts
  |}.

(** The loop of [compute_all_diffs]: [filings[i]] is the current filing
    and [filings[i + 1]] the previous one. *)
Fixpoint adjacent_diffs
    (db : Database) (fund_id : Z) (fund_name : string) (config : Config)
    (filings : list FilingRecord) : Py.result (list QuarterDiff) :=
  match filings with
  | filing_now :: rest =>
      match rest with
      | filing_prev :: _ =>
          diff <- compute_quarter_diff db fund_id fund_name
                    filing_prev filing_now config ;;
          diffs <- adjacent_diffs db fund_id fund_name config rest ;;
          Py.Ok (diff :: diffs)
      | [] => Py.Ok []
      end
  | [] => Py.Ok []
  end.

Definition compute_all_diffs
    (db : Database) (fund_id : Z) (fund_name : string) (config : Config)
  : Py.result (list QuarterDiff) :=
  let filings := get_filings_for_fund db fund_id in
  if (List.length filings <? 2)%nat then Py.Ok []
  else adjacent_diffs db fund_id fund_name config filings.

(** ** [analysis/signals.py] *)

Inductive SignalType : Type :=
| consistent_accumulator
| build_then_trim
| one_quarter_probe
| concentration_shift
| theme_emergence.

Inductive Strength : Type := weak | moderate | strong.

(** The [details] dictionary of each kind of signal. *)
Inductive Details : Type :=
| ConsecutiveIncreases (consecutive_increases : nat)
| BuildQuarters (build_quarters : nat)
| QuartersHeld (quarters_held : nat)
| ConcentrationChange (concentration_change : Q) (direction : string)
                      (from to : Q)
| ClusterCount (cluster : string) (count : nat).

(** [Signal], without its free-text [description] (a formatted rendering
    of the other fields). *)
Record Signal : Type := {
  signal_type : SignalType;
  holdings : list string;
  quarters : list string;
  strength : Strength;
  details : Details
}.

(** [(period, value, weight, change_type)] *)
Definition HistEntry : Type := (string * option Z * option Q * ChangeType)%type.

Definition entry_period (e : HistEntry) : string := fst (fst (fst e)).
Definition entry_change (e : HistEntry) : ChangeType := snd e.

Definition all_positions (diff : QuarterDiff) : list PositionDiff :=
  new_positions diff ++ increased diff ++ decreased diff
    ++ unchanged diff ++ sold_out diff.

Definition history_entry (diff : QuarterDiff) (pos : PositionDiff) : HistEntry :=
  (period_to diff, now_value_usd pos, now_weight pos, change_type pos).

(** [if key not in position_history: position_history[key] = []] followed
    by [position_history[key].append(entry)]. *)
Definition history_append (key : string) (e : HistEntry)
    (position_history : Py.dict (list HistEntry)) : Py.dict (list HistEntry) :=
  match Py.get key position_history with
  | None => Py.set key [e] position_history
  | Some l => Py.set key (l ++ [e]) position_history
  end.

Definition build_position_history (diffs : list QuarterDiff)
  : Py.dict (list HistEntry) :=
  fold_left
    (fun position_history diff =>
       fold_left
         (fun position_history pos =>
            let key := cusip pos in
            history_append key (history_entry diff pos) position_history)
         (all_positions diff) position_history)
    (rev diffs) [].

Definition build_cusip_to_name (diffs : list QuarterDiff) : Py.dict string :=
  fold_left
    (fun cusip_to_name diff =>
       fold_left
         (fun cusip_to_name pos =>
            Py.set (cusip pos) (issuer_name pos) cusip_to_name)
         (new_positions diff ++ increased diff ++ decreased diff)
         cusip_to_name)
    diffs [].

(** [d.get(k, default)] *)
Definition get_default (k : string) (d : Py.dict string) (default : string)
  : string :=
  match Py.get k d with
  | Some v => v
  | None => default
  end.

(** *** 1. Consistent accumulator *)

(** State of the scan: [(consecutive_increases, max_consecutive,
    increase_quarters)]. *)
Definition AccState : Type := (nat * nat * list string)%type.

Definition acc_step (st : AccState) (e : HistEntry) : AccState :=
  let '(consecutive_increases, max_consecutive, increase_quarters) := st in
  if change_type_eqb (entry_change e) INCREASE
  then (S consecutive_increases, max_consecutive,
        increase_quarters ++ [entry_period e])
  else (O, Nat.max max_consecutive consecutive_increases, []).

Definition acc_scan (history : list HistEntry) : AccState :=
  fold_left acc_step history (O, O, []).

Definition accumulator_signal (cusip_to_name : Py.dict string)
    (item : string * list HistEntry) : list Signal :=
  let '(cusip, history) := item in
  let '(consecutive_increases, max_consecutive, increase_quarters) :=
    acc_scan history in
  let max_consecutive := Nat.max max_consecutive consecutive_increases in
  if (3 <=? max_consecutive)%nat then
    let name := get_default cusip cusip_to_name cusip in
    let strength := if (4 <=? max_consecutive)%nat then strong else moderate in
    [ {| signal_type := consistent_accumulator;
         holdings := [name];
         quarters := Py.last_n max_consecutive increase_quarters;
         strength := strength;
         details := ConsecutiveIncreases max_consecutive |} ]
  else [].

(** *** 2. Build then trim *)

Fixpoint build_trim_scan (name : string) (history : list HistEntry)
    (build_quarters : list string) (in_build_phase : bool) : list Signal :=
  match history with
  | [] => []
  | e :: rest =>
      if change_type_eqb (entry_change e) INCREASE then
        build_trim_scan name rest (build_quarters ++ [entry_period e]) true
      else if change_type_eqb (entry_change e) DECREASE
              && in_build_phase
              && (2 <=? List.length build_quarters)%nat then
        [ {| signal_type := build_then_trim;
             holdings := [name];
             quarters := build_quarters ++ [entry_period e];
             strength := moderate;
             details := BuildQuarters (List.length build_quarters) |} ]
      else build_trim_scan name rest [] false
  end.

Definition build_trim_signal (cusip_to_name : Py.dict string)
    (item : string * list HistEntry) : list Signal :=
  let '(cusip, history) := item in
  if (List.length history <? 3)%nat then []
  else build_trim_scan (get_default cusip cusip_to_name cusip) history [] false.

(** *** 3. One-quarter probe *)

(** The inner loop [for j in range(i + 1, min(i + 3, len(history)))],
    on the entries that follow index [i]; [offset] is [j - i]. *)
Fixpoint probe_lookahead (name : string) (start : string)
    (following : list HistEntry) (offset : nat) : list Signal :=
  match following with
  | [] => []
  | e :: rest =>
      if change_type_eqb (entry_change e) EXIT then
        [ {| signal_type := one_quarter_probe;
             holdings := [name];
             quarters := [start; entry_period e];
             strength := weak;
             details := QuartersHeld (offset + 1) |} ]
      else probe_lookahead name start rest (S offset)
  end.

Fixpoint probe_scan (name : string) (history : list HistEntry) : list Signal :=
  match history with
  | [] => []
  | e :: rest =>
      (if change_type_eqb (entry_change e) NEW
       then probe_lookahead name (entry_period e) (Py.take 2 rest) 1
       else [])
      ++ probe_scan name rest
  end.

Definition probe_signal (cusip_to_name : Py.dict string)
    (item : string * list HistEntry) : list Signal :=
  let '(cusip, history) := item in
  probe_scan (get_default cusip cusip_to_name cusip) history.

(** *** 4. Concentration shift *)

Definition concentration_signal (diffs : list QuarterDiff) : list Signal :=
  match diffs with
  | newest :: _ :: _ =>
      let oldest := last diffs newest in
      let conc_change :=
        Qabs (concentration_top5 newest - concentration_top5 oldest) in
      if Qle_bool (5 # 100) conc_change then
        let direction :=
          if Py.Qltb (concentration_top5 oldest) (concentration_top5 newest)
          then "increased" else "decreased" in
        [ {| signal_type := concentration_shift;
             holdings := [];
             quarters := [period_to oldest; period_to newest];
             strength :=
               if Py.Qltb conc_change (10 # 100) then moderate else strong;
             details :=
               ConcentrationChange conc_change direction
                 (concentration_top5 oldest) (concentration_top5 newest) |} ]
      else []
  | _ => []
  end.

(** *** 5. Theme emergence, and the whole detector *)

Section Detector.

(** [clustering.assign_cluster], a keyword table lookup. *)
Variable assign_cluster : string -> string.

Definition cluster_append (name : string)
    (cluster_starters : Py.dict (list string)) : Py.dict (list string) :=
  let cluster := assign_cluster name in
  if negb (String.eqb cluster "Other") then
    match Py.get cluster cluster_starters with
    | None => Py.set cluster [name] cluster_starters
    | Some l => Py.set cluster (l ++ [name]) cluster_starters
    end
  else cluster_starters.

Definition theme_signals (diff : QuarterDiff) : list Signal :=
  let cluster_starters :=
    fold_left (fun cs pos => cluster_append (issuer_name pos) cs)
              (new_starters diff) [] in
  flat_map
    (fun item : string * list string =>
       let '(cluster, starters) := item in
       if (3 <=? List.length starters)%nat then
         [ {| signal_type := theme_emergence;
              holdings := starters;
              quarters := [period_to diff];
              strength :=
                if (List.length starters <? 5)%nat then moderate else strong;
              details := ClusterCount cluster (List.length starters) |} ]
       else [])
    cluster_starters.

(** [strength_order.get(s.strength, 3)] *)
Definition strength_order (s : Strength) : nat :=
  match s with
  | strong => 0
  | moderate => 1
  | weak => 2
  end.

Definition detect_signals (diffs : list QuarterDiff) : list Signal :=
  match diffs with
  | [] => []
  | _ =>
      let position_history := build_position_history diffs in
      let cusip_to_name := build_cusip_to_name diffs in
      let signals :=
        flat_map (accumulator_signal cusip_to_name) position_history
        ++ flat_map (build_trim_signal cusip_to_name) position_history
        ++ flat_map (probe_signal cusip_to_name) position_history
        ++ concentration_signal diffs
        ++ flat_map theme_signals diffs in
      Py.sorted_by
        (fun y x =>
           (strength_order (strength y) <? strength_order (strength x))%nat)
        signals
  end.

End Detector.

(** *** Starter-to-scale *)

(** The growth rate of the report: a float, or [float("inf")]. *)
Inductive Growth : Type :=
| Finite (q : Q)
| Infinity.

Definition growth_ltb (a b : Growth) : bool :=
  match a, b with
  | Finite x, Finite y => Py.Qltb x y
  | Finite _, Infinity => true
  | Infinity, _ => false
  end.

(** One dictionary of the list [detect_starter_to_scale] returns. *)
Record ScaledPosition : Type := {
  sp_issuer_name : string;
  sp_cusip : string;
  start_period : string;
  start_value : Z;
  start_weight : Q;
  current_value : Z;
  current_weight : Q;
  sp_growth_rate : Growth
}.

Definition StarterInfo : Type := (string * string * Z * Q)%type.

Definition build_starter_positions (diffs : list QuarterDiff)
  : Py.dict StarterInfo :=
  fold_left
    (fun starter_positions diff =>
       fold_left
         (fun starter_positions pos =>
            if negb (Py.mem (cusip pos) starter_positions) then
              Py.set (cusip pos)
                (issuer_name pos, period_to diff,
                 Py.or0 (now_value_usd pos), Py.or0Q (now_weight pos))
                starter_positions
            else starter_positions)
         (new_starters diff) starter_positions)
    (rev diffs) [].

Definition scaled_position (all_current : Py.dict PositionDiff)
    (item : string * StarterInfo) : Py.result (list ScaledPosition) :=
  let '(cusip, (name, start_period, start_value, start_weight)) := item in
  match Py.get cusip all_current with
  | Some current =>
      let now_weight := Py.or0Q (now_weight current) in
      let now_value := Py.or0 (now_value_usd current) in
      if Py.Qltb (5 # 1000) now_weight || (now_value >? 20000000) then
        growth <-
          (if start_value >? 0
           then (g <- Py.truediv (now_value - start_value) start_value ;;
                 Py.Ok (Finite g))
           else Py.Ok Infinity) ;;
        Py.Ok
          [ {| sp_issuer_name := name;
               sp_cusip := cusip;
               start_period := start_period;
               start_value := start_value;
               start_weight := start_weight;
               current_value := now_value;
               current_weight := now_weight;
               sp_growth_rate := growth |} ]
      else Py.Ok []
  | None => Py.Ok []
  end.

Definition detect_starter_to_scale (diffs : list QuarterDiff)
  : Py.result (list ScaledPosition) :=
  if (List.length diffs <? 2)%nat then Py.Ok []
  else
    let starter_positions := build_starter_positions diffs in
    match diffs with
    | [] => Py.Ok []
    | latest_diff :: _ =>
        let all_current :=
          fold_left (fun d pos => Py.set (cusip pos) pos d)
            (new_positions latest_diff ++ increased latest_diff
               ++ decreased latest_diff ++ unchanged latest_diff)
            [] in
        found <- Py.mapM (scaled_position all_current) starter_positions ;;
        let scaled_positions := List.concat found in
        Py.Ok
          (Py.sorted_by
             (fun y x => growth_ltb (sp_growth_rate x) (sp_growth_rate y))
             scaled_positions)
    end.

(** ** The concentration diagnostics in binary64 *)

(** The concentration lines of [compute_quarter_diff] once more, on the
    IEEE 754 binary64 floats that CPython computes with, to tell what
    rounding does to the sums.  The rest of this file takes the same
    lines on exact rationals. *)
Module Binary64.

(** [float(n)] of an integer, exact for [0 <= n < 2^53]. *)
Definition of_int (n : Z) : PrimFloat.float :=
  PrimFloat.of_uint63 (Uint63.of_Z n).

(** [a / b] on two integers of that range: the quotient of the two
    floats, rounded once. *)
Definition truediv (a b : Z) : PrimFloat.float :=
  PrimFloat.div (of_int a) (of_int b).

(** [sum(l)] on a list of floats as CPython up to 3.11 computes it: from
    the integer 0, one rounded addition per element, left to right.
    (From 3.12 on, [sum] carries a compensation term for the rounding
    errors along.) *)
Definition sum (l : list PrimFloat.float) : PrimFloat.float :=
  fold_left PrimFloat.add l PrimFloat.zero.

(** [sorted([h.value_usd / total_now for h in holdings_now if total_now > 0],
    reverse=True)], with [total_now] the sum of the values. *)
Definition weights_now (holdings_now : list HoldingRecord)
  : list PrimFloat.float :=
  let total_now := Py.sumZ (map value_usd holdings_now) in
  let weights :=
    map (fun h => truediv (value_usd h) total_now)
        (filter (fun _ => total_now >? 0) holdings_now) in
  Py.sorted_by (fun y x => PrimFloat.ltb x y) weights.

Definition concentration_top5 (holdings_now : list HoldingRecord)
  : PrimFloat.float :=
  let weights_now := weights_now holdings_now in
  if (5 <=? List.length weights_now)%nat
  then sum (Py.take 5 weights_now) else sum weights_now.

Definition concentration_top10 (holdings_now : list HoldingRecord)
  : PrimFloat.float :=
  let weights_now := weights_now holdings_now in
  if (10 <=? List.length weights_now)%nat
  then sum (Py.take 10 weights_now) else sum weights_now.

End Binary64.

(** ** [analysis/clustering.py] *)

(** [str.upper] on a string of ASCII characters: the letters [a] to [z]
    become [A] to [Z], every other character is kept.  (On other
    characters Python's [upper] follows the Unicode case mapping, which
    is not modelled: what is stated of [assign_cluster] below is stated
    of ASCII names.) *)
Definition upper_char (c : ascii) : ascii :=
  let n := nat_of_ascii c in
  if ((97 <=? n) && (n <=? 122))%nat then ascii_of_nat (n - 32) else c.

Fixpoint upper (s : string) : string :=
  match s with
  | EmptyString => EmptyString
  | String c s' => String (upper_char c) (upper s')
  end.

(** [keyword in s]: [keyword] occurs in [s] as a substring. *)
Fixpoint contains (keyword s : string) : bool :=
  String.prefix keyword s
  || match s with
     | EmptyString => false
     | String _ s' => contains keyword s'
     end.

(** Cluster definitions: keyword rules, in the order of the source. *)
Definition CLUSTERS : Py.dict (list string) :=
  [ ("AI/Semiconductors",
      [ "NVIDIA"; "AMD"; "ADVANCED MICRO"; "INTEL"; "ASML"; "TSMC";
        "TAIWAN SEMI"; "SEMICONDUCTOR"; "BROADCOM"; "QUALCOMM"; "MARVELL";
        "MICRON"; "APPLIED MATERIAL"; "LAM RESEARCH"; "KLA"; "SYNOPSYS";
        "CADENCE"; "ARM HOLDINGS"; "LATTICE" ]);
    ("Cloud/SaaS",
      [ "SALESFORCE"; "SERVICENOW"; "WORKDAY"; "SNOWFLAKE"; "DATADOG";
        "MONGODB"; "CLOUDFLARE"; "ATLASSIAN"; "HUBSPOT"; "ZSCALER";
        "CROWDSTRIKE"; "OKTA"; "SPLUNK"; "TWILIO"; "DOCUSIGN"; "ZOOM";
        "DROPBOX"; "BOX INC" ]);
    ("Fintech/Payments",
      [ "VISA"; "MASTERCARD"; "PAYPAL"; "SQUARE"; "BLOCK INC"; "STRIPE";
        "ADYEN"; "AFFIRM"; "SOFI"; "ROBINHOOD"; "COINBASE"; "MARQETA";
        "TOAST"; "BILL.COM"; "BILL HOLDINGS" ]);
    ("E-commerce/Retail",
      [ "AMAZON"; "SHOPIFY"; "MERCADOLIBRE"; "ETSY"; "EBAY"; "WAYFAIR";
        "CHEWY"; "COUPANG"; "PINDUODUO"; "JD.COM"; "ALIBABA"; "WALMART";
        "TARGET"; "COSTCO"; "HOME DEPOT"; "LOWE" ]);
    ("Social/Advertising",
      [ "META"; "FACEBOOK"; "GOOGLE"; "ALPHABET"; "SNAP"; "PINTEREST";
        "TWITTER"; "LINKEDIN"; "REDDIT"; "TRADE DESK"; "PUBMATIC";
        "DIGITAL TURBINE" ]);
    ("Streaming/Media",
      [ "NETFLIX"; "SPOTIFY"; "DISNEY"; "WARNER"; "PARAMOUNT"; "ROKU";
        "ROBLOX"; "UNITY"; "TAKE-TWO"; "ELECTRONIC ARTS"; "ACTIVISION";
        "LIVE NATION"; "IMAX" ]);
    ("Healthcare/Biotech",
      [ "UNITEDHEALTH"; "CVS"; "HUMANA"; "CIGNA"; "ANTHEM"; "ELEVANCE";
        "PFIZER"; "LILLY"; "ELI LILLY"; "MERCK"; "JOHNSON & JOHNSON";
        "ABBVIE"; "AMGEN"; "GILEAD"; "REGENERON"; "MODERNA"; "BIONTECH";
        "VERTEX"; "ILLUMINA"; "DEXCOM"; "INTUITIVE SURGICAL";
        "THERMO FISHER"; "DANAHER"; "ABBOTT" ]);
    ("Energy",
      [ "EXXON"; "CHEVRON"; "MARATHON"; "OCCIDENTAL"; "CONOCOPHILLIPS";
        "SCHLUMBERGER"; "HALLIBURTON"; "PIONEER"; "DEVON"; "EOG";
        "DIAMONDBACK"; "COTERRA"; "HESS"; "VALERO"; "PHILLIPS 66" ]);
    ("Clean Energy",
      [ "TESLA"; "RIVIAN"; "LUCID"; "ENPHASE"; "SOLAREDGE"; "FIRST SOLAR";
        "SUNRUN"; "PLUG POWER"; "BLOOM ENERGY"; "CHARGEPOINT"; "EVGO";
        "NEXTERA" ]);
    ("Financials/Banks",
      [ "JPMORGAN"; "JP MORGAN"; "BANK OF AMERICA"; "WELLS FARGO";
        "CITIGROUP"; "GOLDMAN"; "MORGAN STANLEY"; "CHARLES SCHWAB";
        "BLACKROCK"; "BLACKSTONE"; "KKR"; "APOLLO"; "CARLYLE";
        "STATE STREET"; "NORTHERN TRUST"; "BANK OF NEW YORK"; "US BANCORP";
        "PNC"; "TRUIST"; "CAPITAL ONE"; "AMERICAN EXPRESS"; "DISCOVER";
        "SYNCHRONY" ]);
    ("Industrials",
      [ "CATERPILLAR"; "DEERE"; "JOHN DEERE"; "BOEING"; "LOCKHEED";
        "RAYTHEON"; "RTX"; "NORTHROP"; "GENERAL DYNAMICS"; "L3HARRIS";
        "HONEYWELL"; "3M"; "GENERAL ELECTRIC"; "UNION PACIFIC"; "CSX";
        "NORFOLK"; "FEDEX"; "UPS"; "UNITED PARCEL" ]);
    ("Consumer",
      [ "COCA-COLA"; "PEPSI"; "PROCTER"; "P&G"; "UNILEVER"; "COLGATE";
        "KIMBERLY"; "CLOROX"; "ESTEE LAUDER"; "NIKE"; "LULULEMON";
        "STARBUCKS"; "MCDONALD"; "CHIPOTLE"; "YUM"; "DOMINO" ]);
    ("Telecom",
      [ "AT&T"; "VERIZON"; "T-MOBILE"; "COMCAST"; "CHARTER"; "DISH"; "LUMEN";
        "VONAGE" ]);
    ("Real Estate",
      [ "PROLOGIS"; "AMERICAN TOWER"; "CROWN CASTLE"; "EQUINIX";
        "DIGITAL REALTY"; "PUBLIC STORAGE"; "REALTY INCOME";
        "SIMON PROPERTY"; "WELLTOWER"; "VENTAS"; "AVALONBAY";
        "EQUITY RESIDENTIAL" ]) ].

(** The first cluster, in the order of [CLUSTERS], one of whose keywords
    occurs in the upper-cased issuer name. *)
Definition assign_cluster (issuer_name : string) : string :=
  let name_upper := upper issuer_name in
  match
    find (fun item : string * list string =>
            existsb (fun keyword => contains keyword name_upper) (snd item))
         CLUSTERS
  with
  | Some (cluster, _) => cluster
  | None => "Other"
  end.

(** A holding of a report: [(issuer_name, value_usd, weight)]. *)
Definition Holding : Type := (string * Z * Q)%type.

Definition holding_name (h : Holding) : string := fst (fst h).
Definition holding_value (h : Holding) : Z := snd (fst h).
Definition holding_weight (h : Holding) : Q := snd h.

(** One step of the grouping loop of [cluster_holdings]. *)
Definition cluster_add (clusters : Py.dict (list Holding)) (h : Holding)
  : Py.dict (list Holding) :=
  let cluster := assign_cluster (holding_name h) in
  match Py.get cluster clusters with
  | None => Py.set cluster [h] clusters
  | Some l => Py.set cluster (l ++ [h]) clusters
  end.

(** The second loop sorts each list in place, by value descending; the
    keys and their order stay. *)
Definition cluster_holdings (holdings : list Holding)
  : Py.dict (list Holding) :=
  let clusters := fold_left cluster_add holdings [] in
  map (fun item : string * list Holding =>
         (fst item,
          Py.sorted_by (fun y x => holding_value x <? holding_value y)
                       (snd item)))
      clusters.

(** [(cluster_name, total_value, total_weight, position_count)] *)
Definition ClusterSummary : Type := (string * Z * Q * nat)%type.

Definition summary_name (s : ClusterSummary) : string := fst (fst (fst s)).
Definition summary_value (s : ClusterSummary) : Z := snd (fst (fst s)).
Definition summary_weight (s : ClusterSummary) : Q := snd (fst s).
Definition summary_count (s : ClusterSummary) : nat := snd s.

Definition summarize_clusters (holdings : list Holding)
  : list ClusterSummary :=
  let clusters := cluster_holdings holdings in
  let summaries :=
    map (fun item : string * list Holding =>
           let '(cluster, cluster_holdings_list) := item in
           (cluster,
            Py.sumZ (map holding_value cluster_holdings_list),
            Py.sumQ (map holding_weight cluster_holdings_list),
            List.length cluster_holdings_list))
        clusters in
  Py.sorted_by (fun y x => summary_value x <? summary_value y) summaries.

(** ** [reports/fund_report.py]: the label of a position *)

(** [pos.growth_rate and pos.growth_rate >= 1.0]: a float is falsy when
    it is 0. *)
Definition growth_at_least_one (growth_rate : option Q) : bool :=
  match growth_rate with
  | Some g => negb (Qeq_bool g 0) && Qle_bool 1 g
  | None => false
  end.

(** The text of a [change_type]. *)
Definition change_type_text (t : ChangeType) : string :=
  match t with
  | NEW => "NEW"
  | EXIT => "EXIT"
  | INCREASE => "INCREASE"
  | DECREASE => "DECREASE"
  | UNCHANGED => "UNCHANGED"
  end.

Definition _classify_position (pos : PositionDiff) : string :=
  match change_type pos with
  | NEW => if is_starter pos then "STARTER" else "NEW"
  | EXIT => "EXIT"
  | INCREASE =>
      if is_starter pos && growth_at_least_one (growth_rate pos)
      then "SCALE-UP" else "ADD"
  | DECREASE => "TRIM"
  | UNCHANGED => change_type_text (change_type pos)
  end.

(** * Auxiliary definitions for the statements *)

(** [by_key] started from a dictionary that is already partly filled. *)
Definition by_key_from (d0 : Py.dict HoldingRecord) (holdings : list HoldingRecord)
  : Py.dict HoldingRecord :=
  fold_left (fun d h => Py.set (_holding_key h) h d) holdings d0.

(** The matching key of a [PositionDiff], rebuilt from the fields it
    carries the way [_holding_key] builds it from a holding. *)
Definition position_key (d : PositionDiff) : string :=
  (cusip d ++ "|" ++ title_of_class d ++ "|" ++ Py.str_or (put_call d) "NONE")%string.

(** What the loop body evaluates to on the paths where no division
    raises: the weight of a side, the growth rate and the impact. *)
Definition weight_of (value : option Z) (total : Z) : option Q :=
  match value with
  | Some v =>
      if Py.truthy v && Py.truthy total
      then Some (inject_Z v / inject_Z total)%Q else None
  | None => None
  end.

Definition growth_of (prev_value now_value : option Z) : option Q :=
  match prev_value, now_value with
  | Some pv, Some nv =>
      if Py.truthy pv && (pv >? 0)
      then Some (inject_Z (nv - pv) / inject_Z pv)%Q else None
  | _, _ => None
  end.

Definition impact_of (delta_value total_prev : Z) : option Q :=
  if total_prev >? 0
  then Some (inject_Z delta_value / inject_Z total_prev)%Q else None.

(** The facts that tie a [PositionDiff] to the key it was built for. *)
Definition built_for
    (prev_by_key now_by_key : Py.dict HoldingRecord)
    (total_prev total_now : Z) (config : Config) (key : string)
    (d : PositionDiff) : Prop :=
  prev_value_usd d = option_map value_usd (Py.get key prev_by_key)
  /\ now_value_usd d = option_map value_usd (Py.get key now_by_key)
  /\ delta_value_usd d = Py.or0 (now_value_usd d) - Py.or0 (prev_value_usd d)
  /\ prev_weight d = weight_of (prev_value_usd d) total_prev
  /\ now_weight d = weight_of (now_value_usd d) total_now
  /\ growth_rate d = growth_of (prev_value_usd d) (now_value_usd d)
  /\ portfolio_impact d = impact_of (delta_value_usd d) total_prev
  /\ change_type d =
       classify (Py.get key prev_by_key) (Py.get key now_by_key) (delta_value_usd d)
  /\ is_starter d = _is_starter (now_weight d) (now_value_usd d) config
  /\ position_key d = key.

(** The weights that the concentration diagnostics are computed from. *)
Definition current_weights (holdings_now : list HoldingRecord) (total_now : Z)
  : list Q :=
  if total_now >? 0
  then map (fun h => (inject_Z (value_usd h) / inject_Z total_now)%Q) holdings_now
  else [].

Definition sorted_desc (weights : list Q) : list Q :=
  Py.sorted_by (fun y x => Py.Qltb x y) weights.

(** How the fields of a returned [QuarterDiff] that the statements below
    speak of are obtained from the list [diffs] built by the loop. *)
Definition summarises
    (holdings_prev holdings_now : list HoldingRecord) (total_prev total_now : Z)
    (diffs : list PositionDiff) (qd : QuarterDiff) : Prop :=
  new_positions qd = filter (has_type NEW) diffs
  /\ sold_out qd = filter (has_type EXIT) diffs
  /\ increased qd = filter (has_type INCREASE) diffs
  /\ decreased qd = filter (has_type DECREASE) diffs
  /\ unchanged qd = filter (has_type UNCHANGED) diffs
  /\ new_starters qd = filter is_starter (filter (has_type NEW) diffs)
  /\ total_portfolio_prev qd = total_prev
  /\ total_portfolio_now qd = total_now
  /\ position_count_prev qd = Z.of_nat (List.length holdings_prev)
  /\ position_count_now qd = Z.of_nat (List.length holdings_now)
  /\ (let weights_now := sorted_desc (current_weights holdings_now total_now) in
      concentration_top5 qd =
        (if (5 <=? List.length weights_now)%nat
         then Py.sumQ (Py.take 5 weights_now) else Py.sumQ weights_now)
      /\ concentration_top10 qd =
        (if (10 <=? List.length weights_now)%nat
         then Py.sumQ (Py.take 10 weights_now) else Py.sumQ weights_now)
      /\ herfindahl_index qd =
        match weights_now with
        | [] => 0%Q
        | _ => Py.sumQ (map (fun w => (w * w)%Q) weights_now)
        end).

(** Whether a snapshot holds a position with matching key [k]. *)
Definition present (k : string) (holdings : list HoldingRecord) : bool :=
  existsb (fun h => String.eqb (_holding_key h) k) holdings.

(** The classification rule in the words of the specification: [NEW] if
    absent before and present now; [EXIT] if present before and absent
    now; otherwise by the sign of the value delta. *)
Definition spec_classification (before now : bool) (delta_value : Z)
  : ChangeType :=
  if negb before && now then NEW
  else if before && negb now then EXIT
  else if delta_value >? 0 then INCREASE
  else if delta_value <? 0 then DECREASE
  else UNCHANGED.

(** ** Concrete inputs *)

Definition holding (cusip name title : string) (value shares : Z)
    (put_call : option string) : HoldingRecord :=
  {| h_id := None; filing_id := 0;
     h_issuer_name := name; h_title_of_class := title; h_cusip := cusip;
     figi := None; value_thousands := value / 1000; value_usd := value;
     shares_or_principal := shares; shares_type := "SH";
     h_put_call := put_call; investment_discretion := "SOLE";
     voting_sole := shares; voting_shared := 0; voting_none := 0 |}.

Definition filing (n : Z) (period : string) : FilingRecord :=
  {| id := Some n; fund_id_of := 1; accession_number := "";
     form_type := "13F-HR"; filing_date := period;
     period_of_report := period; is_amendment := false;
     total_value_usd := 0; position_count := 0 |}.

(** The defaults of [Config]. *)
Definition default_config : Config :=
  {| starter_weight_min := 1 # 10000;
     starter_weight_max := 25 # 10000;
     starter_value_threshold := 5000000 |}.

(** A database with two filings: filing 1 holds [prev], filing 2 [now]. *)
Definition two_filings (prev now : list HoldingRecord) : Database :=
  {| get_filings_for_fund :=
       fun _ => [filing 2 "2024-06-30"; filing 1 "2024-03-31"];
     get_holdings_for_filing :=
       fun n =>
         match n with
         | Some 1 => prev
         | Some 2 => now
         | _ => []
         end |}.

(** The diff of filing 1 against filing 2 of [two_filings prev now]. *)
Definition diff_of (prev now : list HoldingRecord) : Py.result QuarterDiff :=
  compute_quarter_diff (two_filings prev now) 1 "Fund"
    (filing 1 "2024-03-31") (filing 2 "2024-06-30") default_config.

(** A position held at value 0 next to one held at value 100. *)
Definition zero_value_holdings : list HoldingRecord :=
  [ holding "000000AAA" "ALPHA CORP" "COM" 0 10 None;
    holding "000000BBB" "BETA CORP" "COM" 100 10 None ].

(** One security in two share classes. *)
Definition two_class_holdings : list HoldingRecord :=
  [ holding "000000XXX" "XI CORP" "CL A" 100 10 None;
    holding "000000XXX" "XI CORP" "CL B" 50 5 None ].

(** Five quarters of one position: three increases, then a decrease. *)
Definition accumulate_then_trim : Database :=
  {| get_filings_for_fund :=
       fun _ => [ filing 5 "2024-12-31"; filing 4 "2024-09-30";
                  filing 3 "2024-06-30"; filing 2 "2024-03-31";
                  filing 1 "2023-12-31" ];
     get_holdings_for_filing :=
       fun n =>
         match n with
         | Some 1 => [holding "000000XXX" "XI CORP" "COM" 100 10 None]
         | Some 2 => [holding "000000XXX" "XI CORP" "COM" 110 11 None]
         | Some 3 => [holding "000000XXX" "XI CORP" "COM" 120 12 None]
         | Some 4 => [holding "000000XXX" "XI CORP" "COM" 130 13 None]
         | Some 5 => [holding "000000XXX" "XI CORP" "COM" 120 12 None]
         | _ => []
         end |}.

(** A cluster table that knows no issuer. *)
Definition no_cluster (issuer_name : string) : string := "Other".

(** The list of diffs of a call that returned, empty otherwise. *)
Definition returned {A : Type} (r : Py.result (list A)) : list A :=
  match r with
  | Py.Ok l => l
  | Py.Raise _ => []
  end.

Definition returned_diff (r : Py.result QuarterDiff) : list QuarterDiff :=
  match r with
  | Py.Ok qd => [qd]
  | Py.Raise _ => []
  end.

(** The positions of a sequence of diffs in the order in which the
    history loop of [detect_signals] visits them, each as the pair of the
    key it is filed under and the entry it contributes. *)
Definition visited (diffs : list QuarterDiff) : list (string * HistEntry) :=
  flat_map
    (fun diff =>
       map (fun pos => (cusip pos, history_entry diff pos)) (all_positions diff))
    (rev diffs).

(** The entries filed under [k], in visiting order. *)
Definition entries_of (k : string) (visits : list (string * HistEntry))
  : list HistEntry :=
  map snd (filter (fun v => String.eqb k (fst v)) visits).

(** One step of the history loop, on a visit. *)
Definition file_visit (position_history : Py.dict (list HistEntry))
    (v : string * HistEntry) : Py.dict (list HistEntry) :=
  history_append (fst v) (snd v) position_history.

(** ** Runs of increases in a history *)

Definition is_increase (e : HistEntry) : bool :=
  change_type_eqb (entry_change e) INCREASE.

(** [history] has [n] consecutive entries that are all [INCREASE]. *)
Definition has_run (n : nat) (history : list HistEntry) : Prop :=
  exists pre run post,
    history = pre ++ run ++ post
    /\ List.length run = n
    /\ forallb is_increase run = true.

(** [n] is the length of the longest run of consecutive [INCREASE]
    entries of [history]. *)
Definition longest_run (n : nat) (history : list HistEntry) : Prop :=
  has_run n history /\ forall k, has_run k history -> (k <= n)%nat.

Fixpoint take_while {A : Type} (p : A -> bool) (l : list A) : list A :=
  match l with
  | [] => []
  | x :: l' => if p x then x :: take_while p l' else []
  end.

(** The run of [INCREASE] entries that [history] ends with (empty when
    its last entry is not an [INCREASE]). *)
Definition trailing_run (history : list HistEntry) : list HistEntry :=
  rev (take_while is_increase (rev history)).

(** [s.signal_type == "consistent_accumulator"] *)
Definition is_accumulator (s : Signal) : bool :=
  match signal_type s with
  | consistent_accumulator => true
  | _ => false
  end.

(** Whether a string holds the separator of [_holding_key]. *)
Fixpoint has_bar (s : string) : bool :=
  match s with
  | EmptyString => false
  | String c s' => Ascii.eqb c "|" || has_bar s'
  end.

(** ** The ranked lists and the gross values *)

Definition adds_of (diffs : list PositionDiff) : list PositionDiff :=
  filter (fun d => delta_value_usd d >? 0) diffs.

Definition cuts_of (diffs : list PositionDiff) : list PositionDiff :=
  filter (fun d => delta_value_usd d <? 0) diffs.

(** How the ranked lists, the starter lists, the gross values and the
    header of a returned [QuarterDiff] are obtained from the list [diffs]
    built by the loop. *)
Definition ranks
    (fid : Z) (fname : string) (filing_prev filing_now : FilingRecord)
    (diffs : list PositionDiff) (qd : QuarterDiff) : Prop :=
  fund_id qd = fid
  /\ fund_name qd = fname
  /\ period_from qd = period_of_report filing_prev
  /\ period_to qd = period_of_report filing_now
  /\ top_adds_by_value qd =
       Py.take 10
         (Py.sorted_by (fun y x => delta_value_usd y >? delta_value_usd x)
            (adds_of diffs))
  /\ top_cuts_by_value qd =
       Py.take 10
         (Py.sorted_by (fun y x => delta_value_usd y <? delta_value_usd x)
            (cuts_of diffs))
  /\ top_adds_by_growth_rate qd =
       Py.take 10
         (Py.sorted_by
            (fun y x => Py.Qltb (Py.or0Q (growth_rate x)) (Py.or0Q (growth_rate y)))
            (filter (fun d => is_some (growth_rate d) && negb (has_type NEW d))
               (adds_of diffs)))
  /\ top_cuts_by_growth_rate qd =
       Py.take 10
         (Py.sorted_by
            (fun y x => Py.Qltb (Py.or0Q (growth_rate y)) (Py.or0Q (growth_rate x)))
            (filter (fun d => is_some (growth_rate d)) (cuts_of diffs)))
  /\ top_adds_by_portfolio_impact qd =
       Py.take 10
         (Py.sorted_by
            (fun y x =>
               Py.Qltb (Py.or0Q (portfolio_impact x)) (Py.or0Q (portfolio_impact y)))
            (filter (fun d => is_some (portfolio_impact d)) (adds_of diffs)))
  /\ top_cuts_by_portfolio_impact qd =
       Py.take 10
         (Py.sorted_by
            (fun y x =>
               Py.Qltb (Py.or0Q (portfolio_impact y)) (Py.or0Q (portfolio_impact x)))
            (filter (fun d => is_some (portfolio_impact d)) (cuts_of diffs)))
  /\ increased_starters qd =
       filter
         (fun d =>
            is_starter d
            && (opt_geQ (growth_rate d) 1
                || opt_geQ (portfolio_impact d) (5 # 10000)))
         (filter (has_type INCREASE) diffs)
  /\ gross_adds_value qd = Py.sumZ (map delta_value_usd (adds_of diffs))
  /\ gross_cuts_value qd =
       Py.sumZ (map (fun d => Z.abs (delta_value_usd d)) (cuts_of diffs)).

(** The display fields and the share counts of the position built for
    [key]: the reference record is the current holding when there is
    one, the prior holding otherwise. *)
Definition refers_to
    (prev_by_key now_by_key : Py.dict HoldingRecord) (key : string)
    (d : PositionDiff) : Prop :=
  prev_shares d = option_map shares_or_principal (Py.get key prev_by_key)
  /\ now_shares d = option_map shares_or_principal (Py.get key now_by_key)
  /\ delta_shares d = Py.or0 (now_shares d) - Py.or0 (prev_shares d)
  /\ exists ref,
       match Py.get key now_by_key with
       | Some h => Some h
       | None => Py.get key prev_by_key
       end = Some ref
       /\ cusip d = h_cusip ref
       /\ issuer_name d = h_issuer_name ref
       /\ title_of_class d = h_title_of_class ref
       /\ put_call d = h_put_call ref.

(** ** Sums of squares *)

Definition Qlen {A : Type} (l : list A) : Q := inject_Z (Z.of_nat (List.length l)).

(** ** The signals before they are sorted *)

(** The list [signals] of [detect_signals] as the five detectors fill
    it, before [signals.sort]. *)
Definition emitted_signals (assign_cluster : string -> string)
    (diffs : list QuarterDiff) : list Signal :=
  let position_history := build_position_history diffs in
  let cusip_to_name := build_cusip_to_name diffs in
  flat_map (accumulator_signal cusip_to_name) position_history
  ++ flat_map (build_trim_signal cusip_to_name) position_history
  ++ flat_map (probe_signal cusip_to_name) position_history
  ++ concentration_signal diffs
  ++ flat_map (theme_signals assign_cluster) diffs.

Definition strength_eqb (a b : Strength) : bool :=
  match a, b with
  | weak, weak | moderate, moderate | strong, strong => true
  | _, _ => false
  end.

Definition signal_type_eqb (a b : SignalType) : bool :=
  match a, b with
  | consistent_accumulator, consistent_accumulator
  | build_then_trim, build_then_trim
  | one_quarter_probe, one_quarter_probe
  | concentration_shift, concentration_shift
  | theme_emergence, theme_emergence => true
  | _, _ => false
  end.

Definition has_signal_type (t : SignalType) (s : Signal) : bool :=
  signal_type_eqb (signal_type s) t.

(** The build-then-trim signal of a history whose entries [pre] are
    followed by the trimming entry [e]. *)
Definition trim_signal (name : string) (pre : list HistEntry) (e : HistEntry)
  : Signal :=
  {| signal_type := build_then_trim;
     holdings := [name];
     quarters := map entry_period (trailing_run pre) ++ [entry_period e];
     strength := moderate;
     details := BuildQuarters (List.length (trailing_run pre)) |}.

(** The entry [e] that follows [pre] trims a build: it is a [DECREASE]
    that ends a run of at least two [INCREASE] entries. *)
Definition trims_build (pre : list HistEntry) (e : HistEntry) : Prop :=
  entry_change e = DECREASE /\ (2 <= List.length (trailing_run pre))%nat.

(** No entry of [pre] trims a build, in the history [before ++ pre]. *)
Definition no_trim_in (before pre : list HistEntry) : Prop :=
  forall pre' e' post',
    pre = pre' ++ e' :: post' -> ~ trims_build (before ++ pre') e'.

(** The probe signal of a position opened at entry [opened] and closed
    at entry [closed], [held] quarters apart (both ends counted). *)
Definition probe_of (name : string) (opened closed : HistEntry) (held : nat)
  : Signal :=
  {| signal_type := one_quarter_probe;
     holdings := [name];
     quarters := [entry_period opened; entry_period closed];
     strength := weak;
     details := QuartersHeld held |}.

(** The entries [following] an opening hold an [EXIT] at the first place,
    or at the second place after an entry that is no [EXIT]. *)
Definition closes_within_two (name : string) (opened : HistEntry)
    (following : list HistEntry) (s : Signal) : Prop :=
  (exists x rest, following = x :: rest
                  /\ entry_change x = EXIT /\ s = probe_of name opened x 2)
  \/ (exists y x rest, following = y :: x :: rest
                       /\ entry_change y <> EXIT
                       /\ entry_change x = EXIT /\ s = probe_of name opened x 3).

Definition is_new (e : HistEntry) : bool := change_type_eqb (entry_change e) NEW.

(** What the detector of each kind of signal emits on [diffs]. *)
Definition emitted_of_kind (assign_cluster : string -> string)
    (diffs : list QuarterDiff) (t : SignalType) : list Signal :=
  let position_history := build_position_history diffs in
  let cusip_to_name := build_cusip_to_name diffs in
  match t with
  | consistent_accumulator =>
      flat_map (accumulator_signal cusip_to_name) position_history
  | build_then_trim =>
      flat_map (build_trim_signal cusip_to_name) position_history
  | one_quarter_probe =>
      flat_map (probe_signal cusip_to_name) position_history
  | concentration_shift => concentration_signal diffs
  | theme_emergence => flat_map (theme_signals assign_cluster) diffs
  end.

(** The issuer names of the new starters of [diff] that [assign_cluster]
    puts in [cluster], in the order of [new_starters]. *)
Definition starters_in (assign_cluster : string -> string) (cluster : string)
    (diff : QuarterDiff) : list string :=
  filter (fun name => String.eqb (assign_cluster name) cluster)
         (map issuer_name (new_starters diff)).

(** The theme signal of [cluster] with the new starters [members]. *)
Definition theme_of (cluster : string) (members : list string)
    (diff : QuarterDiff) : Signal :=
  {| signal_type := theme_emergence;
     holdings := members;
     quarters := [period_to diff];
     strength := if (List.length members <? 5)%nat then moderate else strong;
     details := ClusterCount cluster (List.length members) |}.

(** The new starters of a sequence of diffs in the order in which
    [detect_starter_to_scale] visits them (oldest diff first), each with
    its diff. *)
Definition starter_visits (diffs : list QuarterDiff)
  : list (QuarterDiff * PositionDiff) :=
  flat_map (fun diff => map (fun pos => (diff, pos)) (new_starters diff))
           (rev diffs).

(** The first visit of a new starter with security identifier [k]. *)
Definition first_start (k : string) (diffs : list QuarterDiff)
  : option (QuarterDiff * PositionDiff) :=
  find (fun v => String.eqb (cusip (snd v)) k) (starter_visits diffs).

(** What is recorded of a new starter. *)
Definition start_info (v : QuarterDiff * PositionDiff) : StarterInfo :=
  (issuer_name (snd v), period_to (fst v),
   Py.or0 (now_value_usd (snd v)), Py.or0Q (now_weight (snd v))).

(** The positions of a diff that are still held. *)
Definition current_positions (diff : QuarterDiff) : list PositionDiff :=
  new_positions diff ++ increased diff ++ decreased diff ++ unchanged diff.

(** The last position with security identifier [k] that is still held
    in the latest diff. *)
Definition current_of (k : string) (diffs : list QuarterDiff)
  : option PositionDiff :=
  match diffs with
  | [] => None
  | latest_diff :: _ =>
      find (fun pos => String.eqb (cusip pos) k)
           (rev (current_positions latest_diff))
  end.

(** A position counts as scaled above 0.5% of the portfolio or above
    $20M. *)
Definition has_scaled (current : PositionDiff) : Prop :=
  (5 # 1000 < Py.or0Q (now_weight current))%Q
  \/ 20000000 < Py.or0 (now_value_usd current).

(** The entry reported for [k], from what was recorded at its start and
    its current position. *)
Definition scaled_of (k : string) (info : StarterInfo) (current : PositionDiff)
  : ScaledPosition :=
  let '(name, period, value, weight) := info in
  {| sp_issuer_name := name;
     sp_cusip := k;
     start_period := period;
     start_value := value;
     start_weight := weight;
     current_value := Py.or0 (now_value_usd current);
     current_weight := Py.or0Q (now_weight current);
     sp_growth_rate :=
       if value >? 0
       then Finite (inject_Z (Py.or0 (now_value_usd current) - value)
                    / inject_Z value)
       else Infinity |}.

(** The order of growth rates: [float("inf")] is above every float. *)
Definition growth_le (a b : Growth) : Prop :=
  match a, b with
  | Finite x, Finite y => (x <= y)%Q
  | _, Infinity => True
  | Infinity, Finite _ => False
  end.

(** Every character of [s] is an ASCII character. *)
Definition is_ascii (s : string) : bool :=
  forallb (fun c => (nat_of_ascii c <? 128)%nat) (list_ascii_of_string s).

(** [keyword] occurs in [s]. *)
Definition occurs_in (keyword s : string) : Prop :=
  exists a b, s = (a ++ keyword ++ b)%string.

(** No keyword of the clusters [table] occurs in [s]. *)
Definition no_keyword_of (table : Py.dict (list string)) (s : string) : Prop :=
  forall cluster keywords keyword,
    In (cluster, keywords) table -> In keyword keywords ->
    ~ occurs_in keyword s.

(** The holdings that [assign_cluster] puts in [cluster], in their
    order in [holdings]. *)
Definition holdings_in (cluster : string) (holdings : list Holding)
  : list Holding :=
  filter (fun h => String.eqb (assign_cluster (holding_name h)) cluster)
         holdings.

(** Sorted by value, descending, equal values in their former order. *)
Definition by_value_desc (l : list Holding) : list Holding :=
  Py.sorted_by (fun y x => holding_value x <? holding_value y) l.

Definition sum_counts (l : list nat) : nat := fold_right Nat.add 0%nat l.

(** Three holdings, two of them of the first cluster. *)
Definition three_holdings : list Holding :=
  [ ("NVIDIA CORP", 100, 1 # 3);
    ("XYZ HOLDINGS LLC", 50, 1 # 6);
    ("Intel Corp", 150, 1 # 2) ].

(** The positions whose names [detect_signals] records, in the order in
    which it visits them (newest diff first). *)
Definition named_positions (diffs : list QuarterDiff) : list PositionDiff :=
  flat_map (fun diff => new_positions diff ++ increased diff ++ decreased diff)
           diffs.


(** A put option on a security, and shares of the same security. *)
Definition put_on_xi : list HoldingRecord :=
  [ holding "000000XXX" "XI CORP" "COM" 100 10 (Some "Put") ].

Definition shares_of_xi : list HoldingRecord :=
  [ holding "000000XXX" "XI CORP" "COM" 100 10 None ].

(** * Properties *)

(** ** The [result] monad *)

Lemma bind_Ok_inv {A B : Type} (m : Py.result A) (k : A -> Py.result B) (b : B) :
  Py.bind m k = Py.Ok b -> exists a, m = Py.Ok a /\ k a = Py.Ok b.
Proof.
  destruct m as [a | e]; simpl; intros H.
  - exists a. split; [reflexivity | exact H].
  - discriminate H.
Qed.

Lemma mapM_Forall2 {A B : Type} (f : A -> Py.result B) (l : list A) (ys : list B) :
  Py.mapM f l = Py.Ok ys -> Forall2 (fun x y => f x = Py.Ok y) l ys.
Proof.
  revert ys. induction l as [| x l IH]; simpl; intros ys H.
  - injection H as <-. constructor.
  - apply bind_Ok_inv in H as (y & Hy & H).
    apply bind_Ok_inv in H as (ys' & Hys & H).
    injection H as <-. constructor; auto.
Qed.

Lemma mapM_total {A B : Type} (f : A -> Py.result B) (l : list A) :
  (forall x, In x l -> exists y, f x = Py.Ok y) ->
  exists ys, Py.mapM f l = Py.Ok ys.
Proof.
  induction l as [| x l IH]; simpl; intros H.
  - eexists. reflexivity.
  - destruct (H x (or_introl eq_refl)) as (y & Hy).
    destruct IH as (ys & Hys); [intros; apply H; now right |].
    exists (y :: ys). rewrite Hy, Hys. reflexivity.
Qed.

Lemma mapM_pure {A B : Type} (f : A -> Py.result B) (g : A -> B) (l : list A) :
  (forall x, In x l -> f x = Py.Ok (g x)) ->
  Py.mapM f l = Py.Ok (map g l).
Proof.
  induction l as [| x l IH]; simpl; intros H; [reflexivity |].
  rewrite (H x (or_introl eq_refl)). simpl.
  rewrite IH by (intros; apply H; now right). reflexivity.
Qed.

Lemma Forall2_In_r {A B : Type} (R : A -> B -> Prop) (l : list A) (l' : list B) (y : B) :
  Forall2 R l l' -> In y l' -> exists x, In x l /\ R x y.
Proof.
  induction 1 as [| a b l l' Hab _ IH]; simpl; intros Hin; [contradiction |].
  destruct Hin as [<- | Hin].
  - exists a. auto.
  - destruct (IH Hin) as (x & Hx & HR). exists x. auto.
Qed.

Lemma truediv_Ok (a b : Z) :
  b <> 0 -> Py.truediv a b = Py.Ok (inject_Z a / inject_Z b)%Q.
Proof.
  intros Hb. unfold Py.truediv.
  destruct (Z.eqb_spec b 0) as [E | _]; [contradiction | reflexivity].
Qed.

(** ** Dictionaries *)

Section DictFacts.
Context {V : Type}.
Implicit Types (d : Py.dict V) (k : string) (v : V).

Lemma get_set_same k v d : Py.get k (Py.set k v d) = Some v.
Proof.
  induction d as [| [k' v'] d IH]; simpl.
  - now rewrite String.eqb_refl.
  - destruct (String.eqb_spec k k') as [-> | Hne]; simpl.
    + now rewrite String.eqb_refl.
    + destruct (String.eqb_spec k k'); [contradiction | exact IH].
Qed.

Lemma get_set_other k k' v d :
  k <> k' -> Py.get k (Py.set k' v d) = Py.get k d.
Proof.
  intros Hne. induction d as [| [k0 v0] d IH]; simpl.
  - destruct (String.eqb_spec k k'); [contradiction | reflexivity].
  - destruct (String.eqb_spec k' k0) as [-> | Hne0]; simpl.
    + destruct (String.eqb_spec k k0); [contradiction | reflexivity].
    + destruct (String.eqb_spec k k0); [reflexivity | exact IH].
Qed.

Lemma get_In_keys k d : In k (Py.keys d) <-> Py.get k d <> None.
Proof.
  induction d as [| [k' v'] d IH]; simpl.
  - split; [contradiction | congruence].
  - destruct (String.eqb_spec k k') as [-> | Hne].
    + split; [discriminate | auto].
    + rewrite <- IH. split; [intros [E | H]; [congruence | exact H] | auto].
Qed.

Lemma keys_set k v d :
  Py.keys (Py.set k v d) = if Py.mem k d then Py.keys d else Py.keys d ++ [k].
Proof.
  unfold Py.mem, Py.keys. induction d as [| [k' v'] d IH]; simpl; [reflexivity |].
  destruct (String.eqb_spec k k') as [-> | Hne]; simpl; [reflexivity |].
  rewrite IH. destruct (Py.get k d); reflexivity.
Qed.

Lemma NoDup_keys_set k v d : NoDup (Py.keys d) -> NoDup (Py.keys (Py.set k v d)).
Proof.
  intros Hnd. rewrite keys_set. unfold Py.mem.
  destruct (Py.get k d) eqn:E; [exact Hnd |].
  assert (Hk : ~ In k (Py.keys d)) by (rewrite get_In_keys; congruence).
  apply NoDup_app; [exact Hnd | repeat constructor; simpl; tauto |].
  intros x Hx [<- | []]. contradiction.
Qed.

End DictFacts.

Lemma str_mem_In (k : string) (l : list string) :
  Py.str_mem k l = true <-> In k l.
Proof.
  unfold Py.str_mem. rewrite existsb_exists. split.
  - intros (x & Hx & E). apply String.eqb_eq in E. now subst.
  - intros H. exists k. split; [exact H | apply String.eqb_refl].
Qed.

Lemma union_keys_In (a b : list string) (k : string) :
  In k (Py.union_keys a b) <-> In k a \/ In k b.
Proof.
  unfold Py.union_keys. rewrite in_app_iff, filter_In. split.
  - intros [H | [H _]]; auto.
  - intros [H | H]; [now left |].
    destruct (Py.str_mem k a) eqn:E.
    + left. now apply str_mem_In.
    + right. split; [exact H | reflexivity].
Qed.

Lemma union_keys_NoDup (a b : list string) :
  NoDup a -> NoDup b -> NoDup (Py.union_keys a b).
Proof.
  intros Ha Hb. unfold Py.union_keys.
  apply NoDup_app; [exact Ha | now apply NoDup_filter |].
  intros x Hx Hf. apply filter_In in Hf as [_ Hf].
  apply str_mem_In in Hx. cbv beta in Hf. rewrite Hx in Hf. discriminate.
Qed.

(** ** The index of a side by matching key *)

Lemma by_key_from_get (holdings : list HoldingRecord) :
  forall d0 k h,
    Py.get k (by_key_from d0 holdings) = Some h ->
    (In h holdings /\ _holding_key h = k) \/ Py.get k d0 = Some h.
Proof.
  induction holdings as [| h0 hs IH]; simpl; intros d0 k h H; [now right |].
  apply IH in H as [[Hin Hk] | H]; [left; auto |].
  destruct (string_dec k (_holding_key h0)) as [-> | Hne].
  - rewrite get_set_same in H. injection H as <-. left. auto.
  - rewrite get_set_other in H by exact Hne. now right.
Qed.

Lemma by_key_from_keeps (holdings : list HoldingRecord) :
  forall d0 k, Py.get k d0 <> None -> Py.get k (by_key_from d0 holdings) <> None.
Proof.
  induction holdings as [| h0 hs IH]; simpl; intros d0 k H; [exact H |].
  apply IH. destruct (string_dec k (_holding_key h0)) as [-> | Hne].
  - rewrite get_set_same. discriminate.
  - now rewrite get_set_other.
Qed.

Lemma by_key_from_covers (holdings : list HoldingRecord) :
  forall d0 h, In h holdings ->
    Py.get (_holding_key h) (by_key_from d0 holdings) <> None.
Proof.
  induction holdings as [| h0 hs IH]; simpl; intros d0 h Hin; [contradiction |].
  destruct Hin as [-> | Hin]; [| now apply IH].
  apply by_key_from_keeps. rewrite get_set_same. discriminate.
Qed.

Lemma by_key_from_NoDup (holdings : list HoldingRecord) :
  forall d0, NoDup (Py.keys d0) -> NoDup (Py.keys (by_key_from d0 holdings)).
Proof.
  induction holdings as [| h0 hs IH]; simpl; intros d0 H; [exact H |].
  apply IH. now apply NoDup_keys_set.
Qed.

Lemma by_key_get (holdings : list HoldingRecord) (k : string) (h : HoldingRecord) :
  Py.get k (by_key holdings) = Some h -> In h holdings /\ _holding_key h = k.
Proof.
  intros H. apply (by_key_from_get holdings []) in H as [H | H]; [exact H |].
  discriminate H.
Qed.

Lemma by_key_keys (holdings : list HoldingRecord) (k : string) :
  In k (Py.keys (by_key holdings)) <->
  exists h, In h holdings /\ _holding_key h = k.
Proof.
  rewrite get_In_keys. split.
  - intros H. destruct (Py.get k (by_key holdings)) as [h |] eqn:E; [| congruence].
    exists h. now apply by_key_get.
  - intros (h & Hin & <-). now apply (by_key_from_covers holdings []).
Qed.

Lemma by_key_NoDup (holdings : list HoldingRecord) :
  NoDup (Py.keys (by_key holdings)).
Proof. apply (by_key_from_NoDup holdings []). constructor. Qed.

(** ** The matching key as a string *)

Lemma append_bar_inj (a1 a2 r1 r2 : string) :
  has_bar a1 = false -> has_bar a2 = false ->
  (a1 ++ "|" ++ r1 = a2 ++ "|" ++ r2)%string -> a1 = a2 /\ r1 = r2.
Proof.
  revert a2. induction a1 as [| c a1 IH]; intros [| c' a2] H1 H2 E; simpl in *.
  - injection E as ->. auto.
  - injection E as <- _. simpl in H2. discriminate H2.
  - injection E as -> _. simpl in H1. discriminate H1.
  - injection E as <- E.
    apply orb_false_iff in H1 as [_ H1]. apply orb_false_iff in H2 as [_ H2].
    destruct (IH a2 H1 H2 E) as [-> ->]. auto.
Qed.

(** Two holdings whose security identifier and title of class are free
    of the separator have the same key exactly when they agree on the
    identifier, on the title and on the option flag (an absent flag, an
    empty one and the text NONE being one and the same flag). *)
Lemma holding_key_eq_iff (h1 h2 : HoldingRecord) :
  has_bar (h_cusip h1) = false -> has_bar (h_title_of_class h1) = false ->
  has_bar (h_cusip h2) = false -> has_bar (h_title_of_class h2) = false ->
  _holding_key h1 = _holding_key h2 <->
  h_cusip h1 = h_cusip h2
  /\ h_title_of_class h1 = h_title_of_class h2
  /\ Py.str_or (h_put_call h1) "NONE" = Py.str_or (h_put_call h2) "NONE".
Proof.
  intros Hc1 Ht1 Hc2 Ht2. unfold _holding_key. split.
  - intros E. apply append_bar_inj in E as [Ec E]; auto.
    apply append_bar_inj in E as [Et Ep]; auto.
  - intros (-> & -> & ->). reflexivity.
Qed.

(** ** One iteration of the loop over the keys *)

Lemma weight_step (v total : Z) :
  (if Py.truthy v && Py.truthy total
   then (w <- Py.truediv v total ;; Py.Ok (Some w))
   else Py.Ok None) = Py.Ok (weight_of (Some v) total).
Proof.
  unfold weight_of. destruct (Py.truthy v); simpl; [| reflexivity].
  unfold Py.truthy, Py.truediv.
  destruct (total =? 0); reflexivity.
Qed.

Lemma growth_step (pv nv : Z) :
  (if Py.truthy pv && (pv >? 0)
   then (g <- Py.truediv (nv - pv) pv ;; Py.Ok (Some g))
   else Py.Ok None) = Py.Ok (growth_of (Some pv) (Some nv)).
Proof.
  unfold growth_of, Py.truthy, Py.truediv.
  destruct (pv =? 0); [reflexivity |].
  destruct (pv >? 0); reflexivity.
Qed.

Lemma impact_step (delta total : Z) :
  (if total >? 0
   then (i <- Py.truediv delta total ;; Py.Ok (Some i))
   else Py.Ok None) = Py.Ok (impact_of delta total).
Proof.
  unfold impact_of, Py.truediv.
  destruct (Z.gtb_spec total 0) as [H | H]; [| reflexivity].
  destruct (Z.eqb_spec total 0) as [E | _]; [lia | reflexivity].
Qed.

Lemma position_diff_Ok
    (P N : Py.dict HoldingRecord) (tp tn : Z) (cfg : Config) (key : string) :
  (forall h, Py.get key P = Some h -> _holding_key h = key) ->
  (forall h, Py.get key N = Some h -> _holding_key h = key) ->
  Py.get key P <> None \/ Py.get key N <> None ->
  exists d, position_diff P N tp tn cfg key = Py.Ok d
            /\ built_for P N tp tn cfg key d.
Proof.
  intros HP HN Hsome. unfold position_diff, built_for.
  destruct (Py.get key P) as [hp |] eqn:EP, (Py.get key N) as [hn |] eqn:EN;
    cbn [option_map]; cbv zeta.
  - rewrite !weight_step, growth_step, impact_step. cbn [Py.bind].
    eexists. split; [reflexivity |]. cbn.
    repeat split; try reflexivity. apply (HN hn eq_refl).
  - rewrite weight_step, impact_step. cbn [Py.bind].
    eexists. split; [reflexivity |]. cbn.
    repeat split; try reflexivity. apply (HP hp eq_refl).
  - rewrite weight_step, impact_step. cbn [Py.bind].
    eexists. split; [reflexivity |]. cbn.
    repeat split; try reflexivity. apply (HN hn eq_refl).
  - destruct Hsome as [H | H]; congruence.
Qed.

(** ** The five categories *)

Lemma has_type_iff (t : ChangeType) (d : PositionDiff) :
  has_type t d = true <-> change_type d = t.
Proof.
  unfold has_type. destruct (change_type d), t; simpl; split;
    intros H; try reflexivity; discriminate H.
Qed.

Lemma filter_cons_type (t : ChangeType) (d : PositionDiff) (l : list PositionDiff) :
  filter (has_type t) (d :: l) =
  if change_type_eqb (change_type d) t
  then d :: filter (has_type t) l else filter (has_type t) l.
Proof. reflexivity. Qed.

Lemma filter_by_type_perm (l : list PositionDiff) :
  Permutation
    (filter (has_type NEW) l ++ filter (has_type EXIT) l
       ++ filter (has_type INCREASE) l ++ filter (has_type DECREASE) l
       ++ filter (has_type UNCHANGED) l)
    l.
Proof.
  induction l as [| d l IH]; [constructor |].
  rewrite !filter_cons_type.
  destruct (change_type d); cbn [change_type_eqb].
  - cbn [app]. now constructor.
  - symmetry. apply Permutation_cons_app. now symmetry.
  - rewrite app_assoc. rewrite app_assoc in IH.
    symmetry. apply Permutation_cons_app. now symmetry.
  - do 2 rewrite app_assoc. do 2 rewrite app_assoc in IH.
    symmetry. apply Permutation_cons_app. now symmetry.
  - do 3 rewrite app_assoc. do 3 rewrite app_assoc in IH.
    symmetry. apply Permutation_cons_app. now symmetry.
Qed.

Lemma all_positions_perm
    (hp hn : list HoldingRecord) (tp tn : Z)
    (diffs : list PositionDiff) (qd : QuarterDiff) :
  summarises hp hn tp tn diffs qd -> Permutation (all_positions qd) diffs.
Proof.
  intros (Hn & Hx & Hi & Hd & Hu & _).
  eapply Permutation_trans; [| apply filter_by_type_perm].
  unfold all_positions. rewrite Hn, Hx, Hi, Hd, Hu.
  apply Permutation_app_head.
  set (I := filter (has_type INCREASE) diffs).
  set (D := filter (has_type DECREASE) diffs).
  set (U := filter (has_type UNCHANGED) diffs).
  set (X := filter (has_type EXIT) diffs).
  replace (I ++ D ++ U ++ X) with ((I ++ D ++ U) ++ X)
    by now rewrite <- !app_assoc.
  apply Permutation_app_comm.
Qed.

Lemma all_positions_In
    (hp hn : list HoldingRecord) (tp tn : Z)
    (diffs : list PositionDiff) (qd : QuarterDiff) (d : PositionDiff) :
  summarises hp hn tp tn diffs qd -> In d (all_positions qd) <-> In d diffs.
Proof.
  intros H. apply all_positions_perm in H. split; apply Permutation_in.
  - exact H.
  - now symmetry.
Qed.

Lemma Forall2_built_In
    (P N : Py.dict HoldingRecord) (tp tn : Z) (cfg : Config)
    (ks : list string) (diffs : list PositionDiff) (d : PositionDiff) :
  Forall2 (built_for P N tp tn cfg) ks diffs -> In d diffs ->
  exists k, In k ks /\ built_for P N tp tn cfg k d.
Proof. apply Forall2_In_r. Qed.

Lemma filter_const {A : Type} (b : bool) (l : list A) :
  filter (fun _ => b) l = if b then l else [].
Proof.
  induction l as [| x l IH]; simpl; [now destruct b |].
  rewrite IH. now destruct b.
Qed.

(** ** Sums and the stable sort *)

Lemma sumZ_from (l : list Z) (a : Z) : fold_left Z.add l a = a + Py.sumZ l.
Proof.
  unfold Py.sumZ. revert a. induction l as [| x l IH]; intros a; simpl; [lia |].
  rewrite (IH (a + x)), (IH x). lia.
Qed.

Lemma sumZ_cons (x : Z) (l : list Z) : Py.sumZ (x :: l) = x + Py.sumZ l.
Proof. unfold Py.sumZ at 1. simpl. apply sumZ_from. Qed.

Lemma sumQ_from (l : list Q) (a : Q) : (fold_left Qplus l a == a + Py.sumQ l)%Q.
Proof.
  unfold Py.sumQ. revert a. induction l as [| x l IH]; intros a; simpl.
  - ring.
  - rewrite (IH (a + x)%Q), (IH (0 + x)%Q). ring.
Qed.

Lemma sumQ_cons (x : Q) (l : list Q) : (Py.sumQ (x :: l) == x + Py.sumQ l)%Q.
Proof. unfold Py.sumQ at 1. simpl. rewrite sumQ_from. ring. Qed.


Lemma sumQ_perm (l l' : list Q) :
  Permutation l l' -> (Py.sumQ l == Py.sumQ l')%Q.
Proof.
  induction 1 as [| x l l' _ IH | x y l | l l' l'' _ IH1 _ IH2].
  - reflexivity.
  - now rewrite !sumQ_cons, IH.
  - rewrite !sumQ_cons. ring.
  - now rewrite IH1.
Qed.

Lemma In_firstn {A : Type} (n : nat) (l : list A) (x : A) :
  In x (firstn n l) -> In x l.
Proof.
  revert n. induction l as [| y l IH]; intros [| n]; simpl; try tauto.
  intros [H | H]; [now left | right; eapply IH; eassumption].
Qed.



Lemma insert_by_perm {A : Type} (before : A -> A -> bool) (x : A) (l : list A) :
  Permutation (Py.insert_by before x l) (x :: l).
Proof.
  induction l as [| y l IH]; simpl; [reflexivity |].
  destruct (before y x); [| reflexivity].
  rewrite IH. apply perm_swap.
Qed.

Lemma sorted_by_perm {A : Type} (before : A -> A -> bool) (l : list A) :
  Permutation (Py.sorted_by before l) l.
Proof.
  induction l as [| x l IH]; simpl; [reflexivity |].
  rewrite insert_by_perm. now constructor.
Qed.

Lemma Qltb_true (x y : Q) : Py.Qltb x y = true <-> (x < y)%Q.
Proof.
  unfold Py.Qltb. rewrite negb_true_iff, <- not_true_iff_false, Qle_bool_iff.
  split; [apply Qnot_le_lt | apply Qlt_not_le].
Qed.

Lemma Qltb_false (x y : Q) : Py.Qltb x y = false <-> (y <= x)%Q.
Proof.
  unfold Py.Qltb. now rewrite negb_false_iff, Qle_bool_iff.
Qed.



Lemma sum_of_weights (holdings : list HoldingRecord) (total : Z) :
  (Py.sumQ (map (fun h => inject_Z (value_usd h) / inject_Z total) holdings)
   == inject_Z (Py.sumZ (map value_usd holdings)) / inject_Z total)%Q.
Proof.
  induction holdings as [| h l IH]; cbn [map].
  - unfold Py.sumQ, Py.sumZ. simpl. unfold Qdiv. ring.
  - rewrite sumQ_cons, sumZ_cons, IH, inject_Z_plus. unfold Qdiv. ring.
Qed.

Lemma weight_nonneg (v total : Z) :
  0 <= v -> 0 < total -> (0 <= inject_Z v / inject_Z total)%Q.
Proof.
  intros Hv Ht. apply Qle_shift_div_l.
  - replace 0%Q with (inject_Z 0) by reflexivity. now rewrite <- Zlt_Qlt.
  - rewrite Qmult_0_l. replace 0%Q with (inject_Z 0) by reflexivity.
    now rewrite <- Zle_Qle.
Qed.

(** ** The diff of two filings *)

Section QuarterDiffFacts.

Variable db : Database.
Variables (fid : Z) (fname : string).
Variables filing_prev filing_now : FilingRecord.
Variable config : Config.

Let holdings_prev := get_holdings_for_filing db (id filing_prev).
Let holdings_now := get_holdings_for_filing db (id filing_now).
Let total_prev := Py.sumZ (map value_usd holdings_prev).
Let total_now := Py.sumZ (map value_usd holdings_now).
Let prev_by_key := by_key holdings_prev.
Let now_by_key := by_key holdings_now.
Let all_keys := Py.union_keys (Py.keys prev_by_key) (Py.keys now_by_key).

Lemma all_keys_NoDup : NoDup all_keys.
Proof. apply union_keys_NoDup; apply by_key_NoDup. Qed.

Lemma all_keys_In (k : string) :
  In k all_keys <->
  (exists h, In h holdings_prev /\ _holding_key h = k)
  \/ (exists h, In h holdings_now /\ _holding_key h = k).
Proof.
  unfold all_keys. rewrite union_keys_In.
  unfold prev_by_key, now_by_key. now rewrite !by_key_keys.
Qed.

Lemma loop_body_Ok (k : string) :
  In k all_keys ->
  exists d,
    position_diff prev_by_key now_by_key total_prev total_now config k = Py.Ok d
    /\ built_for prev_by_key now_by_key total_prev total_now config k d.
Proof.
  intros Hk. apply position_diff_Ok.
  - intros h H. now apply by_key_get in H.
  - intros h H. now apply by_key_get in H.
  - apply union_keys_In in Hk. now rewrite <- !get_In_keys.
Qed.

Lemma loop_total :
  exists diffs,
    Py.mapM (position_diff prev_by_key now_by_key total_prev total_now config)
            all_keys = Py.Ok diffs.
Proof.
  apply mapM_total. intros k Hk.
  destruct (loop_body_Ok k Hk) as (d & Hd & _). now exists d.
Qed.

Lemma loop_built (diffs : list PositionDiff) :
  Py.mapM (position_diff prev_by_key now_by_key total_prev total_now config)
          all_keys = Py.Ok diffs ->
  Forall2 (built_for prev_by_key now_by_key total_prev total_now config)
          all_keys diffs.
Proof.
  intros H. apply mapM_Forall2 in H.
  assert (Hin : forall k, In k all_keys -> In k all_keys) by auto.
  revert Hin H. generalize all_keys at 1 3 4 as ks.
  intros ks Hin H. induction H as [| k d ks ds Hkd _ IH]; constructor.
  - destruct (loop_body_Ok k (Hin k (or_introl eq_refl))) as (d' & Hd' & Hb).
    rewrite Hkd in Hd'. injection Hd' as <-. exact Hb.
  - apply IH. intros k' Hk'. apply Hin. now right.
Qed.

Lemma weights_Ok :
  Py.mapM (fun h => Py.truediv (value_usd h) total_now)
          (filter (fun _ => total_now >? 0) holdings_now)
  = Py.Ok (if total_now >? 0
           then map (fun h => (inject_Z (value_usd h) / inject_Z total_now)%Q)
                    holdings_now
           else []).
Proof.
  rewrite filter_const.
  destruct (Z.gtb_spec total_now 0) as [Hpos | Hneg]; [| reflexivity].
  apply mapM_pure. intros h _. apply truediv_Ok. lia.
Qed.

(** The call returns: no path through the function raises. *)
Lemma compute_quarter_diff_returns :
  exists qd,
    compute_quarter_diff db fid fname filing_prev filing_now config = Py.Ok qd.
Proof.
  destruct loop_total as (diffs & Hdiffs).
  unfold compute_quarter_diff.
  fold holdings_prev holdings_now. fold total_prev total_now.
  fold prev_by_key now_by_key. fold all_keys.
  rewrite Hdiffs. cbn [Py.bind]. rewrite weights_Ok. cbn [Py.bind].
  eexists. reflexivity.
Qed.

Lemma compute_quarter_diff_inv (qd : QuarterDiff) :
  compute_quarter_diff db fid fname filing_prev filing_now config = Py.Ok qd ->
  exists diffs,
    Forall2 (built_for prev_by_key now_by_key total_prev total_now config)
            all_keys diffs
    /\ summarises holdings_prev holdings_now total_prev total_now diffs qd.
Proof.
  destruct loop_total as (diffs & Hdiffs).
  unfold compute_quarter_diff.
  fold holdings_prev holdings_now. fold total_prev total_now.
  fold prev_by_key now_by_key. fold all_keys.
  rewrite Hdiffs. cbn [Py.bind]. rewrite weights_Ok. cbn [Py.bind].
  intros H. injection H as <-. exists diffs. split.
  - now apply loop_built.
  - unfold summarises, sorted_desc, current_weights. cbn.
    repeat split; reflexivity.
Qed.

Lemma position_built (qd : QuarterDiff) (d : PositionDiff) :
  compute_quarter_diff db fid fname filing_prev filing_now config = Py.Ok qd ->
  In d (all_positions qd) ->
  exists k,
    In k all_keys
    /\ built_for prev_by_key now_by_key total_prev total_now config k d.
Proof.
  intros Hqd Hd. apply compute_quarter_diff_inv in Hqd as (diffs & Hb & Hs).
  apply (all_positions_In _ _ _ _ _ _ d Hs) in Hd.
  eapply Forall2_built_In; eassumption.
Qed.

(** *** Arithmetic safety *)

Lemma weight_of_zero_total (value : option Z) : weight_of value 0 = None.
Proof.
  destruct value as [v |]; [| reflexivity].
  unfold weight_of. now rewrite andb_false_r.
Qed.

Lemma by_key_nil_get (k : string) : Py.get k (by_key []) = None.
Proof. reflexivity. Qed.

(** C6: on every pair of holdings snapshots the diff computation returns
    a [QuarterDiff] and raises nothing (neither a division by zero nor a
    missing reference record); a weight or an impact whose denominator
    (the period total) is zero is [None], as is a growth rate whose
    denominator (the prior value) is zero; with no current holdings the
    two concentrations and the Herfindahl index are 0; with an empty
    current side every position is an [EXIT], with an empty prior side
    every position is [NEW]. *)
Theorem compute_quarter_diff_never_raises :
  exists qd,
    compute_quarter_diff db fid fname filing_prev filing_now config = Py.Ok qd
    /\ (holdings_now = [] ->
        concentration_top5 qd = 0%Q
        /\ concentration_top10 qd = 0%Q
        /\ herfindahl_index qd = 0%Q)
    /\ (forall d, In d (all_positions qd) ->
        (total_prev = 0 -> prev_weight d = None /\ portfolio_impact d = None)
        /\ (total_now = 0 -> now_weight d = None)
        /\ (prev_value_usd d = Some 0 -> growth_rate d = None))
    /\ (holdings_now = [] ->
        forall d, In d (all_positions qd) -> change_type d = EXIT)
    /\ (holdings_prev = [] ->
        forall d, In d (all_positions qd) -> change_type d = NEW).
Proof.
  destruct compute_quarter_diff_returns as (qd & Hqd).
  exists qd. split; [exact Hqd |].
  pose proof (compute_quarter_diff_inv qd Hqd) as (diffs & Hb & Hs).
  split; [| split; [| split]].
  - intros Hnil.
    destruct Hs as (_ & _ & _ & _ & _ & _ & _ & _ & _ & _ & H5 & H10 & Hh).
    rewrite H5, H10, Hh. rewrite Hnil. unfold current_weights. cbn.
    destruct (total_now >? 0); cbn; auto.
  - intros d Hd.
    destruct (position_built qd d Hqd Hd)
      as (k & Hk & Hpv & Hnv & Hdv & Hpw & Hnw & Hg & Hi & _).
    split; [| split].
    + intros Hz. rewrite Hpw, Hi, Hz. split.
      * apply weight_of_zero_total.
      * reflexivity.
    + intros Hz. rewrite Hnw, Hz. apply weight_of_zero_total.
    + intros Hz. rewrite Hg, Hz. now destruct (now_value_usd d).
  - intros Hnil d Hd.
    destruct (position_built qd d Hqd Hd)
      as (k & Hk & _ & _ & _ & _ & _ & _ & _ & Hc & _).
    rewrite Hc. unfold now_by_key at 1. rewrite Hnil, by_key_nil_get.
    destruct (Py.get k prev_by_key) eqn:E; [reflexivity |].
    exfalso. apply union_keys_In in Hk as [Hk | Hk];
      apply get_In_keys in Hk.
    + congruence.
    + unfold now_by_key in Hk. rewrite Hnil in Hk. now apply Hk.
  - intros Hnil d Hd.
    destruct (position_built qd d Hqd Hd)
      as (k & Hk & _ & _ & _ & _ & _ & _ & _ & Hc & _).
    rewrite Hc. unfold prev_by_key at 1. rewrite Hnil, by_key_nil_get.
    destruct (Py.get k now_by_key) eqn:E; [reflexivity |].
    exfalso. apply union_keys_In in Hk as [Hk | Hk];
      apply get_In_keys in Hk.
    + unfold prev_by_key in Hk. rewrite Hnil in Hk. now apply Hk.
    + congruence.
Qed.

(** *** A snapshot against itself *)

(** C8: when both filings have the same holdings list, the diff exists,
    its two position counts are equal, and every [PositionDiff] in it is
    [UNCHANGED] with a value delta of 0. *)
Theorem self_diff_unchanged :
  holdings_prev = holdings_now ->
  exists qd,
    compute_quarter_diff db fid fname filing_prev filing_now config = Py.Ok qd
    /\ position_count_now qd = position_count_prev qd
    /\ forall d, In d (all_positions qd) ->
         change_type d = UNCHANGED /\ delta_value_usd d = 0.
Proof.
  intros Hsame.
  destruct compute_quarter_diff_returns as (qd & Hqd).
  exists qd. split; [exact Hqd |].
  pose proof (compute_quarter_diff_inv qd Hqd) as (diffs & Hb & Hs).
  split.
  - destruct Hs as (_ & _ & _ & _ & _ & _ & _ & _ & Hcp & Hcn & _).
    rewrite Hcp, Hcn. now rewrite Hsame.
  - intros d Hd.
    destruct (position_built qd d Hqd Hd)
      as (k & Hk & Hpv & Hnv & Hdv & _ & _ & _ & _ & Hc & _).
    assert (HPN : prev_by_key = now_by_key)
      by (unfold prev_by_key, now_by_key; now rewrite Hsame).
    rewrite HPN in Hpv, Hc.
    assert (Hz : delta_value_usd d = 0) by (rewrite Hdv, Hpv, Hnv; lia).
    split; [| exact Hz].
    rewrite Hc, Hz.
    destruct (Py.get k now_by_key) eqn:E; [reflexivity |].
    exfalso. apply union_keys_In in Hk. rewrite HPN in Hk.
    destruct Hk as [Hk | Hk]; apply get_In_keys in Hk; congruence.
Qed.

(** *** Classification and partition *)

Lemma present_get (k : string) (holdings : list HoldingRecord) :
  present k holdings = is_some (Py.get k (by_key holdings)).
Proof.
  apply eq_true_iff_eq. unfold present. rewrite existsb_exists.
  assert (Hs : is_some (Py.get k (by_key holdings)) = true
               <-> Py.get k (by_key holdings) <> None).
  { destruct (Py.get k (by_key holdings)); simpl; split; congruence. }
  rewrite Hs, <- get_In_keys, by_key_keys.
  split; intros (h & Hin & E); exists h; split; auto.
  - now apply String.eqb_eq.
  - now apply String.eqb_eq.
Qed.

Lemma classify_spec (hp hn : option HoldingRecord) (delta : Z) :
  classify hp hn delta = spec_classification (is_some hp) (is_some hn) delta.
Proof. destruct hp, hn; reflexivity. Qed.

Lemma filter_type_In (t : ChangeType) (diffs : list PositionDiff) (d : PositionDiff) :
  In d (filter (has_type t) diffs) <-> In d diffs /\ change_type d = t.
Proof. now rewrite filter_In, has_type_iff. Qed.

(** C5: the diff holds exactly one [PositionDiff] per matching key of the
    union of the two sides (the keys are enumerated without repetition,
    a key is enumerated iff a holding of either side has it, and the
    position built for a key carries that key); its classification
    follows the ordered rule [NEW], [EXIT], then the sign of the value
    delta, the current value less the prior one, an absent side counting
    as 0; and the five category lists partition the positions: together
    they are a rearrangement of the list of all positions, and each one
    holds exactly the positions of its classification. *)
Theorem classification_partitions_positions :
  exists qd diffs,
    compute_quarter_diff db fid fname filing_prev filing_now config = Py.Ok qd
    /\ NoDup all_keys
    /\ (forall k, In k all_keys <->
                  present k holdings_prev = true \/ present k holdings_now = true)
    /\ Forall2
         (fun k d =>
            position_key d = k
            /\ delta_value_usd d
               = Py.or0 (now_value_usd d) - Py.or0 (prev_value_usd d)
            /\ change_type d =
                 spec_classification (present k holdings_prev)
                   (present k holdings_now) (delta_value_usd d))
         all_keys diffs
    /\ Permutation
         (new_positions qd ++ sold_out qd ++ increased qd
            ++ decreased qd ++ unchanged qd)
         diffs
    /\ (forall d, In d (new_positions qd) <-> In d diffs /\ change_type d = NEW)
    /\ (forall d, In d (sold_out qd) <-> In d diffs /\ change_type d = EXIT)
    /\ (forall d, In d (increased qd) <-> In d diffs /\ change_type d = INCREASE)
    /\ (forall d, In d (decreased qd) <-> In d diffs /\ change_type d = DECREASE)
    /\ (forall d, In d (unchanged qd) <-> In d diffs /\ change_type d = UNCHANGED).
Proof.
  destruct compute_quarter_diff_returns as (qd & Hqd).
  pose proof (compute_quarter_diff_inv qd Hqd) as (diffs & Hb & Hs).
  exists qd, diffs. split; [exact Hqd |].
  split; [apply all_keys_NoDup |].
  split.
  { intros k. unfold all_keys. rewrite union_keys_In, !present_get.
    unfold prev_by_key, now_by_key. rewrite !get_In_keys.
    destruct (Py.get k (by_key holdings_prev)), (Py.get k (by_key holdings_now));
      simpl; intuition congruence. }
  split.
  { eapply Forall2_impl; [| exact Hb].
    intros k d (_ & _ & Hdv & _ & _ & _ & _ & Hc & _ & Hkey).
    split; [exact Hkey |]. split; [exact Hdv |].
    rewrite Hc, classify_spec, !present_get. reflexivity. }
  destruct Hs as (Hn & Hx & Hi & Hd & Hu & _).
  split.
  { rewrite Hn, Hx, Hi, Hd, Hu. apply filter_by_type_perm. }
  rewrite Hn, Hx, Hi, Hd, Hu.
  repeat (split; [intros d; apply filter_type_In |]).
  intros d. apply filter_type_In.
Qed.

(** *** The starter flag *)

Lemma is_starter_iff (weight : option Q) (value : option Z) (cfg : Config) :
  _is_starter weight value cfg = true <->
  (exists v, value = Some v /\ v < starter_value_threshold cfg)
  \/ (exists w, weight = Some w
                /\ (starter_weight_min cfg <= w)%Q
                /\ (w <= starter_weight_max cfg)%Q).
Proof.
  unfold _is_starter. split.
  - intros H. destruct value as [v |].
    + destruct (Z.ltb_spec v (starter_value_threshold cfg)) as [Hlt | Hge].
      * left. now exists v.
      * right. destruct weight as [w |]; [| discriminate].
        destruct (Qle_bool (starter_weight_min cfg) w) eqn:E1;
          destruct (Qle_bool w (starter_weight_max cfg)) eqn:E2;
          try discriminate.
        exists w. rewrite <- !Qle_bool_iff. auto.
    + right. destruct weight as [w |]; [| discriminate].
      destruct (Qle_bool (starter_weight_min cfg) w) eqn:E1;
        destruct (Qle_bool w (starter_weight_max cfg)) eqn:E2;
        try discriminate.
      exists w. rewrite <- !Qle_bool_iff. auto.
  - intros [(v & -> & Hlt) | (w & -> & Hmin & Hmax)].
    + destruct (Z.ltb_spec v (starter_value_threshold cfg)); [reflexivity | lia].
    + apply Qle_bool_iff in Hmin, Hmax. rewrite Hmin, Hmax.
      now destruct (match value with
                    | Some v => v <? starter_value_threshold cfg
                    | None => false
                    end).
Qed.

(** C7: every position of a diff has its starter flag computed from its
    current-side weight and value alone; the flag is set exactly when the
    current value is strictly below [starter_value_threshold] or the
    current weight lies between [starter_weight_min] and
    [starter_weight_max], bounds included.  So a value equal to the
    threshold makes a starter only through the weight, while a weight
    equal to either bound makes a starter whatever the value. *)
Theorem starter_flag_rule :
  exists qd,
    compute_quarter_diff db fid fname filing_prev filing_now config = Py.Ok qd
    /\ (forall d, In d (all_positions qd) ->
        is_starter d = _is_starter (now_weight d) (now_value_usd d) config
        /\ (is_starter d = true <->
            (exists v, now_value_usd d = Some v
                       /\ v < starter_value_threshold config)
            \/ (exists w, now_weight d = Some w
                          /\ (starter_weight_min config <= w)%Q
                          /\ (w <= starter_weight_max config)%Q)))
    /\ (forall weight,
        _is_starter weight (Some (starter_value_threshold config)) config = true
        <-> exists w, weight = Some w
                      /\ (starter_weight_min config <= w)%Q
                      /\ (w <= starter_weight_max config)%Q)
    /\ ((starter_weight_min config <= starter_weight_max config)%Q ->
        forall value,
          _is_starter (Some (starter_weight_min config)) value config = true
          /\ _is_starter (Some (starter_weight_max config)) value config = true).
Proof.
  destruct compute_quarter_diff_returns as (qd & Hqd).
  exists qd. split; [exact Hqd |]. split; [| split].
  - intros d Hd.
    destruct (position_built qd d Hqd Hd)
      as (k & _ & _ & _ & _ & _ & _ & _ & _ & _ & Hst & _).
    split; [exact Hst |]. rewrite Hst. apply is_starter_iff.
  - intros weight. rewrite is_starter_iff. split.
    + intros [(v & E & Hlt) | H]; [| exact H].
      injection E as <-. lia.
    + intros H. now right.
  - intros Hle value. split; apply is_starter_iff; right; eexists;
      (split; [reflexivity |]); split;
      try apply Qle_refl; exact Hle.
Qed.

(** *** Growth rate and weights *)

Lemma growth_of_Some (pv nv : option Z) (g : Q) :
  growth_of pv nv = Some g <->
  exists p n, pv = Some p /\ nv = Some n /\ 0 < p
              /\ g = (inject_Z (n - p) / inject_Z p)%Q.
Proof.
  unfold growth_of, Py.truthy. split.
  - destruct pv as [p |], nv as [n |]; try discriminate.
    destruct (Z.eqb_spec p 0) as [-> | Hne]; [discriminate |].
    destruct (Z.gtb_spec p 0) as [Hpos | Hneg]; [| discriminate].
    intros H. injection H as <-. exists p, n. repeat split; auto; lia.
  - intros (p & n & -> & -> & Hpos & ->).
    destruct (Z.eqb_spec p 0) as [-> | Hne]; [lia |].
    destruct (Z.gtb_spec p 0) as [_ | Hneg]; [reflexivity | lia].
Qed.

Lemma weight_of_Some (value : option Z) (total : Z) (w : Q) :
  weight_of value total = Some w <->
  exists v, value = Some v /\ v <> 0 /\ total <> 0
            /\ w = (inject_Z v / inject_Z total)%Q.
Proof.
  unfold weight_of, Py.truthy. split.
  - destruct value as [v |]; [| discriminate].
    destruct (Z.eqb_spec v 0) as [-> | Hv]; [discriminate |].
    destruct (Z.eqb_spec total 0) as [-> | Ht]; [discriminate |].
    intros H. injection H as <-. exists v. auto.
  - intros (v & -> & Hv & Ht & ->).
    destruct (Z.eqb_spec v 0) as [-> | _]; [contradiction |].
    destruct (Z.eqb_spec total 0) as [-> | _]; [contradiction | reflexivity].
Qed.

Lemma classify_EXIT (hp hn : option HoldingRecord) (delta : Z) :
  classify hp hn delta = EXIT -> hn = None.
Proof.
  destruct hp, hn; simpl; try reflexivity; try discriminate;
    destruct (delta >? 0), (delta <? 0); discriminate.
Qed.

(** The growth rate as the code has it: the growth rate of a position
    of a diff is defined exactly when its prior value is greater than 0
    and the position is present on the current side; where defined it is
    [(now_value - prev_value) / prev_value]; an [EXIT] position has no
    growth rate. *)
Theorem growth_rate_defined_iff :
  exists qd,
    compute_quarter_diff db fid fname filing_prev filing_now config = Py.Ok qd
    /\ forall d, In d (all_positions qd) ->
       (growth_rate d <> None <->
        exists pv nv, prev_value_usd d = Some pv /\ 0 < pv
                      /\ now_value_usd d = Some nv)
       /\ (forall g, growth_rate d = Some g ->
           exists pv nv, prev_value_usd d = Some pv /\ now_value_usd d = Some nv
                         /\ g = (inject_Z (nv - pv) / inject_Z pv)%Q)
       /\ (change_type d = EXIT -> growth_rate d = None).
Proof.
  destruct compute_quarter_diff_returns as (qd & Hqd).
  exists qd. split; [exact Hqd |]. intros d Hd.
  destruct (position_built qd d Hqd Hd)
    as (k & _ & _ & Hnv & _ & _ & _ & Hg & _ & Hc & _).
  split; [| split].
  - split.
    + intros H. destruct (growth_rate d) as [g |] eqn:E; [| congruence].
      symmetry in Hg. apply growth_of_Some in Hg as (p & n & Hp & Hn & Hpos & _).
      exists p, n. auto.
    + intros (p & n & Hp & Hpos & Hn).
      assert (Hs : growth_of (prev_value_usd d) (now_value_usd d)
                   = Some (inject_Z (n - p) / inject_Z p)%Q).
      { apply growth_of_Some. exists p, n. auto. }
      rewrite Hg, Hs. discriminate.
  - intros g E. rewrite Hg in E.
    apply growth_of_Some in E as (p & n & Hp & Hn & _ & ->).
    exists p, n. auto.
  - intros E. rewrite Hc in E. apply classify_EXIT in E.
    rewrite Hg, Hnv, E. cbn. now destruct (prev_value_usd d).
Qed.

(** The weights of a position, as the code has them: a side's weight is
    defined exactly when the position is present on that side with a
    value other than 0 and the period total is not 0, and is then the
    value divided by the total. *)
Lemma weights_defined_iff :
  exists qd,
    compute_quarter_diff db fid fname filing_prev filing_now config = Py.Ok qd
    /\ forall d, In d (all_positions qd) ->
       (forall w, prev_weight d = Some w <->
          exists v, prev_value_usd d = Some v /\ v <> 0 /\ total_prev <> 0
                    /\ w = (inject_Z v / inject_Z total_prev)%Q)
       /\ (forall w, now_weight d = Some w <->
          exists v, now_value_usd d = Some v /\ v <> 0 /\ total_now <> 0
                    /\ w = (inject_Z v / inject_Z total_now)%Q).
Proof.
  destruct compute_quarter_diff_returns as (qd & Hqd).
  exists qd. split; [exact Hqd |]. intros d Hd.
  destruct (position_built qd d Hqd Hd)
    as (k & _ & _ & _ & _ & Hpw & Hnw & _).
  split; intros w.
  - rewrite Hpw. apply weight_of_Some.
  - rewrite Hnw. apply weight_of_Some.
Qed.

(** *** Concentration *)


End QuarterDiffFacts.

(** ** Histories *)

Lemma fold_left_flat_map {A B C : Type} (g : C -> B -> C) (f : A -> list B)
    (l : list A) (c : C) :
  fold_left (fun acc x => fold_left g (f x) acc) l c
  = fold_left g (flat_map f l) c.
Proof.
  revert c. induction l as [| x l IH]; intros c; simpl; [reflexivity |].
  now rewrite fold_left_app, IH.
Qed.

Lemma fold_left_map {A B C : Type} (g : C -> B -> C) (f : A -> B)
    (l : list A) (c : C) :
  fold_left (fun acc x => g acc (f x)) l c = fold_left g (map f l) c.
Proof.
  revert c. induction l as [| x l IH]; intros c; simpl; [reflexivity |].
  apply IH.
Qed.

Lemma fold_left_ext_fun {A C : Type} (g g' : C -> A -> C) (l : list A) (c : C) :
  (forall acc x, g acc x = g' acc x) -> fold_left g l c = fold_left g' l c.
Proof.
  intros H. revert c. induction l as [| x l IH]; intros c; simpl; [reflexivity |].
  now rewrite H, IH.
Qed.

Lemma history_of_visits (diffs : list QuarterDiff) :
  build_position_history diffs = fold_left file_visit (visited diffs) [].
Proof.
  unfold build_position_history, visited.
  rewrite <- (fold_left_flat_map file_visit).
  apply fold_left_ext_fun. intros acc diff.
  now rewrite <- (fold_left_map file_visit).
Qed.

Lemma get_history_append (k key : string) (e : HistEntry)
    (ph : Py.dict (list HistEntry)) :
  Py.get k (history_append key e ph)
  = if String.eqb k key
    then Some (match Py.get k ph with Some l => l ++ [e] | None => [e] end)
    else Py.get k ph.
Proof.
  unfold history_append.
  destruct (String.eqb_spec k key) as [-> | Hne].
  - destruct (Py.get key ph); now rewrite get_set_same.
  - destruct (Py.get key ph); now rewrite get_set_other.
Qed.

Lemma get_fold_visits (visits : list (string * HistEntry)) :
  forall (ph : Py.dict (list HistEntry)) (k : string),
    Py.get k (fold_left file_visit visits ph)
    = match Py.get k ph, entries_of k visits with
      | None, [] => None
      | None, l => Some l
      | Some l0, l => Some (l0 ++ l)
      end.
Proof.
  induction visits as [| [key e] visits IH]; intros ph k.
  - simpl. destruct (Py.get k ph); [now rewrite app_nil_r | reflexivity].
  - cbn [fold_left]. rewrite IH. unfold file_visit. cbn [fst snd].
    rewrite get_history_append. unfold entries_of. cbn [filter fst].
    destruct (String.eqb k key); cbn [map snd].
    + destruct (Py.get k ph); [now rewrite <- app_assoc | reflexivity].
    + reflexivity.
Qed.

Lemma fold_visits_NoDup (visits : list (string * HistEntry)) :
  forall ph, NoDup (Py.keys ph) -> NoDup (Py.keys (fold_left file_visit visits ph)).
Proof.
  induction visits as [| v visits IH]; intros ph H; simpl; [exact H |].
  apply IH. unfold file_visit, history_append.
  destruct (Py.get (fst v) ph); now apply NoDup_keys_set.
Qed.

Lemma entries_of_In (k : string) (visits : list (string * HistEntry)) (e : HistEntry) :
  In e (entries_of k visits) <-> In (k, e) visits.
Proof.
  unfold entries_of. rewrite in_map_iff. split.
  - intros ([k' e'] & E & Hin). simpl in E. subst e'.
    apply filter_In in Hin as [Hin Hk]. simpl in Hk.
    apply String.eqb_eq in Hk. now subst.
  - intros Hin. exists (k, e). split; [reflexivity |].
    apply filter_In. split; [exact Hin | apply String.eqb_refl].
Qed.

Lemma visited_In (diffs : list QuarterDiff) (k : string) (e : HistEntry) :
  In (k, e) (visited diffs) <->
  exists diff pos,
    In diff diffs /\ In pos (all_positions diff)
    /\ cusip pos = k /\ history_entry diff pos = e.
Proof.
  unfold visited. rewrite in_flat_map. split.
  - intros (diff & Hd & Hin). apply in_rev in Hd.
    apply in_map_iff in Hin as (pos & E & Hpos). injection E as <- <-.
    exists diff, pos. auto.
  - intros (diff & pos & Hd & Hpos & <- & <-).
    exists diff. split; [now apply in_rev in Hd |].
    apply in_map_iff. exists pos. auto.
Qed.

(** The histories as the code builds them: [detect_signals] keeps one
    history per security identifier ([cusip]) alone.  The history filed under [k] is
    the list of the entries of all positions whose [cusip] is [k], in the
    order oldest diff first and, within a diff, new, increased,
    decreased, unchanged, sold out; no key has two histories; a position
    contributes to the history of its [cusip] whatever its title of class
    and option flag, and every entry of a history comes from a position
    with that [cusip]. *)
Theorem history_keyed_by_cusip (diffs : list QuarterDiff) :
  NoDup (Py.keys (build_position_history diffs))
  /\ (forall k,
      Py.get k (build_position_history diffs)
      = match entries_of k (visited diffs) with
        | [] => None
        | l => Some l
        end)
  /\ (forall diff pos,
      In diff diffs -> In pos (all_positions diff) ->
      exists h, Py.get (cusip pos) (build_position_history diffs) = Some h
                /\ In (history_entry diff pos) h)
  /\ (forall k h e,
      Py.get k (build_position_history diffs) = Some h -> In e h ->
      exists diff pos,
        In diff diffs /\ In pos (all_positions diff)
        /\ cusip pos = k /\ history_entry diff pos = e).
Proof.
  assert (Hget : forall k,
             Py.get k (build_position_history diffs)
             = match entries_of k (visited diffs) with
               | [] => None
               | l => Some l
               end).
  { intros k. rewrite history_of_visits, get_fold_visits. reflexivity. }
  split; [| split; [exact Hget | split]].
  - rewrite history_of_visits. apply fold_visits_NoDup. constructor.
  - intros diff pos Hd Hpos.
    assert (Hin : In (history_entry diff pos)
                     (entries_of (cusip pos) (visited diffs))).
    { apply entries_of_In, visited_In. exists diff, pos. auto. }
    rewrite Hget.
    destruct (entries_of (cusip pos) (visited diffs)) as [| e l];
      [contradiction |].
    eexists. split; [reflexivity | exact Hin].
  - intros k h e Hk He. rewrite Hget in Hk.
    apply visited_In, entries_of_In.
    destruct (entries_of k (visited diffs)) as [| e' l]; [discriminate |].
    injection Hk as <-. exact He.
Qed.


(** ** The consistent-accumulator scan *)

Lemma take_while_all {A : Type} (p : A -> bool) (l : list A) :
  forallb p (take_while p l) = true.
Proof.
  induction l as [| x l IH]; simpl; [reflexivity |].
  destruct (p x) eqn:E; simpl; [now rewrite E | reflexivity].
Qed.

Lemma take_while_prefix {A : Type} (p : A -> bool) (l : list A) :
  exists rest, l = take_while p l ++ rest.
Proof.
  induction l as [| x l (rest & IH)]; simpl; [now exists [] |].
  destruct (p x).
  - exists rest. simpl. now rewrite <- IH.
  - now exists (x :: l).
Qed.

Lemma take_while_app_all {A : Type} (p : A -> bool) (a b : list A) :
  forallb p a = true -> take_while p (a ++ b) = a ++ take_while p b.
Proof.
  induction a as [| x a IH]; simpl; [reflexivity |].
  intros H. apply andb_true_iff in H as [Hx Ha].
  now rewrite Hx, IH.
Qed.

Lemma forallb_rev {A : Type} (p : A -> bool) (l : list A) :
  forallb p (rev l) = forallb p l.
Proof.
  induction l as [| x l IH]; simpl; [reflexivity |].
  rewrite forallb_app, IH. simpl. rewrite andb_true_r. apply andb_comm.
Qed.

Lemma last_or_nil {A : Type} (l : list A) :
  l = [] \/ exists l' x, l = l' ++ [x].
Proof.
  destruct l as [| x l] using rev_ind; [now left | right].
  now exists l, x.
Qed.

Lemma trailing_run_snoc (h : list HistEntry) (e : HistEntry) :
  trailing_run (h ++ [e])
  = if is_increase e then trailing_run h ++ [e] else [].
Proof.
  unfold trailing_run. rewrite rev_app_distr. simpl.
  now destruct (is_increase e).
Qed.

Lemma trailing_run_all (h : list HistEntry) :
  forallb is_increase (trailing_run h) = true.
Proof. unfold trailing_run. rewrite forallb_rev. apply take_while_all. Qed.

Lemma trailing_run_suffix (h : list HistEntry) :
  exists pre, h = pre ++ trailing_run h.
Proof.
  unfold trailing_run.
  destruct (take_while_prefix is_increase (rev h)) as (rest & E).
  exists (rev rest).
  rewrite <- rev_app_distr, <- E. now rewrite rev_involutive.
Qed.

Lemma suffix_run_le_trailing (h pre run : list HistEntry) :
  h = pre ++ run -> forallb is_increase run = true ->
  (List.length run <= List.length (trailing_run h))%nat.
Proof.
  intros -> Hall. unfold trailing_run.
  rewrite rev_app_distr, take_while_app_all by now rewrite forallb_rev.
  rewrite length_rev, length_app, length_rev. lia.
Qed.

Lemma has_run_app (n : nat) (h t : list HistEntry) :
  has_run n h -> has_run n (h ++ t).
Proof.
  intros (pre & run & post & -> & Hlen & Hall).
  exists pre, run, (post ++ t). now rewrite <- !app_assoc.
Qed.

Lemma forallb_firstn {A : Type} (p : A -> bool) (n : nat) (l : list A) :
  forallb p l = true -> forallb p (firstn n l) = true.
Proof.
  revert n. induction l as [| x l IH]; intros [| n]; simpl; auto.
  intros H. apply andb_true_iff in H as [Hx Hl]. now rewrite Hx, IH.
Qed.

Lemma has_run_le (n k : nat) (h : list HistEntry) :
  has_run n h -> (k <= n)%nat -> has_run k h.
Proof.
  intros (pre & run & post & -> & Hlen & Hall) Hk.
  exists pre, (firstn k run), (skipn k run ++ post). repeat split.
  - now rewrite (app_assoc (firstn k run)), firstn_skipn.
  - rewrite length_firstn. lia.
  - now apply forallb_firstn.
Qed.

Lemma has_run_suffix (h : list HistEntry) :
  has_run (List.length (trailing_run h)) h.
Proof.
  destruct (trailing_run_suffix h) as (pre & E).
  exists pre, (trailing_run h), []. repeat split.
  - now rewrite app_nil_r.
  - apply trailing_run_all.
Qed.

Lemma has_run_snoc_inv (n : nat) (h : list HistEntry) (e : HistEntry) :
  has_run n (h ++ [e]) ->
  has_run n h
  \/ exists pre run, h ++ [e] = pre ++ run /\ List.length run = n
                     /\ forallb is_increase run = true.
Proof.
  intros (pre & run & post & E & Hlen & Hall).
  destruct (last_or_nil post) as [-> | (post' & e' & ->)].
  - right. exists pre, run. now rewrite app_nil_r in E.
  - left. rewrite !app_assoc in E. apply app_inj_tail in E as [E _].
    exists pre, run, post'. now rewrite app_assoc.
Qed.

Lemma acc_scan_snoc (h : list HistEntry) (e : HistEntry) :
  acc_scan (h ++ [e]) = acc_step (acc_scan h) e.
Proof. unfold acc_scan. now rewrite fold_left_app. Qed.

(** What the scan has in hand after a history: the length and the
    periods of the run the history ends with, and a maximum that,
    joined with that length, is the length of the longest run. *)
Lemma acc_scan_invariant (h : list HistEntry) :
  let '(consecutive_increases, max_consecutive, increase_quarters) :=
    acc_scan h in
  consecutive_increases = List.length (trailing_run h)
  /\ increase_quarters = map entry_period (trailing_run h)
  /\ longest_run (Nat.max max_consecutive consecutive_increases) h.
Proof.
  induction h as [| e h IH] using rev_ind.
  - cbn. repeat split.
    + exists [], [], []. auto.
    + intros k (pre & run & post & E & Hlen & _).
      symmetry in E. apply app_eq_nil in E as [_ E].
      apply app_eq_nil in E as [-> _]. simpl in Hlen. lia.
  - rewrite acc_scan_snoc.
    destruct (acc_scan h) as [[c m] iq].
    destruct IH as (Hc & Hiq & Hrun & Hmax).
    unfold acc_step. fold (is_increase e). rewrite trailing_run_snoc.
    destruct (is_increase e) eqn:Einc.
    + rewrite length_app, map_app. cbn [List.length map].
      repeat split.
      * lia.
      * now rewrite Hiq.
      * destruct (Nat.le_gt_cases (S c) m) as [Hle | Hgt].
        -- rewrite Nat.max_l by lia. apply has_run_app.
           apply (has_run_le _ _ _ Hrun). lia.
        -- rewrite Nat.max_r by lia.
           pose proof (has_run_suffix (h ++ [e])) as Hs.
           rewrite trailing_run_snoc, Einc, length_app in Hs.
           cbn [List.length] in Hs. rewrite <- Hc in Hs.
           now replace (S c) with (c + 1)%nat by lia.
      * intros k Hk. apply has_run_snoc_inv in Hk as [Hk | (pre & run & E & Hlen & Hall)].
        -- apply Hmax in Hk. lia.
        -- pose proof (suffix_run_le_trailing _ _ _ E Hall) as Hle.
           rewrite trailing_run_snoc, Einc, length_app in Hle.
           cbn [List.length] in Hle. lia.
    + cbn [List.length map]. repeat split.
      * rewrite Nat.max_0_r. now apply has_run_app.
      * intros k Hk. rewrite Nat.max_0_r.
        apply has_run_snoc_inv in Hk as [Hk | (pre & run & E & Hlen & Hall)].
        -- now apply Hmax.
        -- destruct (last_or_nil run) as [-> | (run' & e' & ->)].
           ++ simpl in Hlen. lia.
           ++ rewrite app_assoc in E. apply app_inj_tail in E as [_ <-].
              rewrite forallb_app in Hall. simpl in Hall.
              rewrite Einc in Hall. rewrite andb_false_r in Hall. discriminate.
Qed.

Lemma last_n_all {A : Type} (n : nat) (l : list A) :
  (0 < n)%nat -> (List.length l <= n)%nat -> Py.last_n n l = l.
Proof.
  intros Hn Hl. unfold Py.last_n. destruct n as [| n]; [lia |].
  now replace (List.length l - S n)%nat with 0%nat by lia.
Qed.

(** The consistent-accumulator detector on one history.  With [n] the
    length of the longest run of consecutive [INCREASE] entries, a signal
    is emitted exactly when [n >= 3]; its strength is [strong] exactly
    when [n >= 4], [moderate] otherwise; its quarters are the periods of
    the run the history ends with, which is the longest run only when no
    longer run came before it. *)
Lemma accumulator_signal_spec (cusip_to_name : Py.dict string)
    (cusip : string) (history : list HistEntry) :
  exists n,
    longest_run n history
    /\ accumulator_signal cusip_to_name (cusip, history)
       = if (3 <=? n)%nat then
           [ {| signal_type := consistent_accumulator;
                holdings := [get_default cusip cusip_to_name cusip];
                quarters := map entry_period (trailing_run history);
                strength := if (4 <=? n)%nat then strong else moderate;
                details := ConsecutiveIncreases n |} ]
         else [].
Proof.
  pose proof (acc_scan_invariant history) as Hinv.
  unfold accumulator_signal.
  destruct (acc_scan history) as [[c m] iq].
  destruct Hinv as (Hc & Hiq & Hlong).
  exists (Nat.max m c). split; [exact Hlong |].
  destruct (Nat.leb_spec 3 (Nat.max m c)) as [H3 | H3]; [| reflexivity].
  rewrite last_n_all; [now rewrite Hiq | lia |].
  rewrite Hiq, length_map. lia.
Qed.

(** When the history ends with its longest run, the quarters are those
    of the longest run, all [n] of them. *)
Lemma accumulator_quarters_when_run_is_last (cusip_to_name : Py.dict string)
    (cusip : string) (history : list HistEntry) (n : nat) (s : Signal) :
  longest_run n history ->
  List.length (trailing_run history) = n ->
  In s (accumulator_signal cusip_to_name (cusip, history)) ->
  quarters s = map entry_period (trailing_run history)
  /\ List.length (quarters s) = n.
Proof.
  intros _ Hlen Hs.
  destruct (accumulator_signal_spec cusip_to_name cusip history)
    as (n' & _ & E).
  rewrite E in Hs. destruct (3 <=? n')%nat; [| contradiction].
  destruct Hs as [<- | []]. cbn. split; [reflexivity |].
  now rewrite length_map.
Qed.

(** ** The signals of each detector *)

Lemma accumulator_signal_type (cusip_to_name : Py.dict string)
    (item : string * list HistEntry) (s : Signal) :
  In s (accumulator_signal cusip_to_name item) ->
  signal_type s = consistent_accumulator.
Proof.
  destruct item as [cusip history].
  destruct (accumulator_signal_spec cusip_to_name cusip history) as (n & _ & E).
  rewrite E. destruct (3 <=? n)%nat; [| contradiction].
  now intros [<- | []].
Qed.

Lemma build_trim_scan_type (name : string) (history : list HistEntry) :
  forall build_quarters in_build_phase s,
    In s (build_trim_scan name history build_quarters in_build_phase) ->
    signal_type s = build_then_trim.
Proof.
  induction history as [| e rest IH]; intros bq phase s;
    cbn [build_trim_scan]; [contradiction |].
  destruct (change_type_eqb (entry_change e) INCREASE); [apply IH |].
  destruct (change_type_eqb (entry_change e) DECREASE && phase
            && (2 <=? List.length bq)%nat); [| apply IH].
  now intros [<- | []].
Qed.

Lemma probe_lookahead_type (name start : string) (following : list HistEntry) :
  forall offset s,
    In s (probe_lookahead name start following offset) ->
    signal_type s = one_quarter_probe.
Proof.
  induction following as [| e rest IH]; intros offset s; simpl; [contradiction |].
  destruct (change_type_eqb (entry_change e) EXIT); [| apply IH].
  now intros [<- | []].
Qed.

Lemma probe_scan_type (name : string) (history : list HistEntry) (s : Signal) :
  In s (probe_scan name history) -> signal_type s = one_quarter_probe.
Proof.
  induction history as [| e rest IH]; simpl; [contradiction |].
  rewrite in_app_iff. intros [H | H]; [| now apply IH].
  destruct (change_type_eqb (entry_change e) NEW); [| contradiction].
  eapply probe_lookahead_type; eassumption.
Qed.

Lemma concentration_signal_type (diffs : list QuarterDiff) (s : Signal) :
  In s (concentration_signal diffs) -> signal_type s = concentration_shift.
Proof.
  unfold concentration_signal.
  destruct diffs as [| newest [| second rest]]; try contradiction.
  destruct (Qle_bool _ _); [| contradiction].
  now intros [<- | []].
Qed.

Lemma theme_signals_type (assign_cluster : string -> string)
    (diff : QuarterDiff) (s : Signal) :
  In s (theme_signals assign_cluster diff) -> signal_type s = theme_emergence.
Proof.
  unfold theme_signals. rewrite in_flat_map.
  intros ([cluster starters] & _ & H).
  destruct (3 <=? List.length starters)%nat; [| contradiction].
  now destruct H as [<- | []].
Qed.

Lemma filter_perm {A : Type} (f : A -> bool) (l l' : list A) :
  Permutation l l' -> Permutation (filter f l) (filter f l').
Proof.
  induction 1 as [| x l l' _ IH | x y l | l l' l'' _ IH1 _ IH2]; simpl.
  - constructor.
  - destruct (f x); [now constructor | exact IH].
  - destruct (f x), (f y); try reflexivity. apply perm_swap.
  - now transitivity (filter f l').
Qed.

Lemma filter_none {A : Type} (f : A -> bool) (l : list A) :
  (forall x, In x l -> f x = false) -> filter f l = [].
Proof.
  induction l as [| x l IH]; simpl; intros H; [reflexivity |].
  rewrite (H x (or_introl eq_refl)). apply IH. intros; apply H; now right.
Qed.

Lemma filter_all {A : Type} (f : A -> bool) (l : list A) :
  (forall x, In x l -> f x = true) -> filter f l = l.
Proof.
  induction l as [| x l IH]; simpl; intros H; [reflexivity |].
  rewrite (H x (or_introl eq_refl)). f_equal. apply IH. intros; apply H; now right.
Qed.

(** The consistent-accumulator signals that [detect_signals] returns are
    those of the detector on each history, one history at a time. *)
Lemma detect_signals_accumulators (assign_cluster : string -> string)
    (diffs : list QuarterDiff) :
  Permutation
    (filter is_accumulator (detect_signals assign_cluster diffs))
    (flat_map (accumulator_signal (build_cusip_to_name diffs))
              (build_position_history diffs)).
Proof.
  destruct diffs as [| diff diffs]; [constructor |].
  unfold detect_signals.
  set (all := diff :: diffs).
  eapply Permutation_trans; [apply filter_perm, sorted_by_perm |].
  rewrite !filter_app.
  rewrite filter_all.
  2:{ intros s Hs. apply in_flat_map in Hs as (item & _ & Hs).
      apply accumulator_signal_type in Hs. unfold is_accumulator. now rewrite Hs. }
  rewrite (filter_none _ (flat_map (build_trim_signal _) _)).
  2:{ intros s Hs. apply in_flat_map in Hs as ([cusip history] & _ & Hs).
      unfold build_trim_signal in Hs.
      destruct (List.length history <? 3)%nat; [contradiction |].
      apply build_trim_scan_type in Hs. unfold is_accumulator. now rewrite Hs. }
  rewrite (filter_none _ (flat_map (probe_signal _) _)).
  2:{ intros s Hs. apply in_flat_map in Hs as ([cusip history] & _ & Hs).
      apply probe_scan_type in Hs. unfold is_accumulator. now rewrite Hs. }
  rewrite (filter_none _ (concentration_signal _)).
  2:{ intros s Hs. apply concentration_signal_type in Hs.
      unfold is_accumulator. now rewrite Hs. }
  rewrite (filter_none _ (flat_map (theme_signals _) _)).
  2:{ intros s Hs. apply in_flat_map in Hs as (d & _ & Hs).
      apply theme_signals_type in Hs. unfold is_accumulator. now rewrite Hs. }
  now rewrite !app_nil_r.
Qed.

(** ** The code on concrete snapshots *)

(** C3: a position held at value 0 on both sides, in a portfolio whose
    period totals are 100, comes out of the diff with no prior weight and
    no current weight ([None]) although it is present on both sides and
    the totals are positive: [prev_value and total_prev] is false for the
    value 0.  The concentration weights of the same call hold 0 for that
    holding. *)
Theorem zero_value_position_has_no_weight :
  exists qd d,
    diff_of zero_value_holdings zero_value_holdings = Py.Ok qd
    /\ In d (all_positions qd)
    /\ cusip d = "000000AAA"
    /\ prev_value_usd d = Some 0 /\ now_value_usd d = Some 0
    /\ total_portfolio_prev qd = 100 /\ total_portfolio_now qd = 100
    /\ prev_weight d = None /\ now_weight d = None
    /\ current_weights zero_value_holdings 100 = [0 # 100; 100 # 100]%Q.
Proof.
  eexists. eexists. split; [lazy; reflexivity |].
  split; [lazy; left; reflexivity |].
  lazy. repeat split; reflexivity.
Qed.

(** C4: a position held at 100 before and sold out now is an [EXIT]
    whose prior value is greater than 0, and its growth rate is not
    defined ([None]), where the rule [(now - prev) / prev] with the
    absent side counted as 0 gives -1. *)
Lemma exit_position_has_no_growth_rate :
  exists qd d,
    diff_of [holding "000000BBB" "BETA CORP" "COM" 100 10 None] [] = Py.Ok qd
    /\ In d (all_positions qd)
    /\ change_type d = EXIT
    /\ prev_value_usd d = Some 100
    /\ 100 > 0
    /\ growth_rate d = None.
Proof.
  eexists. eexists. split; [lazy; reflexivity |].
  split; [lazy; left; reflexivity |].
  lazy. repeat split; reflexivity.
Qed.

(** Two positions of one security that differ in their title of class,
    hence in their matching key, are filed in one and the same
    history. *)
Lemma two_classes_share_one_history :
  exists qd p1 p2,
    diff_of [] two_class_holdings = Py.Ok qd
    /\ In p1 (all_positions qd) /\ In p2 (all_positions qd)
    /\ title_of_class p1 <> title_of_class p2
    /\ position_key p1 <> position_key p2
    /\ Py.get (cusip p1) (build_position_history [qd])
       = Some [history_entry qd p1; history_entry qd p2]
    /\ Py.keys (build_position_history [qd]) = [cusip p1].
Proof.
  eexists. eexists. eexists. split; [lazy; reflexivity |].
  split; [lazy; left; reflexivity |].
  split; [lazy; right; left; reflexivity |].
  split; [lazy; discriminate |].
  split; [lazy; discriminate |].
  split; lazy; reflexivity.
Qed.

(** C2: a put option on a security is replaced by shares of the same
    security.  The diff keeps the two apart, their matching keys
    differing in the option flag: the shares are a [NEW] position and the
    option an [EXIT].  [detect_signals] files both under the one
    [cusip]: there is a single history, it reads [NEW; EXIT] within one
    period, and the detector reports a one-quarter probe opened and
    closed in the same quarter, of a security that is held. *)
Theorem option_and_shares_share_one_history :
  exists qd shares_pos put_pos,
    diff_of put_on_xi shares_of_xi = Py.Ok qd
    /\ new_positions qd = [shares_pos] /\ sold_out qd = [put_pos]
    /\ put_call shares_pos = None /\ put_call put_pos = Some "Put"
    /\ position_key shares_pos <> position_key put_pos
    /\ build_position_history [qd]
       = [ ("000000XXX",
            [history_entry qd shares_pos; history_entry qd put_pos]) ]
    /\ map entry_change [history_entry qd shares_pos; history_entry qd put_pos]
       = [NEW; EXIT]
    /\ detect_signals assign_cluster [qd]
       = [ {| signal_type := one_quarter_probe;
              holdings := ["XI CORP"];
              quarters := ["2024-06-30"; "2024-06-30"];
              strength := weak;
              details := QuartersHeld 2 |} ].
Proof.
  eexists. eexists. eexists. split; [lazy; reflexivity |].
  split; [lazy; reflexivity |].
  split; [lazy; reflexivity |].
  split; [reflexivity |].
  split; [reflexivity |].
  split; [lazy; discriminate |].
  split; [vm_compute; reflexivity |].
  split; vm_compute; reflexivity.
Qed.


(** C1: five quarterly filings of one position valued 100, 110, 120, 130
    and 120 give the history [INCREASE, INCREASE, INCREASE, DECREASE].
    [detect_signals] reports the accumulation over 3 quarters with
    strength [moderate], but with an empty list of quarters: the quarters
    of the run were dropped when the [DECREASE] entry was scanned.  The
    build-then-trim signal of the same history names all four quarters. *)
Theorem accumulator_quarters_lost_after_run :
  let diffs :=
    returned (compute_all_diffs accumulate_then_trim 1 "Fund" default_config) in
  List.length diffs = 4%nat
  /\ (exists h,
      Py.get "000000XXX" (build_position_history diffs) = Some h
      /\ map entry_change h = [INCREASE; INCREASE; INCREASE; DECREASE]
      /\ map entry_period h
         = ["2024-03-31"; "2024-06-30"; "2024-09-30"; "2024-12-31"])
  /\ detect_signals no_cluster diffs
     = [ {| signal_type := consistent_accumulator;
            holdings := ["XI CORP"];
            quarters := [];
            strength := moderate;
            details := ConsecutiveIncreases 3 |};
         {| signal_type := build_then_trim;
            holdings := ["XI CORP"];
            quarters := ["2024-03-31"; "2024-06-30"; "2024-09-30"; "2024-12-31"];
            strength := moderate;
            details := BuildQuarters 3 |} ].
Proof.
  split; [vm_compute; reflexivity |].
  split; [| vm_compute; reflexivity].
  eexists. split; [lazy; reflexivity |].
  split; lazy; reflexivity.
Qed.

(** ** Starter-to-scale *)

(** C10: on fewer than two diffs [detect_starter_to_scale] returns the
    empty list, whatever the diffs hold. *)
Theorem starter_to_scale_needs_two_diffs (diffs : list QuarterDiff) :
  (List.length diffs < 2)%nat -> detect_starter_to_scale diffs = Py.Ok [].
Proof.
  intros H. unfold detect_starter_to_scale.
  destruct (Nat.ltb_spec (List.length diffs) 2) as [_ | Hge]; [reflexivity | lia].
Qed.

(** A single diff whose new starters weigh two thirds and one third of
    the portfolio: nothing is reported. *)
Lemma starter_to_scale_single_diff :
  let diffs := returned_diff (diff_of [] two_class_holdings) in
  (List.length diffs < 2)%nat
  /\ (exists pos w,
      In pos (flat_map new_starters diffs)
      /\ now_weight pos = Some w /\ (5 # 1000 < w)%Q)
  /\ detect_starter_to_scale diffs = Py.Ok [].
Proof.
  split; [vm_compute; lia |].
  split.
  - eexists. eexists. split; [lazy; left; reflexivity |].
    split; [lazy; reflexivity | reflexivity].
  - apply (starter_to_scale_needs_two_diffs
             (returned_diff (diff_of [] two_class_holdings))).
    vm_compute. lia.
Defined.

(** ** Instances *)

(** A portfolio of two share classes of one security, against itself. *)
Lemma self_diff_unchanged_on_two_classes :
  exists qd,
    diff_of two_class_holdings two_class_holdings = Py.Ok qd
    /\ position_count_now qd = position_count_prev qd
    /\ forall d, In d (all_positions qd) ->
         change_type d = UNCHANGED /\ delta_value_usd d = 0.
Proof.
  apply (self_diff_unchanged
           (two_filings two_class_holdings two_class_holdings) 1 "Fund"
           (filing 1 "2024-03-31") (filing 2 "2024-06-30") default_config).
  reflexivity.
Defined.


(** * Further properties of the diff engine *)

Lemma position_diff_refers
    (P N : Py.dict HoldingRecord) (tp tn : Z) (cfg : Config) (key : string)
    (d : PositionDiff) :
  position_diff P N tp tn cfg key = Py.Ok d -> refers_to P N key d.
Proof.
  unfold position_diff, refers_to.
  destruct (Py.get key P) as [hp |] eqn:EP, (Py.get key N) as [hn |] eqn:EN;
    cbn [option_map]; cbv zeta.
  - rewrite !weight_step, growth_step, impact_step. cbn [Py.bind].
    intros H. injection H as <-. cbn.
    do 3 (split; [reflexivity |]). eexists. split; [reflexivity |]. repeat split.
  - rewrite weight_step, impact_step. cbn [Py.bind].
    intros H. injection H as <-. cbn.
    do 3 (split; [reflexivity |]). eexists. split; [reflexivity |]. repeat split.
  - rewrite weight_step, impact_step. cbn [Py.bind].
    intros H. injection H as <-. cbn.
    do 3 (split; [reflexivity |]). eexists. split; [reflexivity |]. repeat split.
  - rewrite impact_step. cbn [Py.bind]. discriminate.
Qed.

Lemma Forall2_conj {A B : Type} (R S : A -> B -> Prop) (l : list A) (l' : list B) :
  Forall2 R l l' -> Forall2 S l l' -> Forall2 (fun x y => R x y /\ S x y) l l'.
Proof.
  induction 1 as [| a b l l' Hab _ IH]; intros HS; inversion HS; subst;
    constructor; auto.
Qed.

(** ** Stable sorting, in general *)

Section StableSort.

Context {A : Type} (before : A -> A -> bool) (R : A -> A -> Prop).
Hypothesis before_true : forall y x, before y x = true -> R y x.
Hypothesis before_false : forall y x, before y x = false -> R x y.
Hypothesis R_trans : forall a b c, R a b -> R b c -> R a c.

Lemma insert_by_sorted (x : A) (l : list A) :
  StronglySorted R l -> StronglySorted R (Py.insert_by before x l).
Proof.
  induction 1 as [| y l Hs IH Hall]; simpl.
  - repeat constructor.
  - destruct (before y x) eqn:E.
    + constructor; [exact IH |].
      apply Forall_forall. intros z Hz.
      apply (Permutation_in _ (insert_by_perm before x l)) in Hz.
      destruct Hz as [<- | Hz]; [now apply before_true |].
      rewrite Forall_forall in Hall. now apply Hall.
    + constructor; [now constructor |].
      apply before_false in E. constructor; [exact E |].
      apply Forall_forall. intros z Hz. rewrite Forall_forall in Hall.
      eapply R_trans; [exact E | now apply Hall].
Qed.

Lemma sorted_by_sorted (l : list A) : StronglySorted R (Py.sorted_by before l).
Proof.
  unfold Py.sorted_by. induction l as [| x l IH]; simpl; [constructor |].
  now apply insert_by_sorted.
Qed.

End StableSort.

Lemma firstn_sorted {A : Type} (R : A -> A -> Prop) (n : nat) (l : list A) :
  StronglySorted R l -> StronglySorted R (firstn n l).
Proof.
  intros H. revert n. induction H as [| y l Hs IH Hall]; intros [| n]; simpl;
    try constructor; auto.
  apply Forall_forall. intros z Hz. apply In_firstn in Hz.
  rewrite Forall_forall in Hall. now apply Hall.
Qed.

(** Whatever is not among the first [n] of a sorted list comes after
    each of them in the order. *)
Lemma firstn_sorted_top {A : Type} (R : A -> A -> Prop) (l : list A) :
  StronglySorted R l ->
  forall n x, In x l ->
    In x (firstn n l) \/ forall y, In y (firstn n l) -> R y x.
Proof.
  induction 1 as [| a l Hs IH Hall]; intros n x Hx; [contradiction |].
  destruct n as [| n]; [right; intros y [] |].
  destruct Hx as [<- | Hx]; [left; now left |].
  destruct (IH n x Hx) as [Hin | Htop]; [left; now right |].
  right. intros y [<- | Hy]; [| now apply Htop].
  rewrite Forall_forall in Hall. now apply Hall.
Qed.

Lemma insert_by_ext {A : Type} (b1 b2 : A -> A -> bool) (x : A) (l : list A) :
  (forall y, In y l -> b1 y x = b2 y x) ->
  Py.insert_by b1 x l = Py.insert_by b2 x l.
Proof.
  induction l as [| y l IH]; simpl; intros H; [reflexivity |].
  rewrite (H y (or_introl eq_refl)).
  destruct (b2 y x); [| reflexivity].
  f_equal. apply IH. intros z Hz. apply H. now right.
Qed.

(** Two orders that agree on the elements of a list sort it alike. *)
Lemma sorted_by_ext {A : Type} (b1 b2 : A -> A -> bool) (l : list A) :
  (forall x y, In x l -> In y l -> b1 y x = b2 y x) ->
  Py.sorted_by b1 l = Py.sorted_by b2 l.
Proof.
  unfold Py.sorted_by. induction l as [| x l IH]; simpl; intros H; [reflexivity |].
  rewrite IH by (intros; apply H; now right).
  apply insert_by_ext. intros y Hy. apply H; [now left |].
  right. eapply Permutation_in; [apply sorted_by_perm | exact Hy].
Qed.

(** A stable sort keeps the order of the elements of one class. *)
Lemma insert_by_filter {A : Type} (before : A -> A -> bool) (p : A -> bool)
    (x : A) (l : list A) :
  (forall y, before y x = true -> p y = true -> p x = false) ->
  filter p (Py.insert_by before x l) = filter p (x :: l).
Proof.
  intros H. induction l as [| y l IH]; [reflexivity |].
  cbn [Py.insert_by]. destruct (before y x) eqn:E; [| reflexivity].
  cbn [filter] in *. rewrite IH.
  destruct (p y) eqn:Ey; [| reflexivity].
  now rewrite (H y E Ey).
Qed.

Lemma sorted_by_filter {A : Type} (before : A -> A -> bool) (p : A -> bool)
    (l : list A) :
  (forall x y, before y x = true -> p y = true -> p x = false) ->
  filter p (Py.sorted_by before l) = filter p l.
Proof.
  intros H. unfold Py.sorted_by. induction l as [| x l IH]; [reflexivity |].
  cbn [fold_right]. rewrite insert_by_filter by (intros y; apply H).
  cbn [filter]. now rewrite IH.
Qed.

(** The shape of every ranked list: the first ten of the candidates in
    sorted order. *)
Lemma top_ten_facts {A : Type} (before : A -> A -> bool) (R : A -> A -> Prop)
    (p : A -> bool) (l : list A) :
  (forall y x, before y x = true -> R y x) ->
  (forall y x, before y x = false -> R x y) ->
  (forall a b c, R a b -> R b c -> R a c) ->
  let top := Py.take 10 (Py.sorted_by before (filter p l)) in
  (List.length top <= 10)%nat
  /\ List.length top = Nat.min 10 (List.length (filter p l))
  /\ StronglySorted R top
  /\ (forall d, In d top -> In d l /\ p d = true)
  /\ (forall d, In d l -> p d = true ->
      In d top \/ forall y, In y top -> R y d).
Proof.
  intros Ht Hf Htr top. unfold top, Py.take.
  assert (Hs : StronglySorted R (Py.sorted_by before (filter p l)))
    by now apply sorted_by_sorted.
  assert (Hp : Permutation (Py.sorted_by before (filter p l)) (filter p l))
    by apply sorted_by_perm.
  split; [rewrite length_firstn; lia |].
  split; [rewrite length_firstn, (Permutation_length Hp); reflexivity |].
  split; [now apply firstn_sorted |].
  split.
  - intros d Hd. apply In_firstn in Hd.
    apply (Permutation_in _ Hp) in Hd. now apply filter_In in Hd.
  - intros d Hd Hpd. apply firstn_sorted_top; [exact Hs |].
    apply (Permutation_in _ (Permutation_sym Hp)). now apply filter_In.
Qed.

Lemma filter_twice {A : Type} (p q : A -> bool) (l : list A) :
  filter p (filter q l) = filter (fun x => q x && p x) l.
Proof.
  induction l as [| x l IH]; simpl; [reflexivity |].
  destruct (q x); simpl; [| exact IH].
  destruct (p x); now rewrite IH.
Qed.

Lemma growth_of_defined (pv nv : option Z) (g : Q) :
  growth_of pv nv = Some g ->
  exists p n, pv = Some p /\ nv = Some n /\ 0 < p
              /\ g = (inject_Z (n - p) / inject_Z p)%Q.
Proof.
  unfold growth_of, Py.truthy.
  destruct pv as [p |], nv as [n |]; try discriminate.
  destruct (Z.eqb_spec p 0) as [-> | Hne]; [discriminate |].
  destruct (Z.gtb_spec p 0) as [Hpos | Hneg]; [| discriminate].
  intros H. injection H as <-. exists p, n. repeat split; auto.
Qed.

Lemma quotient_pos (a b : Z) : 0 < a -> 0 < b -> (0 < inject_Z a / inject_Z b)%Q.
Proof.
  intros Ha Hb. apply Qlt_shift_div_l.
  - replace 0%Q with (inject_Z 0) by reflexivity. now rewrite <- Zlt_Qlt.
  - rewrite Qmult_0_l. replace 0%Q with (inject_Z 0) by reflexivity.
    now rewrite <- Zlt_Qlt.
Qed.

Lemma quotient_neg (a b : Z) : a < 0 -> 0 < b -> (inject_Z a / inject_Z b < 0)%Q.
Proof.
  intros Ha Hb. apply Qlt_shift_div_r.
  - replace 0%Q with (inject_Z 0) by reflexivity. now rewrite <- Zlt_Qlt.
  - rewrite Qmult_0_l. replace 0%Q with (inject_Z 0) by reflexivity.
    now rewrite <- Zlt_Qlt.
Qed.

(** A position with a growth rate is present on both sides, so its
    class and the sign of its growth rate follow the sign of its delta. *)
Lemma built_with_growth
    (P N : Py.dict HoldingRecord) (tp tn : Z) (cfg : Config) (k : string)
    (d : PositionDiff) (g : Q) :
  built_for P N tp tn cfg k d -> growth_rate d = Some g ->
  (0 < delta_value_usd d -> change_type d = INCREASE /\ (0 < g)%Q)
  /\ (delta_value_usd d < 0 -> change_type d = DECREASE /\ (g < 0)%Q).
Proof.
  intros (Hpv & Hnv & Hdv & _ & _ & Hg & _ & Hc & _) Eg.
  rewrite Hg in Eg. apply growth_of_defined in Eg as (p & n & Ep & En & Hp & ->).
  rewrite Ep, En in Hdv. cbn in Hdv.
  rewrite Hpv in Ep. rewrite Hnv in En.
  destruct (Py.get k P) as [hp |]; [| discriminate].
  destruct (Py.get k N) as [hn |]; [| discriminate].
  rewrite Hc. cbn [classify]. split; intros Hd.
  - split; [| apply quotient_pos; lia].
    destruct (Z.gtb_spec (delta_value_usd d) 0); [reflexivity | lia].
  - split; [| apply quotient_neg; lia].
    destruct (Z.gtb_spec (delta_value_usd d) 0); [lia |].
    destruct (Z.ltb_spec (delta_value_usd d) 0); [reflexivity | lia].
Qed.

Lemma Qltb_quotients (a b t : Z) :
  0 < t ->
  Py.Qltb (inject_Z a / inject_Z t) (inject_Z b / inject_Z t) = (a <? b).
Proof.
  intros Ht. apply eq_true_iff_eq.
  rewrite Qltb_true, Z.ltb_lt, (Zlt_Qlt a b). unfold Qdiv.
  apply Qmult_lt_r. apply Qinv_lt_0_compat.
  replace 0%Q with (inject_Z 0) by reflexivity. now rewrite <- Zlt_Qlt.
Qed.

(** ** Sums over the keys of the two sides *)

Lemma sumZ_app (l l' : list Z) : Py.sumZ (l ++ l') = Py.sumZ l + Py.sumZ l'.
Proof.
  induction l as [| x l IH]; [reflexivity |].
  cbn [app]. rewrite !sumZ_cons, IH. ring.
Qed.

Lemma sumZ_perm (l l' : list Z) : Permutation l l' -> Py.sumZ l = Py.sumZ l'.
Proof.
  induction 1 as [| x l l' _ IH | x y l | l l' l'' _ IH1 _ IH2].
  - reflexivity.
  - now rewrite !sumZ_cons, IH.
  - rewrite !sumZ_cons. ring.
  - now rewrite IH1.
Qed.

Lemma sumZ_zero {A : Type} (f : A -> Z) (l : list A) :
  (forall x, In x l -> f x = 0) -> Py.sumZ (map f l) = 0.
Proof.
  induction l as [| x l IH]; intros H; [reflexivity |].
  cbn [map]. rewrite sumZ_cons, (H x (or_introl eq_refl)), IH; [reflexivity |].
  intros y Hy. apply H. now right.
Qed.

Lemma sumZ_minus {A : Type} (f g : A -> Z) (l : list A) :
  Py.sumZ (map (fun x => f x - g x) l) = Py.sumZ (map f l) - Py.sumZ (map g l).
Proof.
  induction l as [| x l IH]; [reflexivity |].
  cbn [map]. rewrite !sumZ_cons, IH. ring.
Qed.

(** Gains less losses is the net change. *)
Lemma sumZ_gains_losses {A : Type} (f : A -> Z) (l : list A) :
  0 <= Py.sumZ (map f (filter (fun x => f x >? 0) l))
  /\ 0 <= Py.sumZ (map (fun x => Z.abs (f x)) (filter (fun x => f x <? 0) l))
  /\ Py.sumZ (map f (filter (fun x => f x >? 0) l))
     - Py.sumZ (map (fun x => Z.abs (f x)) (filter (fun x => f x <? 0) l))
     = Py.sumZ (map f l).
Proof.
  induction l as [| x l (IH1 & IH2 & IH3)]; [cbn; lia |].
  cbn [filter map].
  destruct (Z.gtb_spec (f x) 0) as [Hp | Hp];
    destruct (Z.ltb_spec (f x) 0) as [Hn | Hn];
    cbn [map]; rewrite ?sumZ_cons; lia.
Qed.

(** A sum over a duplicate-free list of keys that covers a second
    duplicate-free list, of a function that vanishes off the second, is
    the sum over the second. *)
Lemma sumZ_over_superset (f : string -> Z) (l s : list string) :
  NoDup l -> NoDup s ->
  (forall k, In k s -> In k l) ->
  (forall k, ~ In k s -> f k = 0) ->
  Py.sumZ (map f l) = Py.sumZ (map f s).
Proof.
  intros Hl Hs Hsub Hzero.
  assert (Hperm : Permutation l (s ++ filter (fun k => negb (Py.str_mem k s)) l)).
  { apply NoDup_Permutation; [exact Hl | |].
    - apply NoDup_app; [exact Hs | now apply NoDup_filter |].
      intros k Hk Hf. apply filter_In in Hf as [_ Hf].
      apply str_mem_In in Hk. rewrite Hk in Hf. discriminate.
    - intros k. rewrite in_app_iff, filter_In. split.
      + intros Hk. destruct (Py.str_mem k s) eqn:E.
        * left. now apply str_mem_In.
        * right. auto.
      + intros [Hk | [Hk _]]; auto. }
  rewrite (sumZ_perm _ _ (Permutation_map f Hperm)), map_app, sumZ_app.
  rewrite (sumZ_zero f (filter _ l)); [ring |].
  intros k Hk. apply filter_In in Hk as [_ Hk]. apply Hzero.
  intros Hin. apply str_mem_In in Hin. rewrite Hin in Hk. discriminate.
Qed.

Lemma set_fresh {V : Type} (k : string) (v : V) (d : Py.dict V) :
  ~ In k (Py.keys d) -> Py.set k v d = d ++ [(k, v)].
Proof.
  induction d as [| [k' v'] d IH]; simpl; intros H; [reflexivity |].
  destruct (String.eqb_spec k k') as [-> | Hne]; [exfalso; auto |].
  rewrite IH; [reflexivity | intros Hin; apply H; now right].
Qed.

Lemma by_key_from_distinct (holdings : list HoldingRecord) :
  forall d0,
    NoDup (Py.keys d0 ++ map _holding_key holdings) ->
    by_key_from d0 holdings = d0 ++ map (fun h => (_holding_key h, h)) holdings.
Proof.
  induction holdings as [| h hs IH]; intros d0 Hnd; cbn [by_key_from fold_left map].
  - now rewrite app_nil_r.
  - change (fold_left (fun d h0 => Py.set (_holding_key h0) h0 d) hs
              (Py.set (_holding_key h) h d0))
      with (by_key_from (Py.set (_holding_key h) h d0) hs).
    assert (Hfresh : ~ In (_holding_key h) (Py.keys d0)).
    { apply NoDup_remove_2 in Hnd. intros Hin. apply Hnd.
      apply in_or_app. now left. }
    rewrite set_fresh by exact Hfresh.
    rewrite IH.
    + now rewrite <- app_assoc.
    + unfold Py.keys. rewrite map_app. cbn [map fst].
      rewrite <- app_assoc. exact Hnd.
Qed.

(** With one holding per matching key, the index is the list itself. *)
Lemma by_key_distinct (holdings : list HoldingRecord) :
  NoDup (map _holding_key holdings) ->
  by_key holdings = map (fun h => (_holding_key h, h)) holdings.
Proof. intros H. apply (by_key_from_distinct holdings []). exact H. Qed.

Lemma get_of_distinct (holdings : list HoldingRecord) (h : HoldingRecord) :
  NoDup (map _holding_key holdings) -> In h holdings ->
  Py.get (_holding_key h) (map (fun h => (_holding_key h, h)) holdings) = Some h.
Proof.
  induction holdings as [| h0 hs IH]; intros Hnd Hin; [contradiction |].
  cbn [map Py.get]. inversion Hnd as [| ? ? Hnotin Hnd']; subst.
  destruct Hin as [-> | Hin]; [now rewrite String.eqb_refl |].
  destruct (String.eqb_spec (_holding_key h) (_holding_key h0)) as [E | _].
  - exfalso. apply Hnotin. rewrite <- E. now apply in_map.
  - now apply IH.
Qed.

(** Summing, over the keys of the union, the value that the index of a
    side holds for the key (0 when it holds none) gives the total of
    that side, when the side has one holding per key. *)
Lemma indexed_total (holdings : list HoldingRecord) (ks : list string) :
  NoDup (map _holding_key holdings) -> NoDup ks ->
  (forall k, In k (Py.keys (by_key holdings)) -> In k ks) ->
  Py.sumZ (map (fun k => Py.or0 (option_map value_usd (Py.get k (by_key holdings)))) ks)
  = Py.sumZ (map value_usd holdings).
Proof.
  intros Hnd Hks Hsub.
  rewrite (sumZ_over_superset _ ks (Py.keys (by_key holdings)) Hks
             (by_key_NoDup holdings) Hsub).
  - rewrite by_key_distinct by exact Hnd.
    unfold Py.keys. rewrite !map_map.
    f_equal. apply map_ext_in. intros h Hh. cbn [fst].
    now rewrite (get_of_distinct holdings h Hnd Hh).
  - intros k Hk. rewrite get_In_keys in Hk.
    destruct (Py.get k (by_key holdings)); [exfalso; apply Hk; discriminate | reflexivity].
Qed.

Lemma Forall2_map_eq {A B C : Type} (R : A -> B -> Prop) (f : A -> C) (g : B -> C)
    (l : list A) (l' : list B) :
  Forall2 R l l' -> (forall x y, R x y -> f x = g y) -> map f l = map g l'.
Proof.
  induction 1 as [| a b l l' Hab _ IH]; intros H; [reflexivity |].
  cbn [map]. now rewrite (H a b Hab), IH.
Qed.

Lemma Qlen_cons {A : Type} (x : A) (l : list A) : (Qlen (x :: l) == Qlen l + 1)%Q.
Proof.
  unfold Qlen. cbn [List.length]. rewrite Nat2Z.inj_succ, <- Z.add_1_r.
  now rewrite inject_Z_plus.
Qed.

Lemma sum_squares_le_square (l : list Q) :
  Forall (fun w => 0 <= w)%Q l ->
  (0 <= Py.sumQ l /\ Py.sumQ (map (fun w => w * w) l) <= Py.sumQ l * Py.sumQ l)%Q.
Proof.
  induction 1 as [| x l Hx _ (IH0 & IH)]; [cbn; split; apply Qle_refl |].
  cbn [map]. rewrite !sumQ_cons.
  set (S := Py.sumQ l) in *. set (T := Py.sumQ (map (fun w => w * w)%Q l)) in *.
  clearbody S T. split; nra.
Qed.

(** The sum of the squared distances to any [x] is not negative. *)
Lemma sum_squared_distances (x : Q) (l : list Q) :
  (0 <= Py.sumQ (map (fun w => w * w) l) - 2 * x * Py.sumQ l + Qlen l * (x * x))%Q.
Proof.
  induction l as [| w l IH];
    [change (0 <= 0 - 2 * x * 0 + 0 * (x * x))%Q; nra |].
  cbn [map]. rewrite !sumQ_cons, Qlen_cons.
  set (S := Py.sumQ l) in *. set (T := Py.sumQ (map (fun w => w * w)%Q l)) in *.
  set (n := Qlen l) in *. clearbody S T n.
  assert (H : (0 <= (w - x) * (w - x))%Q).
  { clear IH. set (y := (w - x)%Q). clearbody y. nra. }
  nra.
Qed.

Lemma square_le_count_squares (l : list Q) :
  (Py.sumQ l * Py.sumQ l <= Qlen l * Py.sumQ (map (fun w => w * w) l))%Q.
Proof.
  induction l as [| x l IH]; [change (0 * 0 <= 0 * 0)%Q; nra |].
  pose proof (sum_squared_distances x l) as Hd.
  cbn [map]. rewrite !sumQ_cons, Qlen_cons.
  set (S := Py.sumQ l) in *. set (T := Py.sumQ (map (fun w => w * w)%Q l)) in *.
  set (n := Qlen l) in *. clearbody S T n. nra.
Qed.

Lemma positive_total_nonempty (holdings : list HoldingRecord) :
  0 < Py.sumZ (map value_usd holdings) -> exists h, In h holdings.
Proof.
  destruct holdings as [| h hs]; [cbn; lia |].
  intros _. exists h. now left.
Qed.

Lemma sums_of_constant (c : Q) (l : list Q) :
  (forall w, In w l -> w = c) ->
  (Py.sumQ l == Qlen l * c
   /\ Py.sumQ (map (fun w => w * w) l) == Qlen l * (c * c))%Q.
Proof.
  induction l as [| x l IH]; intros H;
    [change (0 == 0 * c /\ 0 == 0 * (c * c))%Q; split; ring |].
  destruct IH as [IH1 IH2]; [intros w Hw; apply H; now right |].
  cbn [map]. rewrite !sumQ_cons, Qlen_cons, IH1, IH2.
  rewrite (H x (or_introl eq_refl)). split; ring.
Qed.

(** ** One-sided positions, and which holding a position reads *)

Lemma find_over_app {A : Type} (p : A -> bool) (l l' : list A) :
  find p (l ++ l') = match find p l with Some x => Some x | None => find p l' end.
Proof.
  induction l as [| x l IH]; simpl; [reflexivity |].
  destruct (p x); [reflexivity | exact IH].
Qed.

Lemma by_key_from_find (holdings : list HoldingRecord) :
  forall d0 k,
    Py.get k (by_key_from d0 holdings)
    = match find (fun h => String.eqb (_holding_key h) k) (rev holdings) with
      | Some h => Some h
      | None => Py.get k d0
      end.
Proof.
  induction holdings as [| h hs IH]; intros d0 k; [reflexivity |].
  cbn [by_key_from fold_left rev].
  change (fold_left (fun d h0 => Py.set (_holding_key h0) h0 d) hs
            (Py.set (_holding_key h) h d0))
    with (by_key_from (Py.set (_holding_key h) h d0) hs).
  rewrite IH, find_over_app.
  destruct (find _ (rev hs)); [reflexivity |].
  cbn [find]. destruct (String.eqb_spec (_holding_key h) k) as [<- | Hne].
  - apply get_set_same.
  - apply get_set_other. congruence.
Qed.

(** The index of a side holds, for a key, the last holding listed with
    that key. *)
Lemma by_key_find (holdings : list HoldingRecord) (k : string) :
  Py.get k (by_key holdings)
  = find (fun h => String.eqb (_holding_key h) k) (rev holdings).
Proof.
  unfold by_key. change (fold_left _ holdings []) with (by_key_from [] holdings).
  rewrite by_key_from_find. now destruct (find _ (rev holdings)).
Qed.

(** ** The label of a position *)

Lemma label_STARTER (d : PositionDiff) :
  _classify_position d = "STARTER" <->
  change_type d = NEW /\ is_starter d = true.
Proof.
  unfold _classify_position.
  destruct (change_type d), (is_starter d),
    (growth_at_least_one (growth_rate d)); cbn;
    (split; [intros H; try discriminate H; auto
            | intros [H1 H2]; try discriminate H1; try discriminate H2; auto]).
Qed.

Lemma label_SCALE_UP (d : PositionDiff) :
  _classify_position d = "SCALE-UP" <->
  change_type d = INCREASE /\ is_starter d = true
  /\ growth_at_least_one (growth_rate d) = true.
Proof.
  unfold _classify_position.
  destruct (change_type d), (is_starter d),
    (growth_at_least_one (growth_rate d)); cbn;
    (split; [intros H; try discriminate H; auto
            | intros (H1 & H2 & H3); try discriminate H1; try discriminate H2;
              try discriminate H3; auto]).
Qed.

Lemma label_of_increase (d : PositionDiff) :
  change_type d = INCREASE ->
  _classify_position d = "SCALE-UP" \/ _classify_position d = "ADD".
Proof.
  unfold _classify_position. intros ->.
  destruct (is_starter d && growth_at_least_one (growth_rate d)); auto.
Qed.

Lemma growth_at_least_one_geq (g : option Q) :
  growth_at_least_one g = true -> opt_geQ g 1 = true.
Proof.
  destruct g as [q |]; [| discriminate]. cbn.
  intros H. now apply andb_true_iff in H as [_ H].
Qed.

Lemma geq_one_growth_at_least_one (g : option Q) :
  opt_geQ g 1 = true -> growth_at_least_one g = true.
Proof.
  destruct g as [q |]; [| discriminate]. cbn. intros H. rewrite H, andb_true_r.
  apply negb_true_iff. destruct (Qeq_bool q 0) eqn:E; [| reflexivity].
  apply Qeq_bool_iff in E. apply Qle_bool_iff in H. rewrite E in H.
  exfalso. now apply (Qle_not_lt _ _ H).
Qed.

Section QuarterDiffMore.

Variable db : Database.
Variables (fid : Z) (fname : string).
Variables filing_prev filing_now : FilingRecord.
Variable config : Config.

Let holdings_prev := get_holdings_for_filing db (id filing_prev).
Let holdings_now := get_holdings_for_filing db (id filing_now).
Let total_prev := Py.sumZ (map value_usd holdings_prev).
Let total_now := Py.sumZ (map value_usd holdings_now).
Let prev_by_key := by_key holdings_prev.
Let now_by_key := by_key holdings_now.
Let all_keys := Py.union_keys (Py.keys prev_by_key) (Py.keys now_by_key).

(** Everything the statements below need about a returned diff. *)
Lemma compute_quarter_diff_anatomy (qd : QuarterDiff) :
  compute_quarter_diff db fid fname filing_prev filing_now config = Py.Ok qd ->
  exists diffs,
    Forall2
      (fun k d =>
         built_for prev_by_key now_by_key total_prev total_now config k d
         /\ refers_to prev_by_key now_by_key k d)
      all_keys diffs
    /\ summarises holdings_prev holdings_now total_prev total_now diffs qd
    /\ ranks fid fname filing_prev filing_now diffs qd.
Proof.
  destruct (loop_total db filing_prev filing_now config) as (diffs & Hdiffs).
  fold holdings_prev holdings_now in Hdiffs. fold total_prev total_now in Hdiffs.
  fold prev_by_key now_by_key in Hdiffs. fold all_keys in Hdiffs.
  unfold compute_quarter_diff.
  fold holdings_prev holdings_now. fold total_prev total_now.
  fold prev_by_key now_by_key. fold all_keys.
  rewrite Hdiffs. cbn [Py.bind].
  pose proof (weights_Ok db filing_prev filing_now) as Hw.
  fold holdings_now in Hw. fold total_now in Hw.
  rewrite Hw. cbn [Py.bind].
  intros H. injection H as <-. exists diffs. split; [| split].
  - apply Forall2_conj.
    + now apply loop_built.
    + apply mapM_Forall2 in Hdiffs.
      revert Hdiffs. apply Forall2_impl.
      intros k d Hk. eapply position_diff_refers; eassumption.
  - unfold summarises, sorted_desc, current_weights. cbn.
    repeat split; reflexivity.
  - unfold ranks, adds_of, cuts_of. cbn. repeat split; reflexivity.
Qed.

(** *** Ranking by value *)

(** X1: the diff returns; [top_adds_by_value] holds at most ten
    positions, each a position of the diff with a positive value delta,
    in descending order of delta, and every position with a positive
    delta that is left out has a delta no greater than each listed one;
    [top_cuts_by_value] is the same for negative deltas in ascending
    order (largest cut first). *)
Theorem top_by_value_are_the_extremes :
  exists qd,
    compute_quarter_diff db fid fname filing_prev filing_now config = Py.Ok qd
    /\ (List.length (top_adds_by_value qd) <= 10)%nat
    /\ StronglySorted (fun a b => delta_value_usd b <= delta_value_usd a)
         (top_adds_by_value qd)
    /\ (forall d, In d (top_adds_by_value qd) ->
        In d (all_positions qd) /\ 0 < delta_value_usd d)
    /\ (forall d, In d (all_positions qd) -> 0 < delta_value_usd d ->
        In d (top_adds_by_value qd)
        \/ forall y, In y (top_adds_by_value qd) ->
             delta_value_usd d <= delta_value_usd y)
    /\ (List.length (top_cuts_by_value qd) <= 10)%nat
    /\ StronglySorted (fun a b => delta_value_usd a <= delta_value_usd b)
         (top_cuts_by_value qd)
    /\ (forall d, In d (top_cuts_by_value qd) ->
        In d (all_positions qd) /\ delta_value_usd d < 0)
    /\ (forall d, In d (all_positions qd) -> delta_value_usd d < 0 ->
        In d (top_cuts_by_value qd)
        \/ forall y, In y (top_cuts_by_value qd) ->
             delta_value_usd y <= delta_value_usd d).
Proof.
  destruct (compute_quarter_diff_returns db fid fname filing_prev filing_now config)
    as (qd & Hqd).
  exists qd. split; [exact Hqd |].
  destruct (compute_quarter_diff_anatomy qd Hqd) as (diffs & _ & Hs & Hr).
  pose proof (fun d => all_positions_In _ _ _ _ _ _ d Hs) as Hin.
  destruct Hr as (_ & _ & _ & _ & Ha & Hc & _).
  rewrite Ha, Hc. unfold adds_of, cuts_of.
  destruct (top_ten_facts
              (fun y x => delta_value_usd y >? delta_value_usd x)
              (fun a b => delta_value_usd b <= delta_value_usd a)
              (fun d => delta_value_usd d >? 0) diffs)
    as (Ha1 & _ & Ha2 & Ha3 & Ha4).
  { intros y x H. apply Z.gtb_lt in H. lia. }
  { intros y x H. destruct (Z.gtb_spec (delta_value_usd y) (delta_value_usd x)); [discriminate | lia]. }
  { intros; lia. }
  destruct (top_ten_facts
              (fun y x => delta_value_usd y <? delta_value_usd x)
              (fun a b => delta_value_usd a <= delta_value_usd b)
              (fun d => delta_value_usd d <? 0) diffs)
    as (Hc1 & _ & Hc2 & Hc3 & Hc4).
  { intros y x H. apply Z.ltb_lt in H. lia. }
  { intros y x H. apply Z.ltb_ge in H. lia. }
  { intros; lia. }
  repeat split; auto.
  - apply Hin. now apply Ha3.
  - apply Ha3 in H as [_ H]. apply Z.gtb_lt in H. lia.
  - intros d Hd Hpos. apply Ha4; [now apply Hin |]. apply Z.gtb_lt. lia.
  - apply Hin. now apply Hc3.
  - apply Hc3 in H as [_ H]. now apply Z.ltb_lt in H.
  - intros d Hd Hneg. apply Hc4; [now apply Hin |]. now apply Z.ltb_lt.
Qed.

(** *** Ranking by growth rate *)

(** X2: [top_adds_by_growth_rate] lists only [INCREASE] positions, each
    with a growth rate above 0, and [top_cuts_by_growth_rate] only
    [DECREASE] positions, each with a growth rate below 0: a [NEW] and an
    [EXIT] position, which have no growth rate, are never ranked by it.
    Each list has at most ten entries, best first, and an increased
    (decreased) position with a growth rate that is left out grew
    (shrank) no more than each listed one. *)
Theorem top_by_growth_rate_are_two_sided :
  exists qd,
    compute_quarter_diff db fid fname filing_prev filing_now config = Py.Ok qd
    /\ (List.length (top_adds_by_growth_rate qd) <= 10)%nat
    /\ StronglySorted
         (fun a b => (Py.or0Q (growth_rate b) <= Py.or0Q (growth_rate a))%Q)
         (top_adds_by_growth_rate qd)
    /\ (forall d, In d (top_adds_by_growth_rate qd) ->
        In d (increased qd)
        /\ exists g, growth_rate d = Some g /\ (0 < g)%Q)
    /\ (forall d g, In d (increased qd) -> growth_rate d = Some g ->
        In d (top_adds_by_growth_rate qd)
        \/ forall y, In y (top_adds_by_growth_rate qd) ->
             (g <= Py.or0Q (growth_rate y))%Q)
    /\ (List.length (top_cuts_by_growth_rate qd) <= 10)%nat
    /\ StronglySorted
         (fun a b => (Py.or0Q (growth_rate a) <= Py.or0Q (growth_rate b))%Q)
         (top_cuts_by_growth_rate qd)
    /\ (forall d, In d (top_cuts_by_growth_rate qd) ->
        In d (decreased qd)
        /\ exists g, growth_rate d = Some g /\ (g < 0)%Q)
    /\ (forall d g, In d (decreased qd) -> growth_rate d = Some g ->
        In d (top_cuts_by_growth_rate qd)
        \/ forall y, In y (top_cuts_by_growth_rate qd) ->
             (Py.or0Q (growth_rate y) <= g)%Q).
Proof.
  destruct (compute_quarter_diff_returns db fid fname filing_prev filing_now config)
    as (qd & Hqd).
  exists qd. split; [exact Hqd |].
  destruct (compute_quarter_diff_anatomy qd Hqd) as (diffs & Hb & Hs & Hr).
  assert (Hbuilt : forall d, In d diffs ->
            exists k, built_for prev_by_key now_by_key total_prev total_now config k d).
  { intros d Hd. destruct (Forall2_In_r _ _ _ _ Hb Hd) as (k & _ & Hk & _).
    now exists k. }
  destruct Hs as (_ & _ & Hinc & Hdec & _).
  destruct Hr as (_ & _ & _ & _ & _ & _ & Ha & Hc & _).
  rewrite Ha, Hc, Hinc, Hdec. unfold adds_of, cuts_of. rewrite !filter_twice.
  destruct (top_ten_facts
              (fun y x => Py.Qltb (Py.or0Q (growth_rate x)) (Py.or0Q (growth_rate y)))
              (fun a b => (Py.or0Q (growth_rate b) <= Py.or0Q (growth_rate a))%Q)
              (fun d => (delta_value_usd d >? 0)
                        && (is_some (growth_rate d) && negb (has_type NEW d)))
              diffs)
    as (Ha1 & _ & Ha2 & Ha3 & Ha4).
  { intros y x H. apply Qltb_true in H. now apply Qlt_le_weak. }
  { intros y x H. now apply Qltb_false in H. }
  { intros a b c H1 H2. eapply Qle_trans; eassumption. }
  destruct (top_ten_facts
              (fun y x => Py.Qltb (Py.or0Q (growth_rate y)) (Py.or0Q (growth_rate x)))
              (fun a b => (Py.or0Q (growth_rate a) <= Py.or0Q (growth_rate b))%Q)
              (fun d => (delta_value_usd d <? 0) && is_some (growth_rate d))
              diffs)
    as (Hc1 & _ & Hc2 & Hc3 & Hc4).
  { intros y x H. apply Qltb_true in H. now apply Qlt_le_weak. }
  { intros y x H. now apply Qltb_false in H. }
  { intros a b c H1 H2. eapply Qle_trans; eassumption. }
  split; [exact Ha1 |]. split; [exact Ha2 |].
  split.
  { intros d Hd. apply Ha3 in Hd as [Hd Hp].
    apply andb_true_iff in Hp as [Hpos Hp]. apply andb_true_iff in Hp as [Hg _].
    apply Z.gtb_lt in Hpos.
    destruct (growth_rate d) as [g |] eqn:Eg; [| discriminate].
    destruct (Hbuilt d Hd) as (k & Hk).
    destruct (built_with_growth _ _ _ _ _ _ _ _ Hk Eg) as [Hup _].
    destruct (Hup ltac:(lia)) as [Hty Hgpos].
    split; [now apply filter_type_In | now exists g]. }
  split.
  { intros d g Hd Eg. apply filter_type_In in Hd as [Hd Hty].
    destruct (Hbuilt d Hd) as (k & Hk).
    assert (Hpos : 0 < delta_value_usd d).
    { destruct Hk as (_ & _ & _ & _ & _ & _ & _ & Hc' & _).
      rewrite Hc' in Hty. unfold classify in Hty.
      destruct (Py.get k prev_by_key), (Py.get k now_by_key); try discriminate;
        destruct (Z.gtb_spec (delta_value_usd d) 0); try lia;
        destruct (delta_value_usd d <? 0); discriminate. }
    destruct (Ha4 d Hd) as [Hin | Htop].
    - rewrite Eg. cbn. unfold has_type. rewrite Hty. cbn.
      destruct (Z.gtb_spec (delta_value_usd d) 0); [reflexivity | lia].
    - now left.
    - right. intros y Hy. specialize (Htop y Hy). now rewrite Eg in Htop. }
  split; [exact Hc1 |]. split; [exact Hc2 |].
  split.
  { intros d Hd. apply Hc3 in Hd as [Hd Hp].
    apply andb_true_iff in Hp as [Hneg Hg]. apply Z.ltb_lt in Hneg.
    destruct (growth_rate d) as [g |] eqn:Eg; [| discriminate].
    destruct (Hbuilt d Hd) as (k & Hk).
    destruct (built_with_growth _ _ _ _ _ _ _ _ Hk Eg) as [_ Hdown].
    destruct (Hdown Hneg) as [Hty Hgneg].
    split; [now apply filter_type_In | now exists g]. }
  intros d g Hd Eg. apply filter_type_In in Hd as [Hd Hty].
  destruct (Hbuilt d Hd) as (k & Hk).
  assert (Hneg : delta_value_usd d < 0).
  { destruct Hk as (_ & _ & _ & _ & _ & _ & _ & Hc' & _).
    rewrite Hc' in Hty. unfold classify in Hty.
    destruct (Py.get k prev_by_key), (Py.get k now_by_key); try discriminate;
      destruct (delta_value_usd d >? 0); try discriminate;
      destruct (Z.ltb_spec (delta_value_usd d) 0); try lia; discriminate. }
  destruct (Hc4 d Hd) as [Hin | Htop].
  - rewrite Eg. cbn. destruct (Z.ltb_spec (delta_value_usd d) 0); [reflexivity | lia].
  - now left.
  - right. intros y Hy. specialize (Htop y Hy). now rewrite Eg in Htop.
Qed.

(** *** Ranking by portfolio impact *)

(** X3: the impact of a position is its delta over the prior total, so
    ranking by impact adds nothing to ranking by value: when the prior
    total is positive the two impact lists are the two value lists,
    entry for entry, and when it is not (a first filing, say) both
    impact lists are empty. *)
Theorem top_by_impact_is_top_by_value :
  exists qd,
    compute_quarter_diff db fid fname filing_prev filing_now config = Py.Ok qd
    /\ (0 < total_prev ->
        top_adds_by_portfolio_impact qd = top_adds_by_value qd
        /\ top_cuts_by_portfolio_impact qd = top_cuts_by_value qd)
    /\ (total_prev <= 0 ->
        top_adds_by_portfolio_impact qd = []
        /\ top_cuts_by_portfolio_impact qd = []).
Proof.
  destruct (compute_quarter_diff_returns db fid fname filing_prev filing_now config)
    as (qd & Hqd).
  exists qd. split; [exact Hqd |].
  destruct (compute_quarter_diff_anatomy qd Hqd) as (diffs & Hb & _ & Hr).
  assert (Himp : forall d, In d diffs ->
            portfolio_impact d = impact_of (delta_value_usd d) total_prev).
  { intros d Hd. destruct (Forall2_In_r _ _ _ _ Hb Hd) as (k & _ & Hk & _).
    now destruct Hk as (_ & _ & _ & _ & _ & _ & Hi & _). }
  destruct Hr as (_ & _ & _ & _ & Hav & Hcv & _ & _ & Hai & Hci & _).
  rewrite Hav, Hcv, Hai, Hci. clear Hav Hcv Hai Hci.
  assert (Hsub_a : forall d, In d (adds_of diffs) -> In d diffs)
    by (intros d Hd; now apply filter_In in Hd).
  assert (Hsub_c : forall d, In d (cuts_of diffs) -> In d diffs)
    by (intros d Hd; now apply filter_In in Hd).
  split.
  - intros Hpos.
    assert (Hsome : forall d, In d diffs ->
              portfolio_impact d
              = Some (inject_Z (delta_value_usd d) / inject_Z total_prev)%Q).
    { intros d Hd. rewrite (Himp d Hd). unfold impact_of.
      destruct (Z.gtb_spec total_prev 0); [reflexivity | lia]. }
    split.
    + rewrite filter_all
        by (intros d Hd; now rewrite (Hsome d (Hsub_a d Hd))).
      f_equal. apply sorted_by_ext. intros x y Hx Hy.
      rewrite (Hsome x (Hsub_a x Hx)), (Hsome y (Hsub_a y Hy)). cbn [Py.or0Q].
      rewrite Qltb_quotients by exact Hpos. symmetry. apply Z.gtb_ltb.
    + rewrite filter_all
        by (intros d Hd; now rewrite (Hsome d (Hsub_c d Hd))).
      f_equal. apply sorted_by_ext. intros x y Hx Hy.
      rewrite (Hsome x (Hsub_c x Hx)), (Hsome y (Hsub_c y Hy)). cbn [Py.or0Q].
      now rewrite Qltb_quotients by exact Hpos.
  - intros Hle.
    assert (Hnone : forall d, In d diffs -> portfolio_impact d = None).
    { intros d Hd. rewrite (Himp d Hd). unfold impact_of.
      destruct (Z.gtb_spec total_prev 0); [lia | reflexivity]. }
    split.
    + rewrite filter_none; [reflexivity |].
      intros d Hd. now rewrite (Hnone d (Hsub_a d Hd)).
    + rewrite filter_none; [reflexivity |].
      intros d Hd. now rewrite (Hnone d (Hsub_c d Hd)).
Qed.

(** *** Gross adds and gross cuts *)

(** X4: when each side lists a matching key at most once, the gross
    adds less the gross cuts is the change of the portfolio total, and
    neither gross value is negative. *)
Theorem gross_adds_less_cuts_is_net_change :
  NoDup (map _holding_key holdings_prev) ->
  NoDup (map _holding_key holdings_now) ->
  exists qd,
    compute_quarter_diff db fid fname filing_prev filing_now config = Py.Ok qd
    /\ 0 <= gross_adds_value qd
    /\ 0 <= gross_cuts_value qd
    /\ gross_adds_value qd - gross_cuts_value qd
       = total_portfolio_now qd - total_portfolio_prev qd.
Proof.
  intros Hndp Hndn.
  destruct (compute_quarter_diff_returns db fid fname filing_prev filing_now config)
    as (qd & Hqd).
  exists qd. split; [exact Hqd |].
  destruct (compute_quarter_diff_anatomy qd Hqd) as (diffs & Hb & Hs & Hr).
  destruct Hs as (_ & _ & _ & _ & _ & _ & Htp & Htn & _).
  destruct Hr as (_ & _ & _ & _ & _ & _ & _ & _ & _ & _ & _ & Hga & Hgc).
  rewrite Hga, Hgc, Htp, Htn. unfold adds_of, cuts_of.
  destruct (sumZ_gains_losses delta_value_usd diffs) as (H1 & H2 & H3).
  split; [exact H1 |]. split; [exact H2 |]. rewrite H3.
  assert (Hmap : map delta_value_usd diffs
                 = map (fun k =>
                          Py.or0 (option_map value_usd (Py.get k now_by_key))
                          - Py.or0 (option_map value_usd (Py.get k prev_by_key)))
                       all_keys).
  { symmetry. apply (Forall2_map_eq _ _ _ _ _ Hb).
    intros k d ((Hpv & Hnv & Hdv & _) & _). now rewrite Hdv, Hpv, Hnv. }
  rewrite Hmap, sumZ_minus.
  unfold now_by_key, prev_by_key, total_now, total_prev.
  rewrite (indexed_total holdings_now all_keys Hndn),
          (indexed_total holdings_prev all_keys Hndp); try reflexivity.
  - apply all_keys_NoDup.
  - intros k Hk. apply union_keys_In. now left.
  - apply all_keys_NoDup.
  - intros k Hk. apply union_keys_In. now right.
Qed.

(** *** The Herfindahl index *)

(** X5: with nonnegative current values and a positive current total,
    the Herfindahl index of the diff lies between [1 / N] and 1, where
    [N] is the number of current holdings, and it is [1 / N] when all
    current holdings have the same value. *)
Theorem herfindahl_bounds :
  (forall h, In h holdings_now -> 0 <= value_usd h) ->
  0 < total_now ->
  exists qd,
    compute_quarter_diff db fid fname filing_prev filing_now config = Py.Ok qd
    /\ (herfindahl_index qd <= 1)%Q
    /\ (1 <= inject_Z (position_count_now qd) * herfindahl_index qd)%Q
    /\ ((forall h h', In h holdings_now -> In h' holdings_now ->
         value_usd h = value_usd h') ->
        (inject_Z (position_count_now qd) * herfindahl_index qd == 1)%Q).
Proof.
  intros Hnonneg Hpos.
  destruct (compute_quarter_diff_returns db fid fname filing_prev filing_now config)
    as (qd & Hqd).
  exists qd. split; [exact Hqd |].
  destruct (compute_quarter_diff_anatomy qd Hqd) as (diffs & _ & Hs & _).
  destruct Hs as (_ & _ & _ & _ & _ & _ & _ & _ & _ & Hcn & _ & _ & Hh).
  assert (Hcw : current_weights holdings_now total_now
                = map (fun h => (inject_Z (value_usd h) / inject_Z total_now)%Q)
                      holdings_now).
  { unfold current_weights. destruct (Z.gtb_spec total_now 0); [reflexivity | lia]. }
  rewrite Hcw in Hh.
  set (weights :=
         map (fun h => (inject_Z (value_usd h) / inject_Z total_now)%Q)
             holdings_now) in *.
  assert (Hperm : Permutation (sorted_desc weights) weights) by apply sorted_by_perm.
  assert (Hherf : (herfindahl_index qd
                   == Py.sumQ (map (fun w => w * w) weights))%Q).
  { rewrite Hh.
    rewrite <- (sumQ_perm _ _ (Permutation_map (fun w => (w * w)%Q) Hperm)).
    destruct (sorted_desc weights); reflexivity. }
  assert (Hw : Forall (fun w => 0 <= w)%Q weights).
  { apply Forall_forall. intros w Hin. apply in_map_iff in Hin as (h & <- & Hin).
    apply weight_nonneg; auto. }
  assert (Hone : (Py.sumQ weights == 1)%Q).
  { unfold weights. rewrite sum_of_weights. fold total_now.
    apply Qmult_inv_r. intros E.
    assert (Hlt : (0 < inject_Z total_now)%Q).
    { replace 0%Q with (inject_Z 0) by reflexivity. now rewrite <- Zlt_Qlt. }
    rewrite E in Hlt. now apply Qlt_irrefl in Hlt. }
  assert (Hlen : (inject_Z (position_count_now qd) == Qlen weights)%Q).
  { rewrite Hcn. unfold Qlen, weights. now rewrite length_map. }
  destruct (sum_squares_le_square weights Hw) as [_ Hle].
  pose proof (square_le_count_squares weights) as Hge.
  rewrite Hone in Hle, Hge.
  split; [rewrite Hherf; nra |].
  split; [rewrite Hherf, Hlen; nra |].
  intros Hsame. rewrite Hherf, Hlen.
  destruct (positive_total_nonempty holdings_now Hpos) as (h0 & Hh0).
  destruct (sums_of_constant (inject_Z (value_usd h0) / inject_Z total_now)%Q weights)
    as [Hs1 Hs2].
  { intros w Hin. unfold weights in Hin. apply in_map_iff in Hin as (h & <- & Hin).
    rewrite (Hsame h h0 Hin Hh0). reflexivity. }
  rewrite Hs2. rewrite Hs1 in Hone.
  set (c := (inject_Z (value_usd h0) / inject_Z total_now)%Q) in *.
  set (n := Qlen weights) in *.
  transitivity ((n * c) * (n * c))%Q; [ring | rewrite Hone; ring].
Qed.

(** *** Sides without a common key *)

(** X6: when no matching key occurs on both sides, nothing is increased,
    decreased or unchanged: every position of the diff is [NEW] or
    [EXIT]. *)
Theorem disjoint_sides_only_new_and_exit :
  (forall h h', In h holdings_prev -> In h' holdings_now ->
                _holding_key h <> _holding_key h') ->
  exists qd,
    compute_quarter_diff db fid fname filing_prev filing_now config = Py.Ok qd
    /\ increased qd = [] /\ decreased qd = [] /\ unchanged qd = []
    /\ forall d, In d (all_positions qd) ->
         change_type d = NEW \/ change_type d = EXIT.
Proof.
  intros Hdisj.
  destruct (compute_quarter_diff_returns db fid fname filing_prev filing_now config)
    as (qd & Hqd).
  exists qd. split; [exact Hqd |].
  destruct (compute_quarter_diff_anatomy qd Hqd) as (diffs & Hb & Hs & _).
  assert (Hone : forall d, In d diffs -> change_type d = NEW \/ change_type d = EXIT).
  { intros d Hd. destruct (Forall2_In_r _ _ _ _ Hb Hd) as (k & Hk & Hbuilt & _).
    destruct Hbuilt as (_ & _ & _ & _ & _ & _ & _ & Hc & _).
    rewrite Hc. apply union_keys_In in Hk. rewrite !get_In_keys in Hk.
    destruct (Py.get k prev_by_key) as [hp |] eqn:EP;
      destruct (Py.get k now_by_key) as [hn |] eqn:EN; cbn [classify]; auto.
    - exfalso. apply by_key_get in EP as [HP1 HP2]. apply by_key_get in EN as [HN1 HN2].
      apply (Hdisj hp hn HP1 HN1). congruence.
    - exfalso. destruct Hk as [Hk | Hk]; now apply Hk. }
  pose proof (fun d => all_positions_In _ _ _ _ _ _ d Hs) as Hin.
  destruct Hs as (_ & _ & Hi & Hd & Hu & _).
  rewrite Hi, Hd, Hu.
  repeat split.
  - apply filter_none. intros d Hdin. apply Hone in Hdin.
    unfold has_type. destruct Hdin as [-> | ->]; reflexivity.
  - apply filter_none. intros d Hdin. apply Hone in Hdin.
    unfold has_type. destruct Hdin as [-> | ->]; reflexivity.
  - apply filter_none. intros d Hdin. apply Hone in Hdin.
    unfold has_type. destruct Hdin as [-> | ->]; reflexivity.
  - intros d Hdin. apply Hone. now apply Hin.
Qed.

(** *** The holdings behind a position *)

(** X7: every position of the diff reads, on each side, the last holding
    listed with its matching key: its values and share counts are those
    of that holding ([None] when the side has none), and its identifier,
    issuer name, title of class and option flag are taken from the
    current holding when there is one and from the prior holding
    otherwise; one of the two always exists. *)
Theorem position_reads_last_holding :
  exists qd,
    compute_quarter_diff db fid fname filing_prev filing_now config = Py.Ok qd
    /\ forall d, In d (all_positions qd) ->
       let has_key h := String.eqb (_holding_key h) (position_key d) in
       let last_prev := find has_key (rev holdings_prev) in
       let last_now := find has_key (rev holdings_now) in
       prev_value_usd d = option_map value_usd last_prev
       /\ now_value_usd d = option_map value_usd last_now
       /\ prev_shares d = option_map shares_or_principal last_prev
       /\ now_shares d = option_map shares_or_principal last_now
       /\ delta_shares d = Py.or0 (now_shares d) - Py.or0 (prev_shares d)
       /\ exists ref,
            match last_now with Some h => Some h | None => last_prev end = Some ref
            /\ cusip d = h_cusip ref
            /\ issuer_name d = h_issuer_name ref
            /\ title_of_class d = h_title_of_class ref
            /\ put_call d = h_put_call ref.
Proof.
  destruct (compute_quarter_diff_returns db fid fname filing_prev filing_now config)
    as (qd & Hqd).
  exists qd. split; [exact Hqd |].
  destruct (compute_quarter_diff_anatomy qd Hqd) as (diffs & Hb & Hs & _).
  intros d Hd. apply (all_positions_In _ _ _ _ _ _ d Hs) in Hd.
  destruct (Forall2_In_r _ _ _ _ Hb Hd) as (k & _ & Hbuilt & Href).
  destruct Hbuilt as (Hpv & Hnv & _ & _ & _ & _ & _ & _ & _ & Hkey).
  destruct Href as (Hps & Hns & Hds & ref & Hr & Hfields).
  cbv zeta. rewrite Hkey.
  unfold prev_by_key, now_by_key in *. rewrite !by_key_find in *.
  repeat (split; [assumption |]).
  exists ref. split; assumption.
Qed.

(** *** Report labels and starter lists *)

(** X8: the label that the fund report gives a position of a diff agrees
    with the starter lists of the diff: the label is STARTER exactly for
    the positions of [new_starters]; a position labelled SCALE-UP is in
    [increased_starters]; and a position of [increased_starters] that is
    not labelled SCALE-UP is labelled ADD and got there by its portfolio
    impact of at least 0.0005. *)
Theorem labels_agree_with_starter_lists :
  exists qd,
    compute_quarter_diff db fid fname filing_prev filing_now config = Py.Ok qd
    /\ forall d, In d (all_positions qd) ->
       (_classify_position d = "STARTER" <-> In d (new_starters qd))
       /\ (_classify_position d = "SCALE-UP" -> In d (increased_starters qd))
       /\ (In d (increased_starters qd) ->
           _classify_position d = "SCALE-UP"
           \/ (_classify_position d = "ADD"
               /\ exists i, portfolio_impact d = Some i /\ (5 # 10000 <= i)%Q)).
Proof.
  destruct (compute_quarter_diff_returns db fid fname filing_prev filing_now config)
    as (qd & Hqd).
  exists qd. split; [exact Hqd |].
  destruct (compute_quarter_diff_anatomy qd Hqd) as (diffs & _ & Hs & Hr).
  intros d Hd. apply (all_positions_In _ _ _ _ _ _ d Hs) in Hd.
  destruct Hs as (_ & _ & _ & _ & _ & Hns & _).
  destruct Hr as (_ & _ & _ & _ & _ & _ & _ & _ & _ & _ & His & _).
  rewrite Hns, His, label_STARTER, !filter_In, !has_type_iff.
  split; [tauto |]. split.
  - intros Hl. apply label_SCALE_UP in Hl as (Hty & Hst & Hg).
    apply growth_at_least_one_geq in Hg. rewrite Hst, Hg. auto.
  - intros ((_ & Hty) & Hp). apply andb_true_iff in Hp as [Hst Hp].
    destruct (opt_geQ (growth_rate d) 1) eqn:Eg.
    + left. apply label_SCALE_UP.
      now apply geq_one_growth_at_least_one in Eg.
    + destruct (label_of_increase d Hty) as [Hl | Hl]; [now left | right].
      split; [exact Hl |]. cbn in Hp.
      destruct (portfolio_impact d) as [i |]; [| discriminate].
      exists i. split; [reflexivity | now apply Qle_bool_iff].
Qed.

End QuarterDiffMore.

(** * All the diffs of a fund *)

Lemma adjacent_pairs_chain {A : Type} (l : list A) :
  forall pre a b c d post,
    combine l (tl l) = pre ++ (a, b) :: (c, d) :: post -> b = c.
Proof.
  induction l as [| x l IH]; intros pre a b c d post E.
  - destruct pre; discriminate E.
  - destruct l as [| y l']; [destruct pre; discriminate E |].
    cbn [tl combine] in E. destruct pre as [| p pre].
    + cbn [app] in E. injection E as <- <- E.
      destruct l' as [| z l'']; [discriminate E |].
      cbn [combine] in E. now injection E as <- _ _.
    + cbn [app] in E. injection E as _ E.
      apply (IH pre a b c d post). exact E.
Qed.

Lemma adjacent_diffs_pairs
    (db : Database) (fid : Z) (fname : string) (config : Config)
    (filings : list FilingRecord) :
  exists diffs,
    adjacent_diffs db fid fname config filings = Py.Ok diffs
    /\ Forall2
         (fun qd (pair : FilingRecord * FilingRecord) =>
            compute_quarter_diff db fid fname (snd pair) (fst pair) config
            = Py.Ok qd)
         diffs (combine filings (tl filings)).
Proof.
  induction filings as [| filing_now rest IH].
  - exists []. split; [reflexivity | constructor].
  - destruct rest as [| filing_prev rest'].
    + exists []. split; [reflexivity | constructor].
    + destruct IH as (diffs & Hd & Hall).
      destruct (compute_quarter_diff_returns db fid fname filing_prev filing_now config)
        as (qd & Hqd).
      exists (qd :: diffs). split.
      * cbn [adjacent_diffs]. rewrite Hqd. cbn [Py.bind].
        cbn [adjacent_diffs] in Hd. rewrite Hd. reflexivity.
      * cbn [tl combine]. constructor; [exact Hqd | exact Hall].
Qed.

Lemma guarded_adjacent_diffs
    (db : Database) (fid : Z) (fname : string) (config : Config)
    (filings : list FilingRecord) :
  exists diffs,
    (if (List.length filings <? 2)%nat then Py.Ok []
     else adjacent_diffs db fid fname config filings) = Py.Ok diffs
    /\ Forall2
         (fun qd (pair : FilingRecord * FilingRecord) =>
            compute_quarter_diff db fid fname (snd pair) (fst pair) config
            = Py.Ok qd)
         diffs (combine filings (tl filings)).
Proof.
  destruct (Nat.ltb_spec (List.length filings) 2) as [Hlt | Hge].
  - exists []. split; [reflexivity |].
    destruct filings as [| f1 [| f2 rest]]; cbn in *; try constructor; exfalso; lia.
  - apply adjacent_diffs_pairs.
Qed.

Lemma min_with_tail {A : Type} (l : list A) :
  Nat.min (List.length l) (List.length (tl l)) = (List.length l - 1)%nat.
Proof. destruct l as [| x l]; [reflexivity |]. cbn [List.length tl]. lia. Qed.

(** X9: [compute_all_diffs] returns; it pairs each filing of the fund
    with the one listed after it, so [n] filings give [n - 1] diffs (none
    for fewer than two), most recent first; the diff of a pair runs from
    the period of the later-listed filing to the period of the
    earlier-listed one; and consecutive diffs chain: each starts at the
    period where the next one ends. *)
Theorem compute_all_diffs_pairs_adjacent_filings
    (db : Database) (fid : Z) (fname : string) (config : Config) :
  let filings := get_filings_for_fund db fid in
  exists diffs,
    compute_all_diffs db fid fname config = Py.Ok diffs
    /\ List.length diffs = (List.length filings - 1)%nat
    /\ Forall2
         (fun qd (pair : FilingRecord * FilingRecord) =>
            compute_quarter_diff db fid fname (snd pair) (fst pair) config
              = Py.Ok qd
            /\ period_to qd = period_of_report (fst pair)
            /\ period_from qd = period_of_report (snd pair))
         diffs (combine filings (tl filings))
    /\ (forall pre qd qd' post,
        diffs = pre ++ qd :: qd' :: post -> period_from qd = period_to qd').
Proof.
  intros filings.
  assert (Hex : exists diffs,
             compute_all_diffs db fid fname config = Py.Ok diffs
             /\ Forall2
                  (fun qd (pair : FilingRecord * FilingRecord) =>
                     compute_quarter_diff db fid fname (snd pair) (fst pair) config
                     = Py.Ok qd)
                  diffs (combine filings (tl filings))).
  { unfold compute_all_diffs. apply guarded_adjacent_diffs. }
  destruct Hex as (diffs & Hd & Hall).
  assert (Hper : Forall2
            (fun qd (pair : FilingRecord * FilingRecord) =>
               compute_quarter_diff db fid fname (snd pair) (fst pair) config
                 = Py.Ok qd
               /\ period_to qd = period_of_report (fst pair)
               /\ period_from qd = period_of_report (snd pair))
            diffs (combine filings (tl filings))).
  { revert Hall. apply Forall2_impl. intros qd [fnow fprev] Hqd. cbn [fst snd] in *.
    split; [exact Hqd |].
    destruct (compute_quarter_diff_anatomy db fid fname fprev fnow config qd Hqd)
      as (ds & _ & _ & Hr).
    destruct Hr as (_ & _ & Hfrom & Hto & _). auto. }
  exists diffs. split; [exact Hd |]. split; [| split; [exact Hper |]].
  - rewrite (Forall2_length Hall), length_combine. apply min_with_tail.
  - intros pre qd qd' post ->.
    apply Forall2_app_inv_l in Hper as (p1 & p2 & _ & Hp2 & Ecomb).
    inversion Hp2 as [| ? [a b] ? ps2 (_ & _ & Hfrom) Hrest]; subst.
    inversion Hrest as [| ? [c d] ? ps3 (_ & Hto & _) _]; subst.
    cbn [fst snd] in *. rewrite Hfrom, Hto. f_equal.
    eapply adjacent_pairs_chain. exact Ecomb.
Qed.

(** * Further properties of the signal detector *)

Lemma detect_signals_sorts (assign_cluster : string -> string)
    (diffs : list QuarterDiff) :
  detect_signals assign_cluster diffs
  = Py.sorted_by
      (fun y x => (strength_order (strength y) <? strength_order (strength x))%nat)
      (emitted_signals assign_cluster diffs).
Proof. destruct diffs; reflexivity. Qed.

Lemma detect_signals_In (assign_cluster : string -> string)
    (diffs : list QuarterDiff) (s : Signal) :
  In s (detect_signals assign_cluster diffs)
  <-> In s (emitted_signals assign_cluster diffs).
Proof.
  rewrite detect_signals_sorts. split; apply Permutation_in.
  - apply sorted_by_perm.
  - apply Permutation_sym, sorted_by_perm.
Qed.

Lemma strength_eqb_eq (a b : Strength) : strength_eqb a b = true <-> a = b.
Proof. destruct a, b; cbn; split; intros H; try reflexivity; discriminate H. Qed.

Lemma signal_type_eqb_eq (a b : SignalType) : signal_type_eqb a b = true <-> a = b.
Proof. destruct a, b; cbn; split; intros H; try reflexivity; discriminate H. Qed.

(** X10: [detect_signals] returns the signals of the five detectors
    sorted by strength, strong first, then moderate, then weak; the sort
    is stable: the signals of one strength come out in the order in
    which the detectors emitted them (accumulator, build-then-trim,
    probe, concentration, theme), none lost and none added. *)
Theorem detect_signals_is_stably_sorted (assign_cluster : string -> string)
    (diffs : list QuarterDiff) :
  StronglySorted
    (fun a b => (strength_order (strength a) <= strength_order (strength b))%nat)
    (detect_signals assign_cluster diffs)
  /\ Permutation (detect_signals assign_cluster diffs)
       (emitted_signals assign_cluster diffs)
  /\ forall st,
       filter (fun s => strength_eqb (strength s) st)
              (detect_signals assign_cluster diffs)
       = filter (fun s => strength_eqb (strength s) st)
                (emitted_signals assign_cluster diffs).
Proof.
  rewrite detect_signals_sorts. split; [| split].
  - apply sorted_by_sorted.
    + intros y x H. apply Nat.ltb_lt in H. lia.
    + intros y x H. apply Nat.ltb_ge in H. lia.
    + intros a b c H1 H2. lia.
  - apply sorted_by_perm.
  - intros st. apply sorted_by_filter. intros x y Hlt Hy.
    apply Nat.ltb_lt in Hlt. apply strength_eqb_eq in Hy. subst st.
    destruct (strength_eqb (strength x) (strength y)) eqn:E; [| reflexivity].
    apply strength_eqb_eq in E. rewrite E in Hlt. lia.
Qed.

(** ** Build then trim *)

Lemma change_type_eqb_eq (a b : ChangeType) : change_type_eqb a b = true <-> a = b.
Proof. destruct a, b; cbn; split; intros H; try reflexivity; discriminate H. Qed.

Lemma increase_not_decrease (e : HistEntry) :
  is_increase e = true -> entry_change e <> DECREASE.
Proof.
  unfold is_increase. intros H E. rewrite E in H. discriminate H.
Qed.

Lemma no_trim_in_cons (before pre : list HistEntry) (e0 : HistEntry) :
  ~ trims_build before e0 ->
  no_trim_in (before ++ [e0]) pre ->
  no_trim_in before (e0 :: pre).
Proof.
  intros H0 H pre' e' post' E.
  destruct pre' as [| x pre''].
  - cbn in E. injection E as <- _. now rewrite app_nil_r.
  - cbn in E. injection E as <- E.
    specialize (H pre'' e' post' E). now rewrite <- app_assoc in H.
Qed.

Lemma build_trim_scan_from (name : string) (h2 : list HistEntry) :
  forall h1 phase,
    ((2 <= List.length (trailing_run h1))%nat -> phase = true) ->
    (build_trim_scan name h2 (map entry_period (trailing_run h1)) phase = []
     /\ no_trim_in h1 h2)
    \/ (exists pre e post,
          h2 = pre ++ e :: post
          /\ trims_build (h1 ++ pre) e
          /\ no_trim_in h1 pre
          /\ build_trim_scan name h2 (map entry_period (trailing_run h1)) phase
             = [trim_signal name (h1 ++ pre) e]).
Proof.
  induction h2 as [| e0 rest IH]; intros h1 phase Hinv.
  - left. split; [reflexivity |]. intros pre' e' post' E. now destruct pre'.
  - cbn [build_trim_scan]. fold (is_increase e0).
    destruct (is_increase e0) eqn:Einc.
    + assert (H0 : ~ trims_build h1 e0).
      { intros [HD _]. now apply (increase_not_decrease e0 Einc). }
      specialize (IH (h1 ++ [e0]) true (fun _ => eq_refl)).
      rewrite trailing_run_snoc, Einc, map_app in IH. cbn [map] in IH.
      destruct IH as [[Hnil Hno] | (pre & e & post & E & Ht & Hfirst & Hsig)].
      * left. split; [exact Hnil | now apply no_trim_in_cons].
      * right. exists (e0 :: pre), e, post.
        rewrite <- app_assoc in Ht, Hsig. cbn [app] in Ht, Hsig.
        split; [now rewrite E |]. split; [exact Ht |].
        split; [now apply no_trim_in_cons | exact Hsig].
    + destruct (change_type_eqb (entry_change e0) DECREASE) eqn:ED.
      * destruct (phase && (2 <=? List.length (map entry_period (trailing_run h1)))%nat)
          eqn:Ec; cbn [andb].
        -- rewrite Ec. right. exists [], e0, rest.
           apply andb_true_iff in Ec as [_ Ec]. apply Nat.leb_le in Ec.
           rewrite length_map in Ec. rewrite app_nil_r.
           split; [reflexivity |]. split.
           { split; [now apply change_type_eqb_eq | exact Ec]. }
           split.
           { intros pre' e' post' E. now destruct pre'. }
           unfold trim_signal. now rewrite length_map.
        -- rewrite Ec.
           assert (H0 : ~ trims_build h1 e0).
           { intros [_ Hlen]. rewrite (Hinv Hlen) in Ec. cbn [andb] in Ec.
             apply Nat.leb_gt in Ec. rewrite length_map in Ec. lia. }
           specialize (IH (h1 ++ [e0]) false).
           rewrite trailing_run_snoc, Einc in IH. cbn [map List.length] in IH.
           destruct IH as [[Hnil Hno] | (pre & e & post & E & Ht & Hfirst & Hsig)];
             [lia | |].
           ++ left. split; [exact Hnil | now apply no_trim_in_cons].
           ++ right. exists (e0 :: pre), e, post.
              rewrite <- app_assoc in Ht, Hsig. cbn [app] in Ht, Hsig.
              split; [now rewrite E |]. split; [exact Ht |].
              split; [now apply no_trim_in_cons | exact Hsig].
      * cbn [andb].
        assert (H0 : ~ trims_build h1 e0).
        { intros [HD _]. apply change_type_eqb_eq in HD. congruence. }
        specialize (IH (h1 ++ [e0]) false).
        rewrite trailing_run_snoc, Einc in IH. cbn [map List.length] in IH.
        destruct IH as [[Hnil Hno] | (pre & e & post & E & Ht & Hfirst & Hsig)];
          [lia | |].
        -- left. split; [exact Hnil | now apply no_trim_in_cons].
        -- right. exists (e0 :: pre), e, post.
           rewrite <- app_assoc in Ht, Hsig. cbn [app] in Ht, Hsig.
           split; [now rewrite E |]. split; [exact Ht |].
           split; [now apply no_trim_in_cons | exact Hsig].
Qed.

Lemma trailing_run_length (h : list HistEntry) :
  (List.length (trailing_run h) <= List.length h)%nat.
Proof.
  destruct (trailing_run_suffix h) as (pre & E).
  rewrite E at 2. rewrite length_app. lia.
Qed.

(** X11: the build-then-trim detector emits at most one signal for a
    history, at the first [DECREASE] entry that ends a run of at least
    two consecutive [INCREASE] entries: none when the history has no such
    entry; otherwise one [moderate] signal whose quarters are the periods
    of that run followed by the period of the [DECREASE], and whose
    detail counts the run.  The guard on histories shorter than three
    entries changes nothing, such a history having no such entry. *)
Theorem build_then_trim_at_first_trim (cusip_to_name : Py.dict string)
    (cusip : string) (history : list HistEntry) :
  (build_trim_signal cusip_to_name (cusip, history) = []
   /\ no_trim_in [] history)
  \/ (exists pre e post,
        history = pre ++ e :: post
        /\ trims_build pre e
        /\ no_trim_in [] pre
        /\ build_trim_signal cusip_to_name (cusip, history)
           = [trim_signal (get_default cusip cusip_to_name cusip) pre e]).
Proof.
  unfold build_trim_signal.
  destruct (build_trim_scan_from (get_default cusip cusip_to_name cusip)
              history [] false) as [[Hnil Hno] | (pre & e & post & E & Ht & Hf & Hsig)].
  - cbn. lia.
  - left. split; [| exact Hno].
    destruct (List.length history <? 3)%nat; [reflexivity | exact Hnil].
  - right. exists pre, e, post. cbn [app] in *.
    split; [exact E |]. split; [exact Ht |]. split; [exact Hf |].
    destruct (Nat.ltb_spec (List.length history) 3) as [Hlt | _]; [| exact Hsig].
    exfalso. destruct Ht as [_ Hlen].
    pose proof (trailing_run_length pre) as Hle.
    rewrite E, length_app in Hlt. cbn [List.length] in Hlt. lia.
Qed.

(** ** One-quarter probe *)

Lemma probe_lookahead_two (name : string) (opened : HistEntry)
    (following : list HistEntry) (s : Signal) :
  In s (probe_lookahead name (entry_period opened) (Py.take 2 following) 1)
  <-> closes_within_two name opened following s.
Proof.
  unfold closes_within_two, Py.take, probe_of.
  destruct following as [| a [| b rest]]; cbn [firstn probe_lookahead].
  - split; [intros [] |].
    intros [(x & r & E & _) | (y & x & r & E & _)]; discriminate E.
  - destruct (change_type_eqb (entry_change a) EXIT) eqn:Ea.
    + apply change_type_eqb_eq in Ea. split.
      * intros [<- | []]. left. exists a, []. now repeat split.
      * intros [(x & r & E & _ & ->) | (y & x & r & E & _)]; [| discriminate E].
        injection E as <- _. now left.
    + split; [intros [] |].
      intros [(x & r & E & Hx & _) | (y & x & r & E & _)]; [| discriminate E].
      injection E as <- _. apply change_type_eqb_eq in Hx. congruence.
  - destruct (change_type_eqb (entry_change a) EXIT) eqn:Ea.
    + apply change_type_eqb_eq in Ea. split.
      * intros [<- | []]. left. exists a, (b :: rest). now repeat split.
      * intros [(x & r & E & _ & ->) | (y & x & r & E & Hy & _)].
        -- injection E as <- _. now left.
        -- injection E as <- _ _. contradiction.
    + assert (Ha : entry_change a <> EXIT).
      { intros E. apply change_type_eqb_eq in E. congruence. }
      destruct (change_type_eqb (entry_change b) EXIT) eqn:Eb.
      * apply change_type_eqb_eq in Eb. split.
        -- intros [<- | []]. right. exists a, b, rest. now repeat split.
        -- intros [(x & r & E & Hx & _) | (y & x & r & E & _ & _ & ->)].
           ++ injection E as <- _. contradiction.
           ++ injection E as <- <- _. now left.
      * split; [intros [] |].
        intros [(x & r & E & Hx & _) | (y & x & r & E & _ & Hx & _)].
        -- injection E as <- _. contradiction.
        -- injection E as _ <- _. apply change_type_eqb_eq in Hx. congruence.
Qed.

Lemma probe_lookahead_short (name start : string) (following : list HistEntry) :
  forall offset,
    (List.length (probe_lookahead name start following offset) <= 1)%nat.
Proof.
  induction following as [| e rest IH]; intros offset; cbn [probe_lookahead].
  - cbn. lia.
  - destruct (change_type_eqb (entry_change e) EXIT); [cbn; lia | apply IH].
Qed.

Lemma probe_scan_In (name : string) (history : list HistEntry) (s : Signal) :
  In s (probe_scan name history)
  <-> exists pre e following,
        history = pre ++ e :: following
        /\ entry_change e = NEW
        /\ closes_within_two name e following s.
Proof.
  induction history as [| e0 rest IH]; cbn [probe_scan].
  - split; [intros [] |]. intros (pre & e & f & E & _). now destruct pre.
  - rewrite in_app_iff, IH. split.
    + intros [H | (pre & e & f & E & HN & Hc)].
      * destruct (change_type_eqb (entry_change e0) NEW) eqn:E0; [| destruct H].
        apply change_type_eqb_eq in E0. apply probe_lookahead_two in H.
        now exists [], e0, rest.
      * exists (e0 :: pre), e, f. rewrite E. now repeat split.
    + intros (pre & e & f & E & HN & Hc). destruct pre as [| x pre'].
      * cbn in E. injection E as <- <-. left.
        apply change_type_eqb_eq in HN. rewrite HN.
        now apply probe_lookahead_two.
      * cbn in E. injection E as <- E. right. now exists pre', e, f.
Qed.

(** X12: the one-quarter-probe detector emits a signal exactly for each
    [NEW] entry of a history that is followed by an [EXIT] entry at the
    next place (held 2 quarters), or at the second next place when the
    next entry is no [EXIT] (held 3 quarters); the signal is [weak] and
    its quarters are the periods of the opening and of the closing entry.
    A history yields at most one such signal per [NEW] entry. *)
Theorem one_quarter_probe_iff (cusip_to_name : Py.dict string)
    (cusip : string) (history : list HistEntry) :
  (forall s,
     In s (probe_signal cusip_to_name (cusip, history))
     <-> exists pre e following,
           history = pre ++ e :: following
           /\ entry_change e = NEW
           /\ closes_within_two (get_default cusip cusip_to_name cusip)
                e following s)
  /\ (List.length (probe_signal cusip_to_name (cusip, history))
      <= List.length (filter is_new history))%nat.
Proof.
  unfold probe_signal.
  set (name := get_default cusip cusip_to_name cusip). clearbody name.
  split.
  - intros s. apply probe_scan_In.
  - induction history as [| e0 rest IH]; cbn [probe_scan filter].
    + cbn. lia.
    + rewrite length_app. unfold is_new at 1.
      destruct (change_type_eqb (entry_change e0) NEW).
      * pose proof (probe_lookahead_short name (entry_period e0)
                      (Py.take 2 rest) 1) as Hs.
        cbn [List.length]. lia.
      * cbn [List.length]. lia.
Qed.

(** ** The kinds of signal in the output *)

Lemma build_trim_signal_type (cusip_to_name : Py.dict string)
    (item : string * list HistEntry) (s : Signal) :
  In s (build_trim_signal cusip_to_name item) -> signal_type s = build_then_trim.
Proof.
  destruct item as [cusip history]. unfold build_trim_signal.
  destruct (List.length history <? 3)%nat; [intros [] |].
  apply build_trim_scan_type.
Qed.

Lemma probe_signal_type (cusip_to_name : Py.dict string)
    (item : string * list HistEntry) (s : Signal) :
  In s (probe_signal cusip_to_name item) -> signal_type s = one_quarter_probe.
Proof. destruct item as [cusip history]. apply probe_scan_type. Qed.

Lemma flat_map_type {A : Type} (f : A -> list Signal) (t : SignalType)
    (l : list A) :
  (forall a s, In s (f a) -> signal_type s = t) ->
  forall s, In s (flat_map f l) -> signal_type s = t.
Proof.
  intros H s Hs. apply in_flat_map in Hs as (a & _ & Hs). exact (H a s Hs).
Qed.

Lemma filter_of_type (t t' : SignalType) (l : list Signal) :
  (forall s, In s l -> signal_type s = t') ->
  filter (has_signal_type t) l = if signal_type_eqb t' t then l else [].
Proof.
  intros H. destruct (signal_type_eqb t' t) eqn:E.
  - apply filter_all. intros s Hs. unfold has_signal_type. now rewrite (H s Hs).
  - apply filter_none. intros s Hs. unfold has_signal_type. now rewrite (H s Hs).
Qed.

Lemma emitted_signals_by_kind (assign_cluster : string -> string)
    (diffs : list QuarterDiff) (t : SignalType) :
  filter (has_signal_type t) (emitted_signals assign_cluster diffs)
  = emitted_of_kind assign_cluster diffs t.
Proof.
  unfold emitted_signals, emitted_of_kind. rewrite !filter_app.
  rewrite (filter_of_type t consistent_accumulator)
    by (apply flat_map_type, accumulator_signal_type).
  rewrite (filter_of_type t build_then_trim)
    by (apply flat_map_type, build_trim_signal_type).
  rewrite (filter_of_type t one_quarter_probe)
    by (apply flat_map_type, probe_signal_type).
  rewrite (filter_of_type t concentration_shift)
    by (apply concentration_signal_type).
  rewrite (filter_of_type t theme_emergence)
    by (apply flat_map_type, theme_signals_type).
  destruct t; cbn [signal_type_eqb app]; now rewrite ?app_nil_r.
Qed.

Lemma detect_signals_by_kind (assign_cluster : string -> string)
    (diffs : list QuarterDiff) (t : SignalType) :
  Permutation (filter (has_signal_type t) (detect_signals assign_cluster diffs))
              (emitted_of_kind assign_cluster diffs t).
Proof.
  rewrite detect_signals_sorts, <- emitted_signals_by_kind.
  apply filter_perm, sorted_by_perm.
Qed.

(** X13: whatever the list of diffs, the signals of each kind that
    [detect_signals] returns are those its detector emitted, each as often
    as emitted (the final sort loses and repeats nothing); every returned
    signal is of one of the five kinds, so the returned list has as many
    signals as the five detectors emitted together. *)
Theorem each_kind_comes_from_its_detector (assign_cluster : string -> string)
    (diffs : list QuarterDiff) :
  (forall t,
     Permutation
       (filter (has_signal_type t) (detect_signals assign_cluster diffs))
       (emitted_of_kind assign_cluster diffs t))
  /\ List.length (detect_signals assign_cluster diffs)
     = (List.length (emitted_of_kind assign_cluster diffs consistent_accumulator)
        + List.length (emitted_of_kind assign_cluster diffs build_then_trim)
        + List.length (emitted_of_kind assign_cluster diffs one_quarter_probe)
        + List.length (emitted_of_kind assign_cluster diffs concentration_shift)
        + List.length (emitted_of_kind assign_cluster diffs theme_emergence))%nat.
Proof.
  split; [intros t; apply detect_signals_by_kind |].
  rewrite detect_signals_sorts.
  rewrite (Permutation_length (sorted_by_perm _ _)).
  unfold emitted_signals, emitted_of_kind. rewrite !length_app. lia.
Qed.

(** ** Concentration shift *)



(** ** Theme emergence *)

Lemma In_get {V : Type} (k : string) (v : V) (d : Py.dict V) :
  NoDup (Py.keys d) -> (In (k, v) d <-> Py.get k d = Some v).
Proof.
  induction d as [| [k' v'] d IH]; intros Hnd; cbn [Py.get In].
  - split; [intros [] | discriminate].
  - cbn [Py.keys map fst] in Hnd. apply NoDup_cons_iff in Hnd as [Hk Hnd].
    destruct (String.eqb_spec k k') as [-> | Hne].
    + split.
      * intros [E | Hin]; [now injection E as -> |].
        exfalso. apply Hk. unfold Py.keys. apply in_map_iff. now exists (k', v).
      * intros E. injection E as ->. now left.
    + rewrite <- (IH Hnd). split.
      * intros [E | Hin]; [injection E as -> _; contradiction | exact Hin].
      * now right.
Qed.

Section Themes.
Variable assign_cluster : string -> string.

Let file (cs : Py.dict (list string)) (name : string) :=
  cluster_append assign_cluster name cs.

Lemma get_cluster_append (k name : string) (cs : Py.dict (list string)) :
  k <> "Other" ->
  Py.get k (cluster_append assign_cluster name cs)
  = if String.eqb (assign_cluster name) k
    then Some (match Py.get k cs with Some l => l ++ [name] | None => [name] end)
    else Py.get k cs.
Proof.
  intros Hk. unfold cluster_append.
  destruct (String.eqb_spec (assign_cluster name) k) as [E | Hne].
  - rewrite E. destruct (String.eqb_spec k "Other") as [| _]; [contradiction |].
    cbn [negb]. destruct (Py.get k cs); now rewrite get_set_same.
  - destruct (negb (assign_cluster name =? "Other")%string); [| reflexivity].
    destruct (Py.get (assign_cluster name) cs);
      rewrite get_set_other; congruence.
Qed.

Lemma get_Other_cluster_append (name : string) (cs : Py.dict (list string)) :
  Py.get "Other" (cluster_append assign_cluster name cs) = Py.get "Other" cs.
Proof.
  unfold cluster_append.
  destruct (String.eqb_spec (assign_cluster name) "Other") as [E | Hne];
    [reflexivity |].
  cbn [negb]. destruct (Py.get (assign_cluster name) cs);
    rewrite get_set_other; congruence.
Qed.

Lemma get_fold_clusters (names : list string) :
  forall (cs : Py.dict (list string)) (k : string),
    k <> "Other" ->
    Py.get k (fold_left file names cs)
    = match Py.get k cs,
            filter (fun name => String.eqb (assign_cluster name) k) names with
      | None, [] => None
      | None, l => Some l
      | Some l0, l => Some (l0 ++ l)
      end.
Proof.
  induction names as [| name names IH]; intros cs k Hk.
  - simpl. destruct (Py.get k cs); [now rewrite app_nil_r | reflexivity].
  - cbn [fold_left]. rewrite (IH _ k Hk). unfold file.
    rewrite (get_cluster_append k name cs Hk). cbn [filter].
    destruct (String.eqb (assign_cluster name) k).
    + destruct (Py.get k cs); [now rewrite <- app_assoc | reflexivity].
    + reflexivity.
Qed.

Lemma get_Other_fold_clusters (names : list string) :
  forall cs, Py.get "Other" (fold_left file names cs) = Py.get "Other" cs.
Proof.
  induction names as [| name names IH]; intros cs; [reflexivity |].
  cbn [fold_left]. rewrite IH. apply get_Other_cluster_append.
Qed.

Lemma fold_clusters_NoDup (names : list string) :
  forall cs, NoDup (Py.keys cs) -> NoDup (Py.keys (fold_left file names cs)).
Proof.
  induction names as [| name names IH]; intros cs H; simpl; [exact H |].
  apply IH. unfold file, cluster_append.
  destruct (negb _); [| exact H].
  destruct (Py.get _ cs); now apply NoDup_keys_set.
Qed.

Lemma theme_signals_groups (diff : QuarterDiff) :
  exists cs : Py.dict (list string),
    NoDup (Py.keys cs)
    /\ (forall k l, In (k, l) cs
                    <-> k <> "Other" /\ l <> []
                        /\ l = starters_in assign_cluster k diff)
    /\ theme_signals assign_cluster diff
       = flat_map (fun item : string * list string =>
                     if (3 <=? List.length (snd item))%nat
                     then [theme_of (fst item) (snd item) diff] else [])
                  cs.
Proof.
  exists (fold_left file (map issuer_name (new_starters diff)) []).
  assert (Hnd : NoDup (Py.keys (fold_left file (map issuer_name (new_starters diff)) [])))
    by (apply fold_clusters_NoDup; constructor).
  split; [exact Hnd |]. split.
  - intros k l. rewrite (In_get k l _ Hnd).
    destruct (String.eqb_spec k "Other") as [-> | Hk].
    + rewrite get_Other_fold_clusters. cbn [Py.get]. split; [discriminate |].
      now intros [H _].
    + rewrite (get_fold_clusters _ [] k Hk). cbn [Py.get].
      unfold starters_in.
      destruct (filter _ (map issuer_name (new_starters diff))) as [| n ns].
      * split; [discriminate |]. intros (_ & H & E). now subst l.
      * split.
        -- intros E. injection E as <-. repeat split; [exact Hk | discriminate].
        -- intros (_ & _ & ->). reflexivity.
  - unfold theme_signals. unfold file. rewrite <- fold_left_map.
    apply flat_map_ext. intros [cluster starters]. reflexivity.
Qed.

End Themes.

Lemma flat_map_keyed_NoDup (diff : QuarterDiff) (cs : Py.dict (list string)) :
  NoDup (Py.keys cs) ->
  NoDup (flat_map (fun item : string * list string =>
                     if (3 <=? List.length (snd item))%nat
                     then [theme_of (fst item) (snd item) diff] else [])
                  cs).
Proof.
  induction cs as [| [k l] cs IH]; intros Hnd; cbn [flat_map]; [constructor |].
  cbn [Py.keys map fst] in Hnd. apply NoDup_cons_iff in Hnd as [Hk Hnd].
  cbn [fst snd]. destruct (3 <=? List.length l)%nat; [| now apply IH].
  cbn [app]. constructor; [| now apply IH].
  intros Hin. apply in_flat_map in Hin as ([k' l'] & Hin & Hs).
  cbn [fst snd] in Hs. destruct (3 <=? List.length l')%nat; [| contradiction].
  destruct Hs as [E | []]. apply (f_equal details) in E.
  cbn [details theme_of] in E. injection E as E _.
  apply Hk. unfold Py.keys. apply in_map_iff. exists (k', l'). now split.
Qed.

(** X15: for one diff, the theme-emergence detector groups the issuer
    names of the new starters by the cluster [assign_cluster] gives them,
    leaving out the cluster "Other", and emits a signal exactly for each
    cluster with at least three such names: its holdings are all the new
    starters of that cluster in their order in [new_starters], its quarter
    is the end period of the diff, it counts them, and it is [moderate]
    for three or four names and [strong] from five on.  No cluster gives
    two signals. *)
Theorem theme_emergence_groups_new_starters (assign_cluster : string -> string)
    (diff : QuarterDiff) :
  (forall s,
     In s (theme_signals assign_cluster diff)
     <-> exists cluster,
           cluster <> "Other"
           /\ (3 <= List.length (starters_in assign_cluster cluster diff))%nat
           /\ s = theme_of cluster (starters_in assign_cluster cluster diff) diff)
  /\ NoDup (theme_signals assign_cluster diff)
  /\ (forall s,
        In s (theme_signals assign_cluster diff) ->
        (strength s = strong <-> (5 <= List.length (holdings s))%nat)
        /\ (strength s = moderate <-> (List.length (holdings s) < 5)%nat)).
Proof.
  destruct (theme_signals_groups assign_cluster diff) as (cs & Hnd & Hcs & ->).
  assert (Hiff : forall s,
             In s (flat_map (fun item : string * list string =>
                     if (3 <=? List.length (snd item))%nat
                     then [theme_of (fst item) (snd item) diff] else []) cs)
             <-> exists cluster,
                   cluster <> "Other"
                   /\ (3 <= List.length (starters_in assign_cluster cluster diff))%nat
                   /\ s = theme_of cluster
                            (starters_in assign_cluster cluster diff) diff).
  { intros s. rewrite in_flat_map. split.
    - intros ([k l] & Hin & Hs). cbn [fst snd] in Hs.
      apply Hcs in Hin as (Hk & _ & ->).
      destruct (Nat.leb_spec 3 (List.length (starters_in assign_cluster k diff)))
        as [Hle | _]; [| contradiction].
      destruct Hs as [<- | []]. now exists k.
    - intros (k & Hk & Hle & ->).
      exists (k, starters_in assign_cluster k diff). split.
      + apply Hcs. repeat split; [exact Hk | ].
        intros E. rewrite E in Hle. cbn in Hle. lia.
      + cbn [fst snd]. apply Nat.leb_le in Hle. rewrite Hle. now left. }
  split; [exact Hiff |]. split; [now apply flat_map_keyed_NoDup |].
  intros s Hs. apply Hiff in Hs as (k & _ & _ & ->).
  unfold theme_of. cbn [strength holdings].
  destruct (Nat.ltb_spec (List.length (starters_in assign_cluster k diff)) 5);
    split; split; intros H'; try reflexivity; try discriminate H'; lia.
Qed.

(** ** How many diffs a signal needs *)

Lemma filter_key_short {A : Type} (f : A -> string) (k : string) (l : list A) :
  NoDup (map f l) ->
  (List.length (filter (fun x => String.eqb k (f x)) l) <= 1)%nat.
Proof.
  induction l as [| x l IH]; cbn [map filter]; intros Hnd; [cbn; lia |].
  apply NoDup_cons_iff in Hnd as [Hx Hnd].
  destruct (String.eqb_spec k (f x)) as [-> | _]; [| now apply IH].
  rewrite filter_none; [cbn; lia |].
  intros y Hy. destruct (String.eqb_spec (f x) (f y)) as [E | _]; [| reflexivity].
  exfalso. apply Hx. rewrite E. now apply in_map.
Qed.

Lemma filter_of_map {A B : Type} (p : B -> bool) (g : A -> B) (l : list A) :
  filter p (map g l) = map g (filter (fun x => p (g x)) l).
Proof.
  induction l as [| x l IH]; cbn [map filter]; [reflexivity |].
  destruct (p (g x)); cbn [map]; now rewrite IH.
Qed.

Lemma entries_of_app (k : string) (a b : list (string * HistEntry)) :
  entries_of k (a ++ b) = entries_of k a ++ entries_of k b.
Proof. unfold entries_of. now rewrite filter_app, map_app. Qed.

Lemma entries_per_diff (k : string) (l : list QuarterDiff) :
  (forall diff, In diff l -> NoDup (map cusip (all_positions diff))) ->
  (List.length
     (entries_of k
        (flat_map
           (fun diff =>
              map (fun pos => (cusip pos, history_entry diff pos))
                  (all_positions diff)) l))
   <= List.length l)%nat.
Proof.
  induction l as [| d l IH]; intros H; [cbn; lia |].
  cbn [flat_map]. rewrite entries_of_app, length_app. cbn [List.length].
  specialize (IH (fun diff Hin => H diff (or_intror Hin))).
  assert (Hd : (List.length
                  (entries_of k
                     (map (fun pos => (cusip pos, history_entry d pos))
                          (all_positions d))) <= 1)%nat).
  { unfold entries_of. rewrite length_map, filter_of_map, length_map.
    exact (filter_key_short cusip k (all_positions d) (H d (or_introl eq_refl))). }
  lia.
Qed.

Lemma history_length (diffs : list QuarterDiff) (k : string)
    (h : list HistEntry) :
  (forall diff, In diff diffs -> NoDup (map cusip (all_positions diff))) ->
  In (k, h) (build_position_history diffs) ->
  (List.length h <= List.length diffs)%nat.
Proof.
  intros H Hin.
  assert (Hnd : NoDup (Py.keys (build_position_history diffs))).
  { rewrite history_of_visits. apply fold_visits_NoDup. constructor. }
  apply (In_get k h _ Hnd) in Hin.
  rewrite history_of_visits, get_fold_visits in Hin. cbn [Py.get] in Hin.
  assert (Hlen : (List.length (entries_of k (visited diffs))
                  <= List.length diffs)%nat).
  { unfold visited. rewrite <- (length_rev diffs). apply entries_per_diff.
    intros diff Hd. apply H. now apply in_rev. }
  destruct (entries_of k (visited diffs)) as [| e l]; [discriminate Hin |].
  injection Hin as <-. exact Hlen.
Qed.

Lemma has_run_length (n : nat) (h : list HistEntry) :
  has_run n h -> (n <= List.length h)%nat.
Proof.
  intros (pre & run & post & -> & <- & _). rewrite !length_app. lia.
Qed.

(** X16: when no diff lists a security identifier twice, every signal
    that [detect_signals] returns needs enough diffs: a consistent
    accumulator reports between three and as many consecutive increases
    as there are diffs, a build-then-trim between two and fewer build
    quarters than there are diffs, a one-quarter probe two or three
    quarters held and at most as many as there are diffs, a concentration
    shift needs two diffs and a theme one.  So fewer than three diffs
    give no accumulator and no build-then-trim signal. *)
Theorem signals_need_enough_diffs (assign_cluster : string -> string)
    (diffs : list QuarterDiff) :
  (forall diff, In diff diffs -> NoDup (map cusip (all_positions diff))) ->
  forall s,
    In s (detect_signals assign_cluster diffs) ->
    match signal_type s with
    | consistent_accumulator =>
        exists n, details s = ConsecutiveIncreases n
                  /\ (3 <= n <= List.length diffs)%nat
    | build_then_trim =>
        exists n, details s = BuildQuarters n
                  /\ (2 <= n < List.length diffs)%nat
    | one_quarter_probe =>
        exists n, details s = QuartersHeld n
                  /\ (2 <= n <= 3)%nat /\ (n <= List.length diffs)%nat
    | concentration_shift => (2 <= List.length diffs)%nat
    | theme_emergence => (1 <= List.length diffs)%nat
    end.
Proof.
  intros H s Hs. apply detect_signals_In in Hs. unfold emitted_signals in Hs.
  rewrite !in_app_iff in Hs.
  destruct Hs as [Hs | [Hs | [Hs | [Hs | Hs]]]].
  - apply in_flat_map in Hs as ([k h] & Hin & Hs).
    pose proof (history_length diffs k h H Hin) as Hlen.
    destruct (accumulator_signal_spec (build_cusip_to_name diffs) k h)
      as (n & [Hrun _] & E).
    rewrite E in Hs. apply has_run_length in Hrun.
    destruct (Nat.leb_spec 3 n) as [H3 | _]; [| contradiction].
    destruct Hs as [<- | []]. cbn. exists n. split; [reflexivity | lia].
  - apply in_flat_map in Hs as ([k h] & Hin & Hs).
    pose proof (history_length diffs k h H Hin) as Hlen.
    unfold build_trim_signal in Hs.
    destruct (List.length h <? 3)%nat; [contradiction |].
    destruct (build_trim_scan_from
                (get_default k (build_cusip_to_name diffs) k) h [] false)
      as [[Hnil _] | (pre & e & post & E & [_ Ht] & _ & Hsig)].
    + cbn. lia.
    + cbn [map trailing_run] in Hnil. cbn in Hnil. rewrite Hnil in Hs.
      contradiction.
    + cbn [app] in *. cbn in Hsig. rewrite Hsig in Hs.
      destruct Hs as [<- | []]. cbn.
      exists (List.length (trailing_run pre)). split; [reflexivity |].
      pose proof (trailing_run_length pre) as Hle.
      rewrite E, length_app in Hlen. cbn [List.length] in Hlen. lia.
  - apply in_flat_map in Hs as ([k h] & Hin & Hs).
    pose proof (history_length diffs k h H Hin) as Hlen.
    unfold probe_signal in Hs.
    apply probe_scan_In in Hs as (pre & e & f & E & _ & Hc).
    rewrite E, length_app in Hlen. cbn [List.length] in Hlen.
    destruct Hc as [(x & r & -> & _ & ->) | (y & x & r & -> & _ & _ & ->)];
      cbn [List.length] in Hlen; cbn.
    + exists 2%nat. split; [reflexivity | lia].
    + exists 3%nat. split; [reflexivity | lia].
  - rewrite (concentration_signal_type diffs s Hs).
    destruct diffs as [| a [| b rest]]; [contradiction | contradiction |].
    cbn [List.length]. lia.
  - apply in_flat_map in Hs as (d & Hd & Hs).
    rewrite (theme_signals_type assign_cluster d s Hs).
    destruct diffs; [contradiction | cbn [List.length]; lia].
Qed.

(** Four diffs of one position each: three increases, then a decrease. *)
Lemma signals_need_enough_diffs_on_one_position :
  let diffs :=
    returned (compute_all_diffs accumulate_then_trim 1 "Fund" default_config) in
  List.length diffs = 4%nat
  /\ forall s,
       In s (detect_signals no_cluster diffs) ->
       match signal_type s with
       | consistent_accumulator =>
           exists n, details s = ConsecutiveIncreases n
                     /\ (3 <= n <= List.length diffs)%nat
       | build_then_trim =>
           exists n, details s = BuildQuarters n
                     /\ (2 <= n < List.length diffs)%nat
       | one_quarter_probe =>
           exists n, details s = QuartersHeld n
                     /\ (2 <= n <= 3)%nat /\ (n <= List.length diffs)%nat
       | concentration_shift => (2 <= List.length diffs)%nat
       | theme_emergence => (1 <= List.length diffs)%nat
       end.
Proof.
  split; [reflexivity |].
  apply (signals_need_enough_diffs no_cluster
           (returned (compute_all_diffs accumulate_then_trim 1 "Fund"
                        default_config))).
  intros diff Hin. vm_compute in Hin.
  destruct Hin as [<- | [<- | [<- | [<- | []]]]];
    vm_compute; (constructor; [intros [] | constructor]).
Defined.

(** * Starter-to-scale *)

Section FirstWins.
Context {A V : Type} (key : A -> string) (val : A -> V).

Let file (d : Py.dict V) (x : A) : Py.dict V :=
  if negb (Py.mem (key x) d) then Py.set (key x) (val x) d else d.

Lemma first_wins_get (l : list A) :
  forall d0 k,
    Py.get k (fold_left file l d0)
    = match Py.get k d0 with
      | Some v => Some v
      | None => option_map val (find (fun x => String.eqb (key x) k) l)
      end.
Proof.
  induction l as [| x l IH]; intros d0 k.
  - cbn. now destruct (Py.get k d0).
  - cbn [fold_left find]. rewrite IH. unfold file, Py.mem.
    destruct (Py.get (key x) d0) eqn:E; cbn [negb].
    + destruct (String.eqb_spec (key x) k) as [<- | _]; [now rewrite E |].
      reflexivity.
    + destruct (String.eqb_spec (key x) k) as [<- | Hne].
      * now rewrite get_set_same, E.
      * rewrite get_set_other by congruence. reflexivity.
Qed.

Lemma first_wins_NoDup (l : list A) :
  forall d0, NoDup (Py.keys d0) -> NoDup (Py.keys (fold_left file l d0)).
Proof.
  induction l as [| x l IH]; intros d0 H; [exact H |].
  cbn [fold_left]. apply IH. unfold file.
  destruct (negb _); [now apply NoDup_keys_set | exact H].
Qed.

End FirstWins.

Lemma last_wins_get {A : Type} (key : A -> string) (l : list A) :
  forall d0 k,
    Py.get k (fold_left (fun d x => Py.set (key x) x d) l d0)
    = match find (fun x => String.eqb (key x) k) (rev l) with
      | Some x => Some x
      | None => Py.get k d0
      end.
Proof.
  induction l as [| x l IH]; intros d0 k; [reflexivity |].
  cbn [fold_left rev]. rewrite IH, find_over_app.
  destruct (find _ (rev l)); [reflexivity |].
  cbn [find]. destruct (String.eqb_spec (key x) k) as [<- | Hne].
  - apply get_set_same.
  - apply get_set_other. congruence.
Qed.

Lemma starter_positions_of_visits (diffs : list QuarterDiff) :
  build_starter_positions diffs
  = fold_left
      (fun d v =>
         if negb (Py.mem (cusip (snd v)) d)
         then Py.set (cusip (snd v)) (start_info v) d else d)
      (starter_visits diffs) [].
Proof.
  unfold build_starter_positions, starter_visits.
  rewrite <- (fold_left_flat_map
                (fun d (v : QuarterDiff * PositionDiff) =>
                   if negb (Py.mem (cusip (snd v)) d)
                   then Py.set (cusip (snd v)) (start_info v) d else d)).
  apply fold_left_ext_fun. intros acc diff.
  now rewrite <- (fold_left_map
                    (fun d (v : QuarterDiff * PositionDiff) =>
                       if negb (Py.mem (cusip (snd v)) d)
                       then Py.set (cusip (snd v)) (start_info v) d else d)).
Qed.

Lemma starter_positions_In (diffs : list QuarterDiff) (k : string)
    (info : StarterInfo) :
  In (k, info) (build_starter_positions diffs)
  <-> exists v, first_start k diffs = Some v /\ info = start_info v.
Proof.
  assert (Hnd : NoDup (Py.keys (build_starter_positions diffs))).
  { rewrite starter_positions_of_visits.
    apply (first_wins_NoDup (fun v => cusip (snd v)) start_info). constructor. }
  rewrite (In_get k info _ Hnd), starter_positions_of_visits.
  rewrite (first_wins_get (fun v => cusip (snd v)) start_info). cbn [Py.get].
  unfold first_start. destruct (find _ (starter_visits diffs)) as [v |]; cbn.
  - split.
    + intros E. injection E as <-. now exists v.
    + intros (v' & E & ->). now injection E as ->.
  - split; [discriminate |]. intros (v' & E & _). discriminate E.
Qed.

Lemma has_scaled_iff (current : PositionDiff) :
  Py.Qltb (5 # 1000) (Py.or0Q (now_weight current))
  || (Py.or0 (now_value_usd current) >? 20000000) = true
  <-> has_scaled current.
Proof.
  unfold has_scaled. rewrite orb_true_iff, Qltb_true, Z.gtb_lt. reflexivity.
Qed.

Lemma scaled_position_Ok (all_current : Py.dict PositionDiff) (k : string)
    (info : StarterInfo) :
  exists l,
    scaled_position all_current (k, info) = Py.Ok l
    /\ (List.length l <= 1)%nat
    /\ forall sp,
         In sp l <-> exists current,
                       Py.get k all_current = Some current
                       /\ has_scaled current
                       /\ sp = scaled_of k info current.
Proof.
  destruct info as [[[name period] value] weight]. unfold scaled_position.
  destruct (Py.get k all_current) as [current |].
  2:{ exists []. split; [reflexivity |]. split; [cbn; lia |].
      intros sp. split; [intros [] |]. intros (c & E & _). discriminate E. }
  pose proof (has_scaled_iff current) as Hs.
  destruct (Py.Qltb (5 # 1000) (Py.or0Q (now_weight current))
            || (Py.or0 (now_value_usd current) >? 20000000)).
  2:{ exists []. split; [reflexivity |]. split; [cbn; lia |].
      intros sp. split; [intros [] |]. intros (c & E & Hc & _).
      injection E as <-. apply Hs in Hc. discriminate Hc. }
  exists [scaled_of k (name, period, value, weight) current]. split.
  - unfold scaled_of. destruct (Z.gtb_spec value 0) as [Hpos | _].
    + rewrite truediv_Ok by lia. reflexivity.
    + reflexivity.
  - split; [cbn; lia |]. intros sp. split.
    + intros [<- | []]. exists current. split; [reflexivity |].
      split; [now apply Hs | reflexivity].
    + intros (c & E & _ & ->). injection E as <-. now left.
Qed.

Lemma scaled_of_cusip (k : string) (info : StarterInfo) (current : PositionDiff) :
  sp_cusip (scaled_of k info current) = k.
Proof. now destruct info as [[[name period] value] weight]. Qed.

Lemma scaled_positions_found (all_current : Py.dict PositionDiff)
    (starter_positions : Py.dict StarterInfo) :
  NoDup (Py.keys starter_positions) ->
  exists found,
    Py.mapM (scaled_position all_current) starter_positions = Py.Ok found
    /\ NoDup (map sp_cusip (List.concat found))
    /\ (forall sp, In sp (List.concat found) -> In (sp_cusip sp) (Py.keys starter_positions))
    /\ forall sp,
         In sp (List.concat found)
         <-> exists k info current,
               In (k, info) starter_positions
               /\ Py.get k all_current = Some current
               /\ has_scaled current
               /\ sp = scaled_of k info current.
Proof.
  induction starter_positions as [| [k info] rest IH]; intros Hnd.
  - exists []. split; [reflexivity |]. split; [constructor |].
    split; [intros sp [] |].
    intros sp. split; [intros [] |]. intros (k & i & c & [] & _).
  - cbn [Py.keys map fst] in Hnd. apply NoDup_cons_iff in Hnd as [Hk Hnd].
    destruct (IH Hnd) as (found & Hfound & Hnd' & Hkeys & Hiff).
    destruct (scaled_position_Ok all_current k info) as (l & Hl & Hlen & Hin).
    exists (l :: found). split.
    { cbn [Py.mapM]. rewrite Hl. cbn [Py.bind]. rewrite Hfound. reflexivity. }
    assert (Hcusip : forall sp, In sp l -> sp_cusip sp = k).
    { intros sp Hsp. apply Hin in Hsp as (c & _ & _ & ->). apply scaled_of_cusip. }
    cbn [List.concat]. split; [| split].
    + rewrite map_app. destruct l as [| sp [| sp' l']].
      * exact Hnd'.
      * cbn [map app]. constructor; [| exact Hnd'].
        rewrite (Hcusip sp (or_introl eq_refl)).
        intros Hc. apply in_map_iff in Hc as (sp' & E & Hsp').
        apply Hk. rewrite <- E. now apply Hkeys.
      * cbn [List.length] in Hlen. lia.
    + intros sp Hsp. apply in_app_iff in Hsp as [Hsp | Hsp].
      * left. symmetry. now apply Hcusip.
      * right. now apply Hkeys.
    + intros sp. rewrite in_app_iff, Hin, Hiff. split.
      * intros [(c & E & Hc & ->) | (k' & i & c & Hi & E & Hc & ->)].
        -- exists k, info, c. repeat split; auto. now left.
        -- exists k', i, c. repeat split; auto. now right.
      * intros (k' & i & c & [E0 | Hi] & E & Hc & ->).
        -- injection E0 as <- <-. left. now exists c.
        -- right. now exists k', i, c.
Qed.

Lemma growth_ltb_true (a b : Growth) :
  growth_ltb a b = true -> growth_le a b.
Proof.
  destruct a as [x |], b as [y |]; cbn; intros H; try exact I;
    try discriminate H.
  apply Qltb_true in H. now apply Qlt_le_weak.
Qed.

Lemma growth_ltb_false (a b : Growth) :
  growth_ltb a b = false -> growth_le b a.
Proof.
  destruct a as [x |], b as [y |]; cbn; intros H; try exact I;
    try discriminate H.
  now apply Qltb_false in H.
Qed.

Lemma growth_le_trans (a b c : Growth) :
  growth_le a b -> growth_le b c -> growth_le a c.
Proof.
  destruct a as [x |], b as [y |], c as [z |]; cbn; intros H1 H2;
    try exact I; try contradiction.
  now apply Qle_trans with y.
Qed.

(** X17: [detect_starter_to_scale] returns on every list of diffs (the
    division is guarded by [start_value > 0]).  It reports a security
    identifier exactly when there are at least two diffs, some diff lists
    it among its new starters, the latest (first) diff still holds it
    (as new, increased, decreased or unchanged), and that current position
    weighs more than 0.005 or is worth more than 20,000,000.  The entry
    takes name, period, value and weight from the oldest occurrence as a
    new starter and the current value and weight from the last current
    position with that identifier; its growth rate is the relative
    change, or infinity when the start value is 0.  No identifier is
    reported twice, and the entries are in descending order of growth
    rate. *)
Theorem starter_to_scale_report (diffs : list QuarterDiff) :
  exists scaled_positions,
    detect_starter_to_scale diffs = Py.Ok scaled_positions
    /\ NoDup (map sp_cusip scaled_positions)
    /\ StronglySorted
         (fun a b => growth_le (sp_growth_rate b) (sp_growth_rate a))
         scaled_positions
    /\ forall sp,
         In sp scaled_positions
         <-> (2 <= List.length diffs)%nat
             /\ exists k v current,
                  first_start k diffs = Some v
                  /\ current_of k diffs = Some current
                  /\ has_scaled current
                  /\ sp = scaled_of k (start_info v) current.
Proof.
  unfold detect_starter_to_scale.
  destruct (Nat.ltb_spec (List.length diffs) 2) as [Hlt | Hge].
  { exists []. split; [reflexivity |]. split; [constructor |].
    split; [constructor |]. intros sp. split; [intros [] |].
    intros [H _]. lia. }
  destruct diffs as [| latest_diff rest]; [cbn in Hge; lia |].
  set (diffs := latest_diff :: rest) in *.
  set (all_current :=
         fold_left (fun d pos => Py.set (cusip pos) pos d)
           (new_positions latest_diff ++ increased latest_diff
              ++ decreased latest_diff ++ unchanged latest_diff) []).
  assert (Hcur : forall k, Py.get k all_current = current_of k diffs).
  { intros k. unfold all_current. rewrite (last_wins_get cusip). cbn [Py.get].
    unfold diffs, current_of, current_positions.
    now destruct (find _ _). }
  assert (Hnd : NoDup (Py.keys (build_starter_positions diffs))).
  { rewrite starter_positions_of_visits.
    apply (first_wins_NoDup (fun v => cusip (snd v)) start_info). constructor. }
  destruct (scaled_positions_found all_current _ Hnd)
    as (found & Hfound & Hnd' & _ & Hiff).
  rewrite Hfound. cbn [Py.bind].
  eexists. split; [reflexivity |].
  split; [| split].
  - eapply Permutation_NoDup; [| exact Hnd'].
    apply Permutation_map, Permutation_sym, sorted_by_perm.
  - apply sorted_by_sorted.
    + intros y x H. now apply growth_ltb_true.
    + intros y x H. now apply growth_ltb_false.
    + intros a b c H1 H2. now apply growth_le_trans with (sp_growth_rate b).
  - intros sp. split.
    + intros Hin. split; [exact Hge |].
      apply (Permutation_in _ (sorted_by_perm _ _)) in Hin.
      apply Hiff in Hin as (k & info & c & Hi & E & Hc & ->).
      apply starter_positions_In in Hi as (v & Hv & ->).
      exists k, v, c. rewrite <- Hcur. auto.
    + intros (_ & k & v & c & Hv & E & Hc & ->).
      apply (Permutation_in _ (Permutation_sym (sorted_by_perm _ _))).
      apply Hiff. exists k, (start_info v), c. rewrite Hcur.
      repeat split; auto. apply starter_positions_In. now exists v.
Qed.

(** * Further instances *)

(** Two share classes of one security, replaced by two other positions:
    no side lists a matching key twice. *)
Lemma gross_adds_less_cuts_on_replaced_portfolio :
  exists qd,
    diff_of two_class_holdings zero_value_holdings = Py.Ok qd
    /\ 0 <= gross_adds_value qd
    /\ 0 <= gross_cuts_value qd
    /\ gross_adds_value qd - gross_cuts_value qd
       = total_portfolio_now qd - total_portfolio_prev qd.
Proof.
  apply (gross_adds_less_cuts_is_net_change
           (two_filings two_class_holdings zero_value_holdings) 1 "Fund"
           (filing 1 "2024-03-31") (filing 2 "2024-06-30") default_config).
  - vm_compute. constructor; [intros [E | []]; discriminate E |].
    constructor; [intros [] | constructor].
  - vm_compute. constructor; [intros [E | []]; discriminate E |].
    constructor; [intros [] | constructor].
Defined.

(** A first filing of two positions valued 100 and 50. *)
Lemma herfindahl_bounds_on_two_classes :
  exists qd,
    diff_of [] two_class_holdings = Py.Ok qd
    /\ (herfindahl_index qd <= 1)%Q
    /\ (1 <= inject_Z (position_count_now qd) * herfindahl_index qd)%Q
    /\ ((forall h h', In h two_class_holdings -> In h' two_class_holdings ->
         value_usd h = value_usd h') ->
        (inject_Z (position_count_now qd) * herfindahl_index qd == 1)%Q).
Proof.
  apply (herfindahl_bounds
           (two_filings [] two_class_holdings) 1 "Fund"
           (filing 1 "2024-03-31") (filing 2 "2024-06-30") default_config).
  - intros h Hin. simpl in Hin.
    destruct Hin as [<- | [<- | []]]; simpl; lia.
  - reflexivity.
Defined.

(** Two positions sold, two share classes of another security bought. *)
Lemma disjoint_sides_on_replaced_portfolio :
  exists qd,
    diff_of zero_value_holdings two_class_holdings = Py.Ok qd
    /\ increased qd = []
    /\ decreased qd = []
    /\ unchanged qd = []
    /\ (forall d, In d (all_positions qd) ->
          change_type d = NEW \/ change_type d = EXIT).
Proof.
  apply (disjoint_sides_only_new_and_exit
           (two_filings zero_value_holdings two_class_holdings) 1 "Fund"
           (filing 1 "2024-03-31") (filing 2 "2024-06-30") default_config).
  intros h h' Hin Hin'. simpl in Hin, Hin'.
  destruct Hin as [<- | [<- | []]], Hin' as [<- | [<- | []]];
    intros E; vm_compute in E; discriminate E.
Defined.

(** * Clustering *)

Lemma prefix_spec (k s : string) :
  String.prefix k s = true <-> exists b, s = (k ++ b)%string.
Proof.
  revert s. induction k as [| c k IH]; intros s; cbn [String.prefix].
  - split; [intros _; now exists s | intros _; now destruct s].
  - destruct s as [| c' s].
    + split; [discriminate |]. intros (b & E). discriminate E.
    + cbn [String.prefix]. destruct (Ascii.ascii_dec c c') as [-> | Hne].
      * rewrite IH. split.
        -- intros (b & ->). now exists b.
        -- intros (b & E). cbn in E. injection E as ->. now exists b.
      * split; [discriminate |]. intros (b & E). cbn in E.
        injection E as E _. congruence.
Qed.

Lemma string_app_assoc (a b c : string) :
  ((a ++ b) ++ c = a ++ (b ++ c))%string.
Proof. induction a as [| x a IH]; cbn; [reflexivity | now rewrite IH]. Qed.

Lemma contains_spec (k s : string) : contains k s = true <-> occurs_in k s.
Proof.
  unfold occurs_in. induction s as [| c s IH]; cbn [contains];
    rewrite orb_true_iff, prefix_spec.
  - split.
    + intros [(b & E) | H]; [| discriminate H]. now exists EmptyString, b.
    + intros (a & b & E). left. destruct a as [| x a]; [| discriminate E].
      now exists b.
  - rewrite IH. split.
    + intros [(b & E) | (a & b & ->)].
      * now exists EmptyString, b.
      * now exists (String c a), b.
    + intros (a & b & E). destruct a as [| x a].
      * left. now exists b.
      * right. cbn in E. injection E as _ ->. now exists a, b.
Qed.

Lemma occurs_in_middle (k s a b : string) :
  occurs_in k s -> occurs_in k (a ++ s ++ b)%string.
Proof.
  intros (x & y & ->). exists (a ++ x)%string, (y ++ b)%string.
  now rewrite !string_app_assoc.
Qed.

Lemma upper_app (a b : string) : upper (a ++ b) = (upper a ++ upper b)%string.
Proof. induction a as [| c a IH]; cbn; [reflexivity | now rewrite IH]. Qed.

Lemma upper_char_idem (c : ascii) : upper_char (upper_char c) = upper_char c.
Proof. destruct c as [[] [] [] [] [] [] [] []]; reflexivity. Qed.

Lemma upper_idem (s : string) : upper (upper s) = upper s.
Proof.
  induction s as [| c s IH]; cbn; [reflexivity |].
  now rewrite upper_char_idem, IH.
Qed.

Lemma find_first_split {A : Type} (p : A -> bool) (l : list A) (x : A) :
  find p l = Some x ->
  exists before after,
    l = before ++ x :: after
    /\ p x = true
    /\ forall y, In y before -> p y = false.
Proof.
  induction l as [| a l IH]; cbn [find]; [discriminate |].
  destruct (p a) eqn:E.
  - intros H. injection H as <-. exists [], l. now repeat split.
  - intros H. destruct (IH H) as (before & after & -> & Hx & Hb).
    exists (a :: before), after. repeat split; auto.
    intros y [<- | Hy]; auto.
Qed.

Lemma keyword_match (table_entry : string * list string) (s : string) :
  existsb (fun keyword => contains keyword s) (snd table_entry) = true
  <-> exists keyword, In keyword (snd table_entry) /\ occurs_in keyword s.
Proof.
  rewrite existsb_exists. split; intros (k & Hk & H); exists k;
    (split; [exact Hk | now apply contains_spec]).
Qed.

Lemma keyword_no_match (table : Py.dict (list string)) (s : string) :
  (forall item, In item table ->
     existsb (fun keyword => contains keyword s) (snd item) = false)
  <-> no_keyword_of table s.
Proof.
  unfold no_keyword_of. split.
  - intros H c ks k Hin Hk Hocc.
    specialize (H (c, ks) Hin).
    assert (Ht : existsb (fun keyword => contains keyword s) (snd (c, ks)) = true).
    { apply keyword_match. now exists k. }
    congruence.
  - intros H [c ks] Hin. apply not_true_is_false. intros Ht.
    apply keyword_match in Ht as (k & Hk & Hocc). exact (H c ks k Hin Hk Hocc).
Qed.

Lemma Other_is_no_cluster (cluster : string) (keywords : list string) :
  In (cluster, keywords) CLUSTERS -> cluster <> "Other".
Proof.
  intros Hin.
  assert (H : forallb (fun item : string * list string =>
                         negb (String.eqb (fst item) "Other")) CLUSTERS = true)
    by reflexivity.
  rewrite forallb_forall in H. specialize (H _ Hin). cbn [fst] in H.
  intros ->. discriminate H.
Qed.

Lemma assign_cluster_Other (issuer_name : string) :
  assign_cluster issuer_name = "Other"
  <-> no_keyword_of CLUSTERS (upper issuer_name).
Proof.
  unfold assign_cluster. rewrite <- keyword_no_match.
  destruct (find _ CLUSTERS) as [[c ks] |] eqn:E.
  - apply find_some in E as [Hin Hm]. split.
    + intros ->. now apply Other_is_no_cluster in Hin.
    + intros H. rewrite (H _ Hin) in Hm. discriminate Hm.
  - split; [| reflexivity]. intros _ item Hin.
    exact (find_none _ _ E item Hin).
Qed.

(** X18: [assign_cluster] on an ASCII issuer name.  It answers "Other"
    exactly when no keyword of any cluster occurs in the upper-cased name;
    otherwise it answers the first cluster, in the order of [CLUSTERS],
    one of whose keywords occurs in the upper-cased name, earlier
    clusters having none.  The answer does not depend on the case of the
    letters of the name, and text put before or after a name that has a
    cluster never sends it to "Other". *)
Theorem assign_cluster_first_match (issuer_name : string) :
  is_ascii issuer_name = true ->
  (assign_cluster issuer_name = "Other"
   <-> no_keyword_of CLUSTERS (upper issuer_name))
  /\ (assign_cluster issuer_name <> "Other" ->
      exists before keywords after keyword,
        CLUSTERS = before ++ (assign_cluster issuer_name, keywords) :: after
        /\ In keyword keywords
        /\ occurs_in keyword (upper issuer_name)
        /\ no_keyword_of before (upper issuer_name))
  /\ assign_cluster (upper issuer_name) = assign_cluster issuer_name
  /\ (forall a b,
        is_ascii a = true -> is_ascii b = true ->
        assign_cluster issuer_name <> "Other" ->
        assign_cluster (a ++ issuer_name ++ b) <> "Other").
Proof.
  intros _. split; [apply assign_cluster_Other |].
  split; [| split].
  - unfold assign_cluster.
    destruct (find _ CLUSTERS) as [[c ks] |] eqn:E; [intros _ | congruence].
    apply find_first_split in E as (before & after & E & Hm & Hb).
    apply keyword_match in Hm as (k & Hk & Hocc). cbn [snd] in Hk.
    exists before, ks, after, k. repeat split; auto.
    now apply keyword_no_match.
  - unfold assign_cluster. now rewrite upper_idem.
  - intros a b _ _ Hc Ho. apply Hc. apply assign_cluster_Other.
    apply assign_cluster_Other in Ho.
    intros c ks k Hin Hk Hocc. apply (Ho c ks k Hin Hk).
    rewrite !upper_app. now apply occurs_in_middle.
Qed.

(** A name in mixed case, with a keyword of the first cluster. *)
Lemma assign_cluster_on_mixed_case :
  is_ascii "Nvidia Corp" = true
  /\ assign_cluster "Nvidia Corp" = "AI/Semiconductors"
  /\ assign_cluster (upper "Nvidia Corp") = assign_cluster "Nvidia Corp"
  /\ assign_cluster ("The " ++ "Nvidia Corp" ++ " (CALL)") <> "Other".
Proof.
  split; [reflexivity |]. split; [reflexivity |].
  destruct (assign_cluster_first_match "Nvidia Corp" eq_refl)
    as (_ & _ & Hcase & Hmid).
  split; [exact Hcase |].
  apply Hmid; [reflexivity | reflexivity |]. vm_compute. discriminate.
Defined.

(** ** Grouping by a key *)

Section Grouping.
Context {A : Type} (key : A -> string).

Let group_add (d : Py.dict (list A)) (x : A) : Py.dict (list A) :=
  match Py.get (key x) d with
  | None => Py.set (key x) [x] d
  | Some l => Py.set (key x) (l ++ [x]) d
  end.

Lemma get_group_add (k : string) (x : A) (d : Py.dict (list A)) :
  Py.get k (group_add d x)
  = if String.eqb (key x) k
    then Some (match Py.get k d with Some l => l ++ [x] | None => [x] end)
    else Py.get k d.
Proof.
  unfold group_add. destruct (String.eqb_spec (key x) k) as [<- | Hne].
  - destruct (Py.get (key x) d); now rewrite get_set_same.
  - destruct (Py.get (key x) d); rewrite get_set_other; congruence.
Qed.

Lemma get_group_fold (l : list A) :
  forall (d : Py.dict (list A)) (k : string),
    Py.get k (fold_left group_add l d)
    = match Py.get k d, filter (fun x => String.eqb (key x) k) l with
      | None, [] => None
      | None, m => Some m
      | Some l0, m => Some (l0 ++ m)
      end.
Proof.
  induction l as [| x l IH]; intros d k.
  - simpl. destruct (Py.get k d); [now rewrite app_nil_r | reflexivity].
  - cbn [fold_left filter]. rewrite IH, get_group_add.
    destruct (String.eqb (key x) k).
    + destruct (Py.get k d); [now rewrite <- app_assoc | reflexivity].
    + reflexivity.
Qed.

Lemma group_fold_NoDup (l : list A) :
  forall d, NoDup (Py.keys d) -> NoDup (Py.keys (fold_left group_add l d)).
Proof.
  induction l as [| x l IH]; intros d H; [exact H |].
  cbn [fold_left]. apply IH. unfold group_add.
  destruct (Py.get (key x) d); now apply NoDup_keys_set.
Qed.

Lemma set_extends_perm (k : string) (l0 : list A) (x : A) (d : Py.dict (list A)) :
  Py.get k d = Some l0 ->
  Permutation (List.concat (map snd (Py.set k (l0 ++ [x]) d)))
              (List.concat (map snd d) ++ [x]).
Proof.
  induction d as [| [k' v'] d IH]; cbn [Py.get Py.set]; [discriminate |].
  destruct (String.eqb_spec k k') as [-> | Hne]; intros E.
  - injection E as ->. cbn [map snd List.concat].
    rewrite <- !app_assoc. apply Permutation_app_head, Permutation_app_comm.
  - cbn [map snd List.concat]. rewrite <- app_assoc.
    apply Permutation_app_head. now apply IH.
Qed.

Lemma group_add_perm (x : A) (d : Py.dict (list A)) :
  Permutation (List.concat (map snd (group_add d x)))
              (List.concat (map snd d) ++ [x]).
Proof.
  unfold group_add. destruct (Py.get (key x) d) as [l0 |] eqn:E.
  - now apply set_extends_perm.
  - rewrite set_fresh.
    + rewrite map_app, concat_app. cbn. now rewrite ?app_nil_r.
    + rewrite get_In_keys. congruence.
Qed.

Lemma group_fold_perm (l : list A) :
  forall d,
    Permutation (List.concat (map snd (fold_left group_add l d)))
                (List.concat (map snd d) ++ l).
Proof.
  induction l as [| x l IH]; intros d.
  - cbn. now rewrite app_nil_r.
  - cbn [fold_left]. eapply Permutation_trans; [apply IH |].
    eapply Permutation_trans;
      [apply Permutation_app_tail, group_add_perm |].
    now rewrite <- app_assoc.
Qed.

End Grouping.

(** ** [cluster_holdings] and [summarize_clusters] *)

Lemma sorted_by_nil_iff {A : Type} (before : A -> A -> bool) (l : list A) :
  Py.sorted_by before l = [] <-> l = [].
Proof.
  split; [| now intros ->]. intros E.
  pose proof (sorted_by_perm before l) as HP. rewrite E in HP.
  now apply Permutation_nil in HP.
Qed.

Lemma grouped_holdings (holdings : list Holding) :
  let groups := fold_left cluster_add holdings [] in
  NoDup (Py.keys groups)
  /\ (forall c l, In (c, l) groups <-> l <> [] /\ l = holdings_in c holdings)
  /\ Permutation (List.concat (map snd groups)) holdings.
Proof.
  intros groups.
  assert (Hnd : NoDup (Py.keys groups)).
  { apply (group_fold_NoDup (fun h => assign_cluster (holding_name h))).
    constructor. }
  split; [exact Hnd |]. split.
  - intros c l. rewrite (In_get c l _ Hnd). unfold groups.
    rewrite (get_group_fold (fun h => assign_cluster (holding_name h))).
    cbn [Py.get]. fold (holdings_in c holdings).
    destruct (holdings_in c holdings) as [| h hs].
    + split; [discriminate |]. intros [H E]. now subst l.
    + split.
      * intros E. injection E as <-. split; [discriminate | reflexivity].
      * intros [_ ->]. reflexivity.
  - exact (group_fold_perm (fun h => assign_cluster (holding_name h)) holdings []).
Qed.

Lemma cluster_holdings_In (holdings : list Holding) (c : string)
    (l : list Holding) :
  In (c, l) (cluster_holdings holdings)
  <-> l <> [] /\ l = by_value_desc (holdings_in c holdings).
Proof.
  destruct (grouped_holdings holdings) as (_ & Hin & _).
  unfold cluster_holdings. rewrite in_map_iff. split.
  - intros ([c' l0] & E & H0). cbn [fst snd] in E. injection E as <- <-.
    apply Hin in H0 as [Hne ->]. split; [| reflexivity].
    intros E. apply sorted_by_nil_iff in E. contradiction.
  - intros [Hne ->]. exists (c, holdings_in c holdings). split; [reflexivity |].
    apply Hin. split; [| reflexivity].
    intros E. apply Hne. unfold by_value_desc. now rewrite E.
Qed.

Lemma cluster_holdings_keys (holdings : list Holding) :
  Py.keys (cluster_holdings holdings)
  = Py.keys (fold_left cluster_add holdings []).
Proof.
  unfold cluster_holdings, Py.keys. rewrite map_map. reflexivity.
Qed.

Lemma concat_sorted_perm {A : Type} (before : A -> A -> bool)
    (d : Py.dict (list A)) :
  Permutation
    (List.concat (map snd (map (fun item : string * list A =>
                                  (fst item, Py.sorted_by before (snd item))) d)))
    (List.concat (map snd d)).
Proof.
  induction d as [| [k l] d IH]; [constructor |].
  cbn [map snd fst List.concat].
  apply Permutation_app; [apply sorted_by_perm | exact IH].
Qed.

Lemma cluster_holdings_perm (holdings : list Holding) :
  Permutation (List.concat (map snd (cluster_holdings holdings))) holdings.
Proof.
  destruct (grouped_holdings holdings) as (_ & _ & HP).
  unfold cluster_holdings.
  eapply Permutation_trans; [apply concat_sorted_perm | exact HP].
Qed.

Lemma by_value_desc_sorted (l : list Holding) :
  StronglySorted (fun a b => holding_value b <= holding_value a)
                 (by_value_desc l).
Proof.
  unfold by_value_desc. apply sorted_by_sorted.
  - intros y x H. apply Z.ltb_lt in H. lia.
  - intros y x H. apply Z.ltb_ge in H. exact H.
  - intros a b c H1 H2. lia.
Qed.

(** X19: [cluster_holdings] on holdings with ASCII names.  It files
    every holding under the cluster [assign_cluster] gives its name
    ("Other" included): the dictionary has each cluster once, only
    clusters that have a holding, and under a cluster all the holdings
    of that cluster, sorted by value descending with equal values in
    their order of input; all lists together are a rearrangement of the
    input, so no holding is lost or filed twice. *)
Theorem cluster_holdings_groups_by_cluster (holdings : list Holding) :
  Forall (fun h => is_ascii (holding_name h) = true) holdings ->
  let clusters := cluster_holdings holdings in
  NoDup (Py.keys clusters)
  /\ (forall c l,
        In (c, l) clusters
        <-> l <> [] /\ l = by_value_desc (holdings_in c holdings))
  /\ (forall c l,
        In (c, l) clusters ->
        StronglySorted (fun a b => holding_value b <= holding_value a) l
        /\ forall h, In h l <-> In h holdings
                                /\ assign_cluster (holding_name h) = c)
  /\ Permutation (List.concat (map snd clusters)) holdings.
Proof.
  intros _ clusters. unfold clusters.
  split; [| split; [| split]].
  - rewrite cluster_holdings_keys. now destruct (grouped_holdings holdings).
  - apply cluster_holdings_In.
  - intros c l Hin. apply cluster_holdings_In in Hin as [_ ->].
    split; [apply by_value_desc_sorted |].
    intros h. unfold by_value_desc. split.
    + intros Hh. apply (Permutation_in _ (sorted_by_perm _ _)) in Hh.
      apply filter_In in Hh as [Hh Hc]. apply String.eqb_eq in Hc. now split.
    + intros [Hh Hc].
      apply (Permutation_in _ (Permutation_sym (sorted_by_perm _ _))).
      apply filter_In. split; [exact Hh | now apply String.eqb_eq].
  - apply cluster_holdings_perm.
Qed.

(** Three holdings, two of them of the first cluster. *)
Lemma cluster_holdings_on_three_holdings :
  let clusters := cluster_holdings three_holdings in
  NoDup (Py.keys clusters)
  /\ (forall c l,
        In (c, l) clusters
        <-> l <> [] /\ l = by_value_desc (holdings_in c three_holdings))
  /\ (forall c l,
        In (c, l) clusters ->
        StronglySorted (fun a b => holding_value b <= holding_value a) l
        /\ forall h, In h l <-> In h three_holdings
                                /\ assign_cluster (holding_name h) = c)
  /\ Permutation (List.concat (map snd clusters)) three_holdings.
Proof.
  apply (cluster_holdings_groups_by_cluster three_holdings).
  repeat constructor.
Defined.

Lemma sumZ_concat {A : Type} (f : A -> Z) (ls : list (list A)) :
  Py.sumZ (map f (List.concat ls))
  = Py.sumZ (map (fun l => Py.sumZ (map f l)) ls).
Proof.
  induction ls as [| l ls IH]; [reflexivity |].
  cbn [List.concat map]. now rewrite map_app, sumZ_app, sumZ_cons, IH.
Qed.

Lemma sumQ_app (l l' : list Q) :
  (Py.sumQ (l ++ l') == Py.sumQ l + Py.sumQ l')%Q.
Proof.
  induction l as [| x l IH].
  - cbn [app]. change (Py.sumQ []) with 0%Q. ring.
  - cbn [app]. rewrite !sumQ_cons, IH. ring.
Qed.

Lemma sumQ_concat {A : Type} (f : A -> Q) (ls : list (list A)) :
  (Py.sumQ (map f (List.concat ls))
   == Py.sumQ (map (fun l => Py.sumQ (map f l)) ls))%Q.
Proof.
  induction ls as [| l ls IH]; [reflexivity |].
  cbn [List.concat map]. rewrite map_app, sumQ_app, sumQ_cons, IH. reflexivity.
Qed.

Lemma length_concat_counts {A : Type} (ls : list (list A)) :
  List.length (List.concat ls) = sum_counts (map (@List.length A) ls).
Proof.
  induction ls as [| l ls IH]; [reflexivity |].
  cbn [List.concat map sum_counts fold_right]. rewrite length_app, IH.
  reflexivity.
Qed.

Lemma sum_counts_perm (l l' : list nat) :
  Permutation l l' -> sum_counts l = sum_counts l'.
Proof.
  induction 1 as [| x l l' _ IH | x y l | l l' l'' _ IH1 _ IH2];
    unfold sum_counts in *; cbn [fold_right] in *; lia.
Qed.

Lemma summarize_clusters_sorts (holdings : list Holding) :
  Permutation
    (summarize_clusters holdings)
    (map (fun item : string * list Holding =>
            (fst item,
             Py.sumZ (map holding_value (snd item)),
             Py.sumQ (map holding_weight (snd item)),
             List.length (snd item)))
         (cluster_holdings holdings)).
Proof.
  unfold summarize_clusters.
  eapply Permutation_trans; [apply sorted_by_perm |].
  erewrite map_ext; [reflexivity |]. now intros [c l].
Qed.

(** X20: [summarize_clusters] returns one summary per cluster that has a
    holding, ordered by total value descending, and it conserves what it
    sums: the total values add up to the value of all the holdings, the
    total weights to their weight, the counts to their number, and no
    count is 0.  On ASCII names each summary totals and counts the
    holdings that [assign_cluster] puts in its cluster. *)
Theorem summarize_clusters_conserves_totals (holdings : list Holding) :
  let summaries := summarize_clusters holdings in
  StronglySorted (fun a b => summary_value b <= summary_value a) summaries
  /\ NoDup (map summary_name summaries)
  /\ Py.sumZ (map summary_value summaries)
     = Py.sumZ (map holding_value holdings)
  /\ (Py.sumQ (map summary_weight summaries)
      == Py.sumQ (map holding_weight holdings))%Q
  /\ sum_counts (map summary_count summaries) = List.length holdings
  /\ (forall s, In s summaries -> (1 <= summary_count s)%nat)
  /\ (Forall (fun h => is_ascii (holding_name h) = true) holdings ->
      forall s,
        In s summaries ->
        let members := holdings_in (summary_name s) holdings in
        summary_value s = Py.sumZ (map holding_value members)
        /\ (summary_weight s == Py.sumQ (map holding_weight members))%Q
        /\ summary_count s = List.length members).
Proof.
  intros summaries.
  pose proof (summarize_clusters_sorts holdings) as HP. fold summaries in HP.
  set (summ := fun item : string * list Holding =>
                 (fst item,
                  Py.sumZ (map holding_value (snd item)),
                  Py.sumQ (map holding_weight (snd item)),
                  List.length (snd item))) in HP.
  pose proof (cluster_holdings_perm holdings) as Hall.
  assert (Hmember : forall s, In s summaries ->
            exists c l, In (c, l) (cluster_holdings holdings) /\ s = summ (c, l)).
  { intros s Hs. apply (Permutation_in _ HP) in Hs.
    apply in_map_iff in Hs as ([c l] & <- & Hin). now exists c, l. }
  split; [| split; [| split; [| split; [| split; [| split]]]]].
  - unfold summaries, summarize_clusters. apply sorted_by_sorted.
    + intros y x H. apply Z.ltb_lt in H. lia.
    + intros y x H. apply Z.ltb_ge in H. exact H.
    + intros a b c H1 H2. lia.
  - eapply Permutation_NoDup;
      [apply Permutation_sym, Permutation_map, HP |].
    rewrite map_map. cbn [summ summary_name fst].
    change (map (fun x : string * list Holding => fst x)
                (cluster_holdings holdings))
      with (Py.keys (cluster_holdings holdings)).
    rewrite cluster_holdings_keys. now destruct (grouped_holdings holdings).
  - rewrite (sumZ_perm _ _ (Permutation_map summary_value HP)).
    rewrite map_map. cbn [summ summary_value fst snd].
    rewrite <- (sumZ_perm _ _ (Permutation_map holding_value Hall)).
    rewrite sumZ_concat, map_map. reflexivity.
  - rewrite (sumQ_perm _ _ (Permutation_map summary_weight HP)).
    rewrite map_map. cbn [summ summary_weight fst snd].
    rewrite <- (sumQ_perm _ _ (Permutation_map holding_weight Hall)).
    rewrite sumQ_concat, map_map. reflexivity.
  - rewrite (sum_counts_perm _ _ (Permutation_map summary_count HP)).
    rewrite map_map. cbn [summ summary_count snd].
    rewrite <- (Permutation_length Hall), length_concat_counts, map_map.
    reflexivity.
  - intros s Hs. destruct (Hmember s Hs) as (c & l & Hin & ->).
    apply cluster_holdings_In in Hin as [Hne _].
    cbn [summ summary_count snd]. destruct l; [contradiction | cbn; lia].
  - intros _ s Hs members. destruct (Hmember s Hs) as (c & l & Hin & ->).
    apply cluster_holdings_In in Hin as [_ ->].
    unfold members. cbn [summ summary_name summary_value summary_weight
                         summary_count fst snd].
    pose proof (sorted_by_perm
                  (fun y x : Holding => holding_value x <? holding_value y)
                  (holdings_in c holdings)) as Hs'.
    fold (by_value_desc (holdings_in c holdings)) in Hs'.
    split; [| split].
    + exact (sumZ_perm _ _ (Permutation_map holding_value Hs')).
    + exact (sumQ_perm _ _ (Permutation_map holding_weight Hs')).
    + exact (Permutation_length Hs').
Qed.

(** * The names of the signals *)

Lemma last_write_get {A V : Type} (key : A -> string) (val : A -> V)
    (l : list A) :
  forall d0 k,
    Py.get k (fold_left (fun d x => Py.set (key x) (val x) d) l d0)
    = match find (fun x => String.eqb (key x) k) (rev l) with
      | Some x => Some (val x)
      | None => Py.get k d0
      end.
Proof.
  induction l as [| x l IH]; intros d0 k; [reflexivity |].
  cbn [fold_left rev]. rewrite IH, find_over_app.
  destruct (find _ (rev l)); [reflexivity |].
  cbn [find]. destruct (String.eqb_spec (key x) k) as [<- | Hne].
  - apply get_set_same.
  - apply get_set_other. congruence.
Qed.

Lemma find_nothing {A : Type} (p : A -> bool) (l : list A) :
  (forall x, In x l -> p x = false) -> find p l = None.
Proof.
  induction l as [| x l IH]; intros H; [reflexivity |].
  cbn [find]. rewrite (H x (or_introl eq_refl)).
  apply IH. intros y Hy. apply H. now right.
Qed.

Lemma cusip_to_name_of_named (diffs : list QuarterDiff) :
  build_cusip_to_name diffs
  = fold_left (fun d pos => Py.set (cusip pos) (issuer_name pos) d)
              (named_positions diffs) [].
Proof.
  unfold build_cusip_to_name, named_positions.
  now rewrite <- (fold_left_flat_map
                    (fun d pos => Py.set (cusip pos) (issuer_name pos) d)).
Qed.

(** X21: the name that [detect_signals] gives a security identifier in
    its signals is the issuer name of the last position with that
    identifier among the new, increased and decreased positions of the
    diffs, visited in the order given (newest diff first): so it is the
    name under which the oldest such diff lists it.  An identifier that
    no diff lists as new, increased or decreased is named by the
    identifier itself. *)
Theorem signal_name_is_last_written (diffs : list QuarterDiff) (k : string) :
  let name := get_default k (build_cusip_to_name diffs) k in
  ((forall pos, In pos (named_positions diffs) -> cusip pos <> k) -> name = k)
  /\ (forall before pos after,
        named_positions diffs = before ++ pos :: after ->
        cusip pos = k ->
        (forall p, In p after -> cusip p <> k) ->
        name = issuer_name pos).
Proof.
  intros name. unfold name, get_default.
  rewrite cusip_to_name_of_named, (last_write_get cusip issuer_name).
  cbn [Py.get]. split.
  - intros H. rewrite find_nothing; [reflexivity |].
    intros pos Hin. apply in_rev in Hin.
    destruct (String.eqb_spec (cusip pos) k) as [E | _]; [| reflexivity].
    now apply H in Hin.
  - intros before pos after -> Hk Hafter.
    rewrite rev_app_distr. cbn [rev]. rewrite <- app_assoc, find_over_app.
    rewrite find_nothing.
    + cbn [app find]. apply String.eqb_eq in Hk. now rewrite Hk.
    + intros p Hin. apply in_rev in Hin.
      destruct (String.eqb_spec (cusip p) k) as [E | _]; [| reflexivity].
      now apply Hafter in Hin.
Qed.

(** * The consistent accumulator, as the code has it *)

(** X22: the consistent-accumulator detector emits a signal for a history
    exactly when its longest run of consecutive [INCREASE] entries has at
    least three entries; the signal counts that run, is [strong] from
    four entries on and [moderate] for three, and its quarters are the
    periods of the run of [INCREASE] entries that the history ends with,
    all of them and none else: at most as many as the longest run has,
    and none when the last entry of the history is not an [INCREASE]. *)
Theorem consistent_accumulator_rule (cusip_to_name : Py.dict string)
    (cusip : string) (history : list HistEntry) :
  exists n,
    longest_run n history
    /\ ((n < 3)%nat -> accumulator_signal cusip_to_name (cusip, history) = [])
    /\ ((3 <= n)%nat ->
        exists s,
          accumulator_signal cusip_to_name (cusip, history) = [s]
          /\ signal_type s = consistent_accumulator
          /\ holdings s = [get_default cusip cusip_to_name cusip]
          /\ details s = ConsecutiveIncreases n
          /\ (strength s = strong <-> (4 <= n)%nat)
          /\ (strength s = moderate <-> n = 3%nat)
          /\ quarters s = map entry_period (trailing_run history)
          /\ (List.length (quarters s) <= n)%nat
          /\ (forall pre e,
                history = pre ++ [e] -> is_increase e = false ->
                quarters s = [])).
Proof.
  destruct (accumulator_signal_spec cusip_to_name cusip history)
    as (n & Hlong & E).
  exists n. split; [exact Hlong |]. rewrite E. split.
  - intros Hlt. destruct (Nat.leb_spec 3 n); [lia | reflexivity].
  - intros Hge. destruct (Nat.leb_spec 3 n) as [_ | Hlt]; [| lia].
    eexists. split; [reflexivity |].
    cbn [signal_type holdings details strength quarters].
    split; [reflexivity |]. split; [reflexivity |]. split; [reflexivity |].
    split; [| split; [| split; [reflexivity | split]]].
    + destruct (Nat.leb_spec 4 n) as [H4 | H4]; split; intros H;
        try reflexivity; try discriminate H; lia.
    + destruct (Nat.leb_spec 4 n) as [H4 | H4]; split; intros H;
        try reflexivity; try discriminate H; lia.
    + rewrite length_map. destruct Hlong as [_ Hmax].
      apply Hmax, has_run_suffix.
    + intros pre e -> Ee. now rewrite trailing_run_snoc, Ee.
Qed.
